(** * The ACI pull orchestrator of systemd-importd (src/import/pull-aci.c)

    A shallow embedding of [pull-aci.c].  The session object [AciPull] and the
    network jobs it owns live in a small store: the session struct plus a
    heap of [PullJob] objects addressed by pointer, so that the completion
    handler can discriminate jobs by pointer identity as the C code does.

    Every function of the file is a computation in the monad [M]: it threads
    the store, appends the calls made to collaborators (the call log, of
    type [list Effect]) and may abort on a failed [assert].  Results of
    collaborator calls that the file cannot predict (allocation, fork,
    filesystem, network set-up) are read from an oracle [Env].

    Conventions: [int] and [pid_t] values are [Z]; [unsigned] arithmetic is
    [Z] reduced modulo 2^32; a nullable pointer is an [option]; [log_*]
    calls are modelled by their return value only and [free] is not
    logged. *)

From Stdlib Require Import ZArith Lia List String Ascii.
From stdpp Require Import base option gmap strings list pretty.

Local Open Scope Z_scope.

(** ** Constants *)

Definition ENOMEM : Z := 12.
Definition EBUSY : Z := 16.
Definition EINVAL : Z := 22.
Definition SIGKILL : Z := 9.

Definition PROTOCOL_PREFIX : string := "https://".

(** [unsigned] is 32 bits wide. *)
Definition u32 (x : Z) : Z := x mod 2 ^ 32.

(** [log_oom()] returns [-ENOMEM]; [log_error_errno(r, ...)] returns
    [-abs(r)]. *)
Definition log_oom : Z := - ENOMEM.
Definition log_error_errno (r : Z) : Z := - Z.abs r.

(** ** Data model *)

Definition ptr := positive.

Inductive AciProgress : Type :=
| ACI_SIMPLE_DISCOVERY
| ACI_META_DISCOVERY
| ACI_DOWNLOADING
| ACI_COPYING.

(** The job slots of the session: [&i->simple_discovery_job] and so on. *)
Inductive Slot : Type :=
| SIMPLE_DISCOVERY_JOB
| META_DISCOVERY_JOB
| DOWNLOAD_JOB.

#[global] Instance Slot_eq_dec : EqDecision Slot.
Proof. solve_decision. Defined.

(** The three callbacks this file installs in a job. *)
Inductive Hook : Type :=
| hook_aci_pull_job_on_finished
| hook_aci_pull_job_on_open_disk
| hook_aci_pull_job_on_progress.

Inductive PullJobState : Type :=
| PULL_JOB_INIT
| PULL_JOB_ANALYZING
| PULL_JOB_RUNNING
| PULL_JOB_DONE
| PULL_JOB_FAILED.

#[global] Instance PullJobState_eq_dec : EqDecision PullJobState.
Proof. solve_decision. Defined.

Module PullJob.

(** Modelled from the spec: the NetworkJob collaborator ([struct PullJob]
    of pull-job.h, which is not among the sources).  It "exposes a
    progress percentage, a terminal error code, and a disk-open hook";
    the fields are those pull-aci.c reads or writes, plus the life-cycle
    state of the job. *)
Record t : Type := mk {
  state : PullJobState;
  url : string;
  error : Z;
  progress_percent : Z;
  disk_fd : Z;
  on_finished : option Hook;
  on_open_disk : option Hook;
  on_progress : option Hook;
  grow_machine_directory : bool
}.

Definition with_state (v : PullJobState) (j : t) : t :=
  mk v (url j) (error j) (progress_percent j) (disk_fd j)
     (on_finished j) (on_open_disk j) (on_progress j) (grow_machine_directory j).
Definition with_error (v : Z) (j : t) : t :=
  mk (state j) (url j) v (progress_percent j) (disk_fd j)
     (on_finished j) (on_open_disk j) (on_progress j) (grow_machine_directory j).
Definition with_progress_percent (v : Z) (j : t) : t :=
  mk (state j) (url j) (error j) v (disk_fd j)
     (on_finished j) (on_open_disk j) (on_progress j) (grow_machine_directory j).
Definition with_disk_fd (v : Z) (j : t) : t :=
  mk (state j) (url j) (error j) (progress_percent j) v
     (on_finished j) (on_open_disk j) (on_progress j) (grow_machine_directory j).
Definition with_on_finished (v : option Hook) (j : t) : t :=
  mk (state j) (url j) (error j) (progress_percent j) (disk_fd j)
     v (on_open_disk j) (on_progress j) (grow_machine_directory j).
Definition with_on_open_disk (v : option Hook) (j : t) : t :=
  mk (state j) (url j) (error j) (progress_percent j) (disk_fd j)
     (on_finished j) v (on_progress j) (grow_machine_directory j).
Definition with_on_progress (v : option Hook) (j : t) : t :=
  mk (state j) (url j) (error j) (progress_percent j) (disk_fd j)
     (on_finished j) (on_open_disk j) v (grow_machine_directory j).
Definition with_grow_machine_directory (v : bool) (j : t) : t :=
  mk (state j) (url j) (error j) (progress_percent j) (disk_fd j)
     (on_finished j) (on_open_disk j) (on_progress j) v.

(** What [pull_job_new] hands out: a zeroed job with its URL and an
    invalid descriptor. *)
Definition fresh (u : string) : t :=
  mk PULL_JOB_INIT u 0 0 (-1) None None None false.

(** A job is active between [pull_job_begin] and its completion. *)
Definition active (j : t) : bool :=
  match state j with
  | PULL_JOB_ANALYZING | PULL_JOB_RUNNING => true
  | _ => false
  end.

End PullJob.

Module AciPull.

(** [struct AciPull]. *)
Record t : Type := mk {
  event : option ptr;
  glue : option ptr;
  image_root : option string;
  simple_discovery_job : option ptr;
  meta_discovery_job : option ptr;
  download_job : option ptr;
  name : option string;
  tag : option string;
  id : option string;
  on_finished : option ptr;
  userdata : Z;
  local : option string;
  force_local : bool;
  grow_machine_directory : bool;
  temp_path : option string;
  final_path : option string;
  tar_pid : Z
}.

(** [new0(AciPull, 1)]. *)
Definition zero : t :=
  mk None None None None None None None None None None 0 None false false None None 0.

Definition with_event (v : option ptr) (i : t) : t :=
  mk v (glue i) (image_root i) (simple_discovery_job i) (meta_discovery_job i)
     (download_job i) (name i) (tag i) (id i) (on_finished i) (userdata i) (local i)
     (force_local i) (grow_machine_directory i) (temp_path i) (final_path i) (tar_pid i).
Definition with_glue (v : option ptr) (i : t) : t :=
  mk (event i) v (image_root i) (simple_discovery_job i) (meta_discovery_job i)
     (download_job i) (name i) (tag i) (id i) (on_finished i) (userdata i) (local i)
     (force_local i) (grow_machine_directory i) (temp_path i) (final_path i) (tar_pid i).
Definition with_image_root (v : option string) (i : t) : t :=
  mk (event i) (glue i) v (simple_discovery_job i) (meta_discovery_job i)
     (download_job i) (name i) (tag i) (id i) (on_finished i) (userdata i) (local i)
     (force_local i) (grow_machine_directory i) (temp_path i) (final_path i) (tar_pid i).
Definition with_simple_discovery_job (v : option ptr) (i : t) : t :=
  mk (event i) (glue i) (image_root i) v (meta_discovery_job i)
     (download_job i) (name i) (tag i) (id i) (on_finished i) (userdata i) (local i)
     (force_local i) (grow_machine_directory i) (temp_path i) (final_path i) (tar_pid i).
Definition with_meta_discovery_job (v : option ptr) (i : t) : t :=
  mk (event i) (glue i) (image_root i) (simple_discovery_job i) v
     (download_job i) (name i) (tag i) (id i) (on_finished i) (userdata i) (local i)
     (force_local i) (grow_machine_directory i) (temp_path i) (final_path i) (tar_pid i).
Definition with_download_job (v : option ptr) (i : t) : t :=
  mk (event i) (glue i) (image_root i) (simple_discovery_job i) (meta_discovery_job i)
     v (name i) (tag i) (id i) (on_finished i) (userdata i) (local i)
     (force_local i) (grow_machine_directory i) (temp_path i) (final_path i) (tar_pid i).
Definition with_name (v : option string) (i : t) : t :=
  mk (event i) (glue i) (image_root i) (simple_discovery_job i) (meta_discovery_job i)
     (download_job i) v (tag i) (id i) (on_finished i) (userdata i) (local i)
     (force_local i) (grow_machine_directory i) (temp_path i) (final_path i) (tar_pid i).
Definition with_id (v : option string) (i : t) : t :=
  mk (event i) (glue i) (image_root i) (simple_discovery_job i) (meta_discovery_job i)
     (download_job i) (name i) (tag i) v (on_finished i) (userdata i) (local i)
     (force_local i) (grow_machine_directory i) (temp_path i) (final_path i) (tar_pid i).
Definition with_on_finished (v : option ptr) (u : Z) (i : t) : t :=
  mk (event i) (glue i) (image_root i) (simple_discovery_job i) (meta_discovery_job i)
     (download_job i) (name i) (tag i) (id i) v u (local i)
     (force_local i) (grow_machine_directory i) (temp_path i) (final_path i) (tar_pid i).
Definition with_local (v : option string) (i : t) : t :=
  mk (event i) (glue i) (image_root i) (simple_discovery_job i) (meta_discovery_job i)
     (download_job i) (name i) (tag i) (id i) (on_finished i) (userdata i) v
     (force_local i) (grow_machine_directory i) (temp_path i) (final_path i) (tar_pid i).
Definition with_force_local (v : bool) (i : t) : t :=
  mk (event i) (glue i) (image_root i) (simple_discovery_job i) (meta_discovery_job i)
     (download_job i) (name i) (tag i) (id i) (on_finished i) (userdata i) (local i)
     v (grow_machine_directory i) (temp_path i) (final_path i) (tar_pid i).
Definition with_grow_machine_directory (v : bool) (i : t) : t :=
  mk (event i) (glue i) (image_root i) (simple_discovery_job i) (meta_discovery_job i)
     (download_job i) (name i) (tag i) (id i) (on_finished i) (userdata i) (local i)
     (force_local i) v (temp_path i) (final_path i) (tar_pid i).
Definition with_temp_path (v : option string) (i : t) : t :=
  mk (event i) (glue i) (image_root i) (simple_discovery_job i) (meta_discovery_job i)
     (download_job i) (name i) (tag i) (id i) (on_finished i) (userdata i) (local i)
     (force_local i) (grow_machine_directory i) v (final_path i) (tar_pid i).
Definition with_final_path (v : option string) (i : t) : t :=
  mk (event i) (glue i) (image_root i) (simple_discovery_job i) (meta_discovery_job i)
     (download_job i) (name i) (tag i) (id i) (on_finished i) (userdata i) (local i)
     (force_local i) (grow_machine_directory i) (temp_path i) v (tar_pid i).
Definition with_tar_pid (v : Z) (i : t) : t :=
  mk (event i) (glue i) (image_root i) (simple_discovery_job i) (meta_discovery_job i)
     (download_job i) (name i) (tag i) (id i) (on_finished i) (userdata i) (local i)
     (force_local i) (grow_machine_directory i) (temp_path i) (final_path i) v.

Definition slot (s : Slot) (i : t) : option ptr :=
  match s with
  | SIMPLE_DISCOVERY_JOB => simple_discovery_job i
  | META_DISCOVERY_JOB => meta_discovery_job i
  | DOWNLOAD_JOB => download_job i
  end.
Definition with_slot (s : Slot) (v : option ptr) (i : t) : t :=
  match s with
  | SIMPLE_DISCOVERY_JOB => with_simple_discovery_job v i
  | META_DISCOVERY_JOB => with_meta_discovery_job v i
  | DOWNLOAD_JOB => with_download_job v i
  end.

End AciPull.

(** The store: the session and the jobs allocated for it. *)
Record World : Type := mkWorld {
  aci : AciPull.t;
  jobs : gmap ptr PullJob.t
}.

(** ** Calls to collaborators

    One constructor per external function called by pull-aci.c, carrying
    the arguments that matter (and, for the two job calls, the result:
    [pull_job_new] records the slot whose address it was given and the job
    it stored there, if any). *)
Inductive Effect : Type :=
| kill_and_sigcont (pid sig : Z)
| wait_for_terminate (pid : Z)
| wait_for_terminate_and_warn (what : string) (pid : Z) (check_exit_code : bool)
| pull_job_unref (j : option ptr)
| curl_glue_unref (g : option ptr)
| sd_event_unref (e : option ptr)
| btrfs_subvol_remove (path : string)
| rm_rf_dangerous (path : string) (only_dirs delete_root honour_sticky : bool)
| sd_notifyf (unset_environment : bool) (message : string)
| mkdir_parents_label (path : string) (mode : Z)
| btrfs_subvol_make (path : string)
| import_fork_tar_x (path : string)
| safe_close (fd : Z)
| pull_job_new (ret : Slot) (u : string) (allocated : option ptr)
| pull_job_begin (j : ptr) (r : Z)
| pull_make_local_copy (final image_root local : option string) (force_local : bool)
| call_on_finished (callback : ptr) (r : Z) (userdata : Z)
| sd_event_exit (e : option ptr) (r : Z).

(** Results of the collaborator calls made during one entry into this
    file; a negative code is a failure, as in the C API. *)
Record Env : Type := mkEnv {
  alloc_ok : nat -> bool;           (* new0 / strdup / strjoin / tempfn_random /
                                       free_and_strdup, by allocation site of the
                                       function entered, in source order *)
  entropy : Z;                      (* random bits drawn by tempfn_random *)
  sd_event_default_r : Z;
  sd_event_default_h : ptr;
  curl_glue_new_r : Z;
  curl_glue_new_h : ptr;
  pull_job_new_r : Z;
  pull_job_begin_r : Z;
  btrfs_subvol_make_r : Z;
  import_fork_tar_x_r : Z;          (* the pipe descriptor, or a negative errno *)
  fork_pid : Z;                     (* the child forked when that call succeeds *)
  wait_for_terminate_and_warn_r : Z;
  pull_make_local_copy_r : Z
}.

(** ** The monad of the file: store, call log, failed assertions *)

Inductive Res (A : Type) : Type :=
| Ok (a : A) (w : World) (tr : list Effect)
| Crash (why : string) (tr : list Effect).
Arguments Ok {A} a w tr.
Arguments Crash {A} why tr.

Definition M (A : Type) : Type := World -> Res A.

#[global] Instance M_ret : MRet M := fun A a w => Ok a w [].
#[global] Instance M_bind : MBind M := fun A B k m w =>
  match m w with
  | Ok a w1 tr1 =>
      match k a w1 with
      | Ok b w2 tr2 => Ok b w2 (tr1 ++ tr2)
      | Crash why tr2 => Crash why (tr1 ++ tr2)
      end
  | Crash why tr1 => Crash why tr1
  end.

Definition get_aci : M AciPull.t := fun w => Ok (aci w) w [].
Definition get_jobs : M (gmap ptr PullJob.t) := fun w => Ok (jobs w) w [].
Definition modify_aci (f : AciPull.t -> AciPull.t) : M unit :=
  fun w => Ok tt (mkWorld (f (aci w)) (jobs w)) [].
Definition call (e : Effect) : M unit := fun w => Ok tt w [e].
Definition abort {A} (why : string) : M A := fun _ => Crash why [].
Definition assert_ (b : bool) (why : string) : M unit :=
  if b then mret tt else abort why.

(** [j->field]: dereferencing a pointer that is not a live job is
    undefined behaviour and aborts the model. *)
Definition deref (j : ptr) : M PullJob.t := fun w =>
  match jobs w !! j with
  | Some job => Ok job w []
  | None => Crash "dereference of a dead job pointer" []
  end.

(** [j->field = v]. *)
Definition modify_job (j : ptr) (f : PullJob.t -> PullJob.t) : M unit := fun w =>
  match jobs w !! j with
  | Some job => Ok tt (mkWorld (aci w) (<[j := f job]> (jobs w))) []
  | None => Crash "dereference of a dead job pointer" []
  end.

(** A block of the form [if (...) return r;]: [Some r] leaves the function
    with [r], [None] falls through to the rest. *)
Definition or_return (m : M (option Z)) (k : M Z) : M Z :=
  o ← m; match o with Some r => mret r | None => k end.
Notation "m 'ELSE' k" := (or_return m k) (at level 100, k at level 200, right associativity,
  format "'[v' m '//' 'ELSE'  k ']'").

(** ** [aci_pull_report_progress] *)

Definition progress_message (percent : Z) : string :=
  "X_IMPORT_PROGRESS=" +:+ pretty (Z.to_N percent).

(** [percent += j->progress_percent * scale / 100] when the slot is set. *)
Definition add_job_progress (slot : option ptr) (scale : Z) (percent : Z) : M Z :=
  match slot with
  | Some j =>
      job ← deref j;
      mret (u32 (percent + u32 (PullJob.progress_percent job * scale) / 100))
  | None => mret percent
  end.

Definition combined_percent (p : AciProgress) : M Z :=
  i ← get_aci;
  match p with
  | ACI_SIMPLE_DISCOVERY => add_job_progress (AciPull.simple_discovery_job i) 50 0
  | ACI_META_DISCOVERY => add_job_progress (AciPull.meta_discovery_job i) 5 50
  | ACI_DOWNLOADING => add_job_progress (AciPull.download_job i) 40 55
  | ACI_COPYING => mret 95
  end.

Definition aci_pull_report_progress (p : AciProgress) : M unit :=
  percent ← combined_percent p;
  call (sd_notifyf false (progress_message percent)).

(** ** Pure collaborators

    Functions of other files that pull-aci.c calls for their value only;
    the platform strings are what [uname] and [uname_architecture] report
    on the running machine. *)
Class Collaborators : Type := {
  aci_name_is_valid : string -> bool;
  machine_name_is_valid : string -> bool;
  path_startswith : string -> string -> bool;
  (* the name tempfn_random derives from a path and the random bits it draws *)
  tempfn_random : string -> Z -> string;
  (* u.sysname after uname(&u) *)
  uname_sysname : string;
  (* architecture_to_string(uname_architecture()) *)
  uname_architecture_string : string
}.

(** [strjoin(a, b, ..., NULL)]: the argument list ends at the first NULL. *)
Fixpoint strjoin (parts : list (option string)) : string :=
  match parts with
  | Some s :: rest => s +:+ strjoin rest
  | _ => ""
  end.

(** [tolower] on one character (C locale). *)
Definition tolower (c : ascii) : ascii :=
  let n := N_of_ascii c in
  if ((65 <=? n) && (n <=? 90))%N then ascii_of_N (n + 32) else c.

(** [os[0] = tolower(os[0])]. *)
Definition tolower_first (s : string) : string :=
  match s with
  | EmptyString => EmptyString
  | String c rest => String (tolower c) rest
  end.

(** ** [aci_pull_unref] *)

Definition aci_pull_unref (s : option World) : option World * list Effect :=
  match s with
  | None => (None, [])
  | Some w =>
      let i := aci w in
      (None,
       (if 1 <? AciPull.tar_pid i
        then [kill_and_sigcont (AciPull.tar_pid i) SIGKILL;
              wait_for_terminate (AciPull.tar_pid i)]
        else [])
       ++ [pull_job_unref (AciPull.simple_discovery_job i);
           pull_job_unref (AciPull.meta_discovery_job i);
           pull_job_unref (AciPull.download_job i);
           curl_glue_unref (AciPull.glue i);
           sd_event_unref (AciPull.event i)]
       ++ match AciPull.temp_path i with
          | Some p => [btrfs_subvol_remove p; rm_rf_dangerous p false true false]
          | None => []
          end)
  end.

Section PullAci.

Context `{Collaborators}.

(** ** [aci_pull_new]

    Returns the code and [*ret]; on an error path the partially built
    session is released by the [_cleanup_] handler, whose calls are part
    of the log.  The two fields set in the new [CurlGlue] belong to that
    object, which is opaque here. *)
Definition aci_pull_new (e : Env) (event : option ptr) (image_root : option string)
    (on_finished : option ptr) (userdata : Z) : Z * option World * list Effect :=
  let cleanup (i : AciPull.t) := snd (aci_pull_unref (Some (mkWorld i ∅))) in
  if negb (alloc_ok e 0) then (- ENOMEM, None, [])
  else
    let i := AciPull.with_on_finished on_finished userdata AciPull.zero in
    let root := default "/var/lib/machines" image_root in
    if negb (alloc_ok e 1) then (- ENOMEM, None, cleanup i)
    else
    let i := AciPull.with_image_root (Some root) i in
    let i := AciPull.with_grow_machine_directory (path_startswith root "/var/lib/machines") i in
    let ev := match event with
              | Some h => inr h
              | None => if sd_event_default_r e <? 0 then inl (sd_event_default_r e)
                        else inr (sd_event_default_h e)
              end in
    match ev with
    | inl r => (r, None, cleanup i)
    | inr h =>
        let i := AciPull.with_event (Some h) i in
        if curl_glue_new_r e <? 0 then (curl_glue_new_r e, None, cleanup i)
        else (0, Some (mkWorld (AciPull.with_glue (Some (curl_glue_new_h e)) i) ∅), [])
    end.

(** ** [aci_pull_make_local_copy] *)

Definition aci_pull_make_local_copy (e : Env) : M Z :=
  i ← get_aci;
  match AciPull.local i with
  | None => mret 0
  | Some _ =>
      (match AciPull.final_path i with
       | Some _ => mret None
       | None =>
           if alloc_ok e 0
           then modify_aci (AciPull.with_final_path
                  (Some (strjoin [AciPull.image_root i; Some "/.aci-"; AciPull.id i])));;
                mret None
           else mret (Some log_oom)
       end)
      ELSE
      (call (pull_make_local_copy (AciPull.temp_path i) (AciPull.image_root i)
               (AciPull.local i) (AciPull.force_local i));;
       if pull_make_local_copy_r e <? 0 then mret (Some (pull_make_local_copy_r e))
       else mret None)
      ELSE mret 0
  end.

(** ** [aci_pull_job_on_open_disk] *)

Definition aci_pull_job_on_open_disk (e : Env) (j : ptr) : M Z :=
  _ ← deref j;
  (i ← get_aci;
   match AciPull.final_path i with
   | Some _ => mret None
   | None =>
       if alloc_ok e 0
       then modify_aci (AciPull.with_final_path
              (Some (strjoin [AciPull.image_root i; Some "/.aci-"; AciPull.id i])));;
            mret None
       else mret (Some log_oom)
   end)
  ELSE
  (i ← get_aci;
   match AciPull.temp_path i, AciPull.final_path i with
   | Some _, _ => mret None
   | None, None => abort "assert(i->final_path)"
   | None, Some final =>
       if alloc_ok e 1
       then let temp := tempfn_random final (entropy e) in
            modify_aci (AciPull.with_temp_path (Some temp));;
            call (mkdir_parents_label temp 448);;
            call (btrfs_subvol_make temp);;
            if btrfs_subvol_make_r e <? 0
            then mret (Some (log_error_errno (btrfs_subvol_make_r e)))
            else mret None
       else mret (Some log_oom)
   end)
  ELSE
  (i ← get_aci;
   assert_ (AciPull.tar_pid i <=? 0) "assert(i->tar_pid <= 0)";;
   match AciPull.temp_path i with
   | None => abort "import_fork_tar_x(NULL)"
   | Some temp =>
       call (import_fork_tar_x temp);;
       (if import_fork_tar_x_r e <? 0 then mret tt
        else modify_aci (AciPull.with_tar_pid (fork_pid e)));;
       modify_job j (PullJob.with_disk_fd (import_fork_tar_x_r e));;
       if import_fork_tar_x_r e <? 0 then mret (import_fork_tar_x_r e) else mret 0
   end).

(** ** [aci_pull_job_on_progress] *)

Definition aci_pull_job_on_progress (j : ptr) : M unit :=
  _ ← deref j;
  i ← get_aci;
  aci_pull_report_progress
    (if decide (Some j = AciPull.simple_discovery_job i) then ACI_SIMPLE_DISCOVERY
     else if decide (Some j = AciPull.meta_discovery_job i) then ACI_META_DISCOVERY
     else ACI_DOWNLOADING).

(** ** Job creation

    Modelled from the spec: [pull_job_new] and [pull_job_begin] of
    pull-job.c, which is not among the sources.  [pull_job_new(&slot, url,
    glue, i)] allocates a job for one fetch of [url] and stores it in the
    slot, or fails and leaves the slot alone; [pull_job_begin] hands the
    job to the transport, after which it is active. *)
Definition allocate_job (s : Slot) (p : ptr) (u : string) : M unit := fun w =>
  Ok tt (mkWorld (AciPull.with_slot s (Some p) (aci w)) (<[p := PullJob.fresh u]> (jobs w))) [].

Definition do_pull_job_new (e : Env) (s : Slot) (u : string) : M Z :=
  if pull_job_new_r e <? 0
  then call (pull_job_new s u None);; mret (pull_job_new_r e)
  else js ← get_jobs;
       let p := fresh (dom js) in
       allocate_job s p u;;
       call (pull_job_new s u (Some p));;
       mret 0.

Definition do_pull_job_begin (e : Env) (slot : option ptr) : M Z :=
  match slot with
  | None => abort "pull_job_begin(NULL)"
  | Some p =>
      call (pull_job_begin p (pull_job_begin_r e));;
      (if pull_job_begin_r e <? 0 then mret tt
       else modify_job p (PullJob.with_state PULL_JOB_ANALYZING));;
      mret (pull_job_begin_r e)
  end.

(** [slot->field = v] for a slot of the session. *)
Definition modify_slot (slot : option ptr) (f : PullJob.t -> PullJob.t) : M unit :=
  match slot with
  | None => abort "dereference of a NULL job slot"
  | Some p => modify_job p f
  end.

Definition META_DISCOVERY_URL : string := "https://coreos.com".
Definition DOWNLOAD_URL : string :=
  "https://github.com/coreos/etcd/releases/download/v2.0.5/etcd-v2.0.5-linux-amd64.aci".

(** ** [aci_pull_start_meta_discovery] *)

Definition aci_pull_start_meta_discovery (e : Env) : M Z :=
  (r ← do_pull_job_new e META_DISCOVERY_JOB META_DISCOVERY_URL;
   if r <? 0 then mret (Some (log_error_errno r)) else mret None)
  ELSE
  (i ← get_aci;
   let slot := AciPull.meta_discovery_job i in
   modify_slot slot (PullJob.with_on_finished (Some hook_aci_pull_job_on_finished));;
   modify_slot slot (PullJob.with_on_progress (Some hook_aci_pull_job_on_progress));;
   modify_slot slot (PullJob.with_grow_machine_directory (AciPull.grow_machine_directory i));;
   r ← do_pull_job_begin e slot;
   if r <? 0 then mret (Some (log_error_errno r)) else mret None)
  ELSE mret 0.

(** ** [aci_pull_start_download] *)

Definition aci_pull_start_download (e : Env) (u : string) : M Z :=
  (r ← do_pull_job_new e DOWNLOAD_JOB u;
   if r <? 0 then mret (Some (log_error_errno r)) else mret None)
  ELSE
  (i ← get_aci;
   let slot := AciPull.download_job i in
   modify_slot slot (PullJob.with_on_finished (Some hook_aci_pull_job_on_finished));;
   modify_slot slot (PullJob.with_on_open_disk (Some hook_aci_pull_job_on_open_disk));;
   modify_slot slot (PullJob.with_on_progress (Some hook_aci_pull_job_on_progress));;
   modify_slot slot (PullJob.with_grow_machine_directory (AciPull.grow_machine_directory i));;
   r ← do_pull_job_begin e slot;
   if r <? 0 then mret (Some (log_error_errno r)) else mret None)
  ELSE mret 0.

(** ** [aci_pull_job_on_finished]

    The function is three pieces of straight-line code joined by [goto]:
    the dispatch on the job's identity, the [copy:] block and the
    [finish:] block. *)
Inductive Goto : Type :=
| goto_return
| goto_copy
| goto_finish (r : Z).

Definition on_finished_dispatch (e : Env) (j : ptr) : M Goto :=
  job ← deref j;
  i ← get_aci;
  if decide (AciPull.simple_discovery_job i = Some j) then
    if PullJob.error job <? 0 then
      (if 1 <? AciPull.tar_pid i
       then call (kill_and_sigcont (AciPull.tar_pid i) SIGKILL);;
            call (wait_for_terminate (AciPull.tar_pid i));;
            modify_aci (AciPull.with_tar_pid 0)
       else mret tt);;
      r ← aci_pull_start_meta_discovery e;
      if r <? 0 then mret (goto_finish r) else mret goto_return
    else mret goto_copy
  else if decide (AciPull.meta_discovery_job i = Some j) then
    if PullJob.error job <? 0 then mret (goto_finish (PullJob.error job))
    else
      r ← aci_pull_start_download e DOWNLOAD_URL;
      if r <? 0 then mret (goto_finish r) else mret goto_return
  else if decide (AciPull.download_job i = Some j) then
    if PullJob.error job <? 0 then mret (goto_finish (PullJob.error job))
    else mret goto_copy
  else abort "Got finished event for unknown curl object".

Definition on_finished_copy (e : Env) (j : ptr) : M Z :=
  aci_pull_report_progress ACI_COPYING;;
  job ← deref j;
  call (safe_close (PullJob.disk_fd job));;
  modify_job j (PullJob.with_disk_fd (-1));;
  ((i ← get_aci;
    if 0 <? AciPull.tar_pid i
    then call (wait_for_terminate_and_warn "tar" (AciPull.tar_pid i) true);;
         modify_aci (AciPull.with_tar_pid 0);;
         if wait_for_terminate_and_warn_r e <? 0
         then mret (Some (wait_for_terminate_and_warn_r e))
         else mret None
    else mret None)
   ELSE
   (r ← aci_pull_make_local_copy e;
    if r <? 0 then mret (Some r) else mret None)
   ELSE mret 0).

Definition on_finished_finish (r : Z) : M unit :=
  i ← get_aci;
  match AciPull.on_finished i with
  | Some callback => call (call_on_finished callback r (AciPull.userdata i))
  | None => call (sd_event_exit (AciPull.event i) r)
  end.

Definition aci_pull_job_on_finished (e : Env) (j : ptr) : M unit :=
  g ← on_finished_dispatch e j;
  match g with
  | goto_return => mret tt
  | goto_copy => r ← on_finished_copy e j; on_finished_finish r
  | goto_finish r => on_finished_finish r
  end.

(** ** [aci_pull_start] *)

Definition ACI_ID_PLACEHOLDER : string := "68b329da9893e34099c7d8ad5cb9c940".

(** The local computations of [version], [os], [arch], [ext] and [url].
    [uname] is taken to succeed ([assert_se(uname(&u) >= 0)]), and so is
    the unchecked [malloc(4096)] that holds the content-id. *)
Definition simple_discovery_url (name tag : string) : string :=
  let version := tag in
  let os := tolower_first uname_sysname in
  let arch := uname_architecture_string in
  let ext := "aci" in
  let arch := if String.eqb arch "x86-64" then "amd64" else arch in
  strjoin [Some PROTOCOL_PREFIX; Some name; Some "-"; Some version; Some "-";
           Some os; Some "-"; Some arch; Some "."; Some ext].

(** [free_and_strdup(&field, s)]: copying NULL cannot fail. *)
Definition free_and_strdup (ok : bool) (set : option string -> AciPull.t -> AciPull.t)
    (s : option string) : M Z :=
  match s with
  | Some _ => if ok then modify_aci (set s);; mret 0 else mret (- ENOMEM)
  | None => modify_aci (set None);; mret 0
  end.

Definition aci_pull_start (e : Env) (name tag : string) (local : option string)
    (force_local : bool) : M Z :=
  i ← get_aci;
  if negb (aci_name_is_valid name) then mret (- EINVAL)
  else if match local with Some l => negb (machine_name_is_valid l) | None => false end
  then mret (- EINVAL)
  else if bool_decide (is_Some (AciPull.simple_discovery_job i)) then mret (- EBUSY)
  else
    let u := simple_discovery_url name tag in
    modify_aci (AciPull.with_id (Some ACI_ID_PLACEHOLDER));;
    (r ← free_and_strdup (alloc_ok e 0) AciPull.with_local local;
     if r <? 0 then mret (Some r) else mret None)
    ELSE
    (modify_aci (AciPull.with_force_local force_local);;
     r ← free_and_strdup (alloc_ok e 1) AciPull.with_name (Some name);
     if r <? 0 then mret (Some r) else mret None)
    ELSE
    (r ← do_pull_job_new e SIMPLE_DISCOVERY_JOB u;
     if r <? 0 then mret (Some r) else mret None)
    ELSE
    (i ← get_aci;
     let slot := AciPull.simple_discovery_job i in
     modify_slot slot (PullJob.with_on_finished (Some hook_aci_pull_job_on_finished));;
     modify_slot slot (PullJob.with_on_open_disk (Some hook_aci_pull_job_on_open_disk));;
     modify_slot slot (PullJob.with_on_progress (Some hook_aci_pull_job_on_progress));;
     do_pull_job_begin e slot).

(** ** The event loop

    Modelled from the spec: the part of pull-job.c and of the scheduler
    that calls back into this file, which is not among the sources.  A
    job that has begun is active; while active it may open its disk sink
    once (hook [on_open_disk], before any payload is written), report
    progress any number of times (hook [on_progress]) and it completes
    once, with a result code (hook [on_finished]); "a slot, once it
    transitions to finished, is never restarted".  The caller may invoke
    [aci_pull_start] at any time.  [deliver] returns [None] for an event
    the collaborators cannot produce in the current store. *)
Inductive Event : Type :=
| EvStart (name tag : string) (local : option string) (force_local : bool)
| EvOpenDisk (j : ptr)
| EvProgress (j : ptr) (percent : Z)
| EvFinished (j : ptr) (ret : Z).

Definition run_hook {A} (h : option Hook) (handler : M A) : M unit :=
  match h with
  | Some _ => handler;; mret tt
  | None => mret tt
  end.

Definition deliver (e : Env) (ev : Event) (w : World) : option (Res unit) :=
  match ev with
  | EvStart name tag local force_local =>
      Some ((aci_pull_start e name tag local force_local;; mret tt) w)
  | EvOpenDisk j =>
      match jobs w !! j with
      | Some job =>
          if decide (PullJob.state job = PULL_JOB_ANALYZING)
          then Some ((run_hook (PullJob.on_open_disk job) (aci_pull_job_on_open_disk e j);;
                      modify_job j (PullJob.with_state PULL_JOB_RUNNING)) w)
          else None
      | None => None
      end
  | EvProgress j percent =>
      match jobs w !! j with
      | Some job =>
          if PullJob.active job
          then Some ((modify_job j (PullJob.with_progress_percent (u32 percent));;
                      run_hook (PullJob.on_progress job) (aci_pull_job_on_progress j)) w)
          else None
      | None => None
      end
  | EvFinished j ret =>
      match jobs w !! j with
      | Some job =>
          if PullJob.active job
          then Some (((if decide (ret = 0)
                       then modify_job j (fun x => PullJob.with_progress_percent 100
                                                     (PullJob.with_state PULL_JOB_DONE x))
                       else modify_job j (fun x => PullJob.with_error ret
                                                     (PullJob.with_state PULL_JOB_FAILED x)));;
                      run_hook (PullJob.on_finished job) (aci_pull_job_on_finished e j)) w)
          else None
      | None => None
      end
  end.

(** A session is driven by a script of events, each with the oracle for
    the collaborator calls made while it is handled. *)
Fixpoint run (script : list (Env * Event)) (w : World) : option (Res unit) :=
  match script with
  | [] => Some (Ok tt w [])
  | (e, ev) :: rest =>
      match deliver e ev w with
      | Some (Ok _ w1 tr1) =>
          match run rest w1 with
          | Some (Ok _ w2 tr2) => Some (Ok tt w2 (tr1 ++ tr2))
          | Some (Crash why tr2) => Some (Crash why (tr1 ++ tr2))
          | None => None
          end
      | Some (Crash why tr1) => Some (Crash why tr1)
      | None => None
      end
  end.

End PullAci.

(** ** Vocabulary for the statements *)

(** Calls that terminate or reap the extraction subprocess at teardown. *)
Definition is_reap (x : Effect) : bool :=
  match x with
  | kill_and_sigcont _ _ | wait_for_terminate _ => true
  | _ => false
  end.

(** Calls that remove a snapshot from the filesystem. *)
Definition is_snapshot_removal (x : Effect) : bool :=
  match x with
  | btrfs_subvol_remove _ | rm_rf_dangerous _ _ _ _ => true
  | _ => false
  end.

(** Calls that hand the final result code of the pull to the caller. *)
Definition is_notification (x : Effect) : bool :=
  match x with
  | call_on_finished _ _ _ | sd_event_exit _ _ => true
  | _ => false
  end.

(** How the session [i] delivers the result code [r]. *)
Definition notification (i : AciPull.t) (r : Z) : Effect :=
  match AciPull.on_finished i with
  | Some callback => call_on_finished callback r (AciPull.userdata i)
  | None => sd_event_exit (AciPull.event i) r
  end.

(** An attempt to create a job in slot [s]. *)
Definition is_job_new (s : Slot) (x : Effect) : bool :=
  match x with
  | pull_job_new s' _ _ => bool_decide (s' = s)
  | _ => false
  end.

(** A job in slot [s] was created. *)
Definition is_job_created (s : Slot) (x : Effect) : bool :=
  match x with
  | pull_job_new s' _ (Some _) => bool_decide (s' = s)
  | _ => false
  end.

Definition is_job_call (x : Effect) : bool :=
  match x with
  | pull_job_new _ _ _ | pull_job_begin _ _ => true
  | _ => false
  end.

(** Calls that create something in the filesystem: the staging calls, with
    the path they are given, and the local copy, which creates a resource
    of its own under the image root. *)
Definition creates (x : Effect) : option (option string) :=
  match x with
  | mkdir_parents_label p _ | btrfs_subvol_make p | import_fork_tar_x p => Some (Some p)
  | pull_make_local_copy _ _ _ _ => Some None
  | _ => None
  end.

Definition is_creation (x : Effect) : bool :=
  match creates x with Some _ => true | None => false end.

(** The number of calls of a kind in a call log. *)
Fixpoint count (f : Effect -> bool) (tr : list Effect) : nat :=
  match tr with
  | [] => 0
  | x :: rest => ((if f x then 1 else 0) + count f rest)%nat
  end.

(** The job stored in a slot. *)
Definition slot_job (s : Slot) (w : World) : option PullJob.t :=
  AciPull.slot s (aci w) ≫= (jobs w !!.).

(** A job has completed with the result the completion handler reads. *)
Definition completed (job : PullJob.t) : bool :=
  match PullJob.state job with
  | PULL_JOB_DONE | PULL_JOB_FAILED => true
  | _ => false
  end.
Definition failed (job : PullJob.t) : bool := completed job && (PullJob.error job <? 0).
Definition succeeded (job : PullJob.t) : bool := completed job && (0 <=? PullJob.error job).

(** The spec's wording of the operating-system token: "the lower-cased
    platform name". *)
Fixpoint lower_cased (s : string) : string :=
  match s with
  | EmptyString => EmptyString
  | String c rest => String (tolower c) (lower_cased rest)
  end.

(** ** Example platforms and oracles, used to exercise the theorems *)

Definition example_platform (sysname arch : string) : Collaborators := {|
  aci_name_is_valid := fun s => negb (String.eqb s "");
  machine_name_is_valid := fun s => negb (String.eqb s "");
  path_startswith := fun path p => String.prefix p path;
  tempfn_random := fun p bits => p +:+ "." +:+ pretty (Z.to_N bits);
  uname_sysname := sysname;
  uname_architecture_string := arch
|}.

Definition linux_x86_64 : Collaborators := example_platform "Linux" "x86-64".

(** Every collaborator call succeeds; the forked child is process 4242
    writing to descriptor 5. *)
Definition env_ok : Env :=
  {| alloc_ok := fun _ => true; entropy := 7;
     sd_event_default_r := 0; sd_event_default_h := 1%positive;
     curl_glue_new_r := 0; curl_glue_new_h := 2%positive;
     pull_job_new_r := 0; pull_job_begin_r := 0;
     btrfs_subvol_make_r := 0;
     import_fork_tar_x_r := 5; fork_pid := 4242;
     wait_for_terminate_and_warn_r := 0;
     pull_make_local_copy_r := 0 |}.

(** [pull_job_new] fails with [-ENOMEM]. *)
Definition env_no_job : Env :=
  {| alloc_ok := fun _ => true; entropy := 7;
     sd_event_default_r := 0; sd_event_default_h := 1%positive;
     curl_glue_new_r := 0; curl_glue_new_h := 2%positive;
     pull_job_new_r := - ENOMEM; pull_job_begin_r := 0;
     btrfs_subvol_make_r := 0;
     import_fork_tar_x_r := 5; fork_pid := 4242;
     wait_for_terminate_and_warn_r := 0;
     pull_make_local_copy_r := 0 |}.

(** A session as [aci_pull_new] builds it: default image root, default
    event loop, completion callback [callback]. *)
Definition new_session (callback : option ptr) : World :=
  mkWorld
    (AciPull.with_glue (Some 2%positive)
      (AciPull.with_event (Some 1%positive)
        (AciPull.with_grow_machine_directory true
          (AciPull.with_image_root (Some "/var/lib/machines")
            (AciPull.with_on_finished callback 0 AciPull.zero)))))
    ∅.

(** ** Definitions used by the statements and proofs *)

Section Claimed.

Context `{Collaborators}.

(** The pieces of a string between the occurrences of the character
    [sep]. *)
Fixpoint split_on (sep : ascii) (s : string) : list string :=
  match s with
  | EmptyString => [EmptyString]
  | String c rest =>
      if Ascii.eqb c sep then EmptyString :: split_on sep rest
      else match split_on sep rest with
           | piece :: pieces => String c piece :: pieces
           | [] => [String c EmptyString]
           end
  end.

(** What follows the prefix [p] in [s], if [s] starts with [p]. *)
Fixpoint after_prefix (p s : string) : option string :=
  match p, s with
  | EmptyString, _ => Some s
  | String a p', String b s' => if Ascii.eqb a b then after_prefix p' s' else None
  | String _ _, EmptyString => None
  end.

(** The spec's wording of the version: "the version token parsed out of
    tag".  A tag is, as the comment on [version] in [aci_pull_start] has
    it, a bare version (["v2.0.0"]) or a comma-separated list of labels
    (["version=v2.0.0,foo=bar"]): the version token is the value of the
    label [version] when the tag has one, and the tag itself when it has
    none. *)
Definition version_token (tag : string) : string :=
  match omap (after_prefix "version=") (split_on "," tag) with
  | v :: _ => v
  | [] => tag
  end.

(** The URL the claim describes: the version token parsed out of the
    tag, the platform name lower-cased, the architecture translated. *)
Definition claimed_simple_discovery_url (name tag : string) : string :=
  PROTOCOL_PREFIX +:+ name +:+ "-" +:+ version_token tag +:+ "-"
    +:+ lower_cased uname_sysname +:+ "-"
    +:+ (if String.eqb uname_architecture_string "x86-64" then "amd64"
         else uname_architecture_string)
    +:+ ".aci".

End Claimed.

(** The session after the subprocess of a failed simple discovery has been
    killed and reaped, and the calls that do it. *)
Definition reaped (w : World) : World :=
  if 1 <? AciPull.tar_pid (aci w)
  then mkWorld (AciPull.with_tar_pid 0 (aci w)) (jobs w)
  else w.
Definition reap_calls (w : World) : list Effect :=
  if 1 <? AciPull.tar_pid (aci w)
  then [kill_and_sigcont (AciPull.tar_pid (aci w)) SIGKILL;
        wait_for_terminate (AciPull.tar_pid (aci w))]
  else [].

(** The store after a job has been allocated in slot [s]. *)
Definition with_new_job (s : Slot) (job : PullJob.t) (w : World) : World :=
  mkWorld (AciPull.with_slot s (Some (fresh (dom (jobs w)))) (aci w))
          (<[fresh (dom (jobs w)) := job]> (jobs w)).

(** A job after [pull_job_begin] has returned. *)
Definition begun (e : Env) (job : PullJob.t) : PullJob.t :=
  if pull_job_begin_r e <? 0 then job else PullJob.with_state PULL_JOB_ANALYZING job.

(** The jobs as the two start functions set them up. *)
Definition meta_discovery_job_of (w : World) : PullJob.t :=
  PullJob.with_grow_machine_directory (AciPull.grow_machine_directory (aci w))
    (PullJob.with_on_progress (Some hook_aci_pull_job_on_progress)
      (PullJob.with_on_finished (Some hook_aci_pull_job_on_finished)
        (PullJob.fresh META_DISCOVERY_URL))).
Definition download_job_of (u : string) (w : World) : PullJob.t :=
  PullJob.with_grow_machine_directory (AciPull.grow_machine_directory (aci w))
    (PullJob.with_on_progress (Some hook_aci_pull_job_on_progress)
      (PullJob.with_on_open_disk (Some hook_aci_pull_job_on_open_disk)
        (PullJob.with_on_finished (Some hook_aci_pull_job_on_finished)
          (PullJob.fresh u)))).

(** The value of the C variable [r] when control reaches [finish:], if it
    does. *)
Definition finish_code (e : Env) (j : ptr) (w : World) : option Z :=
  match on_finished_dispatch e j w with
  | Ok (goto_finish r) _ _ => Some r
  | Ok goto_copy w1 _ =>
      match on_finished_copy e j w1 with
      | Ok r _ _ => Some r
      | Crash _ _ => None
      end
  | _ => None
  end.

Definition no_notification (tr : list Effect) : Prop :=
  forallb (fun x => negb (is_notification x)) tr = true.

(** A simple-discovery job at 40%: the session publishes 20. *)
Definition world_simple_at_40 : World :=
  mkWorld (AciPull.with_simple_discovery_job (Some 1%positive) (aci (new_session None)))
          {[ 1%positive := PullJob.with_progress_percent 40
                             (PullJob.with_state PULL_JOB_RUNNING (PullJob.fresh "https://a")) ]}.

(** A session torn down in mid-extraction: child 4242 is writing into the
    staging snapshot. *)
Definition world_extracting : World :=
  mkWorld (AciPull.with_tar_pid 4242
            (AciPull.with_temp_path (Some "/var/lib/machines/.aci-x.7")
              (aci (new_session None)))) ∅.

(** A session right after a successful [aci_pull_start] of "example". *)
Definition world_started : World :=
  match aci_pull_start (H := linux_x86_64) env_ok "example" "v2.0.0" None false
          (new_session None) with
  | Ok _ w _ => w
  | Crash _ _ => new_session None
  end.

(** The download job of a session without callback fails with -5: the
    event loop is asked to exit with -5. *)
Definition world_downloading : World :=
  mkWorld (AciPull.with_download_job (Some 3%positive) (aci (new_session None)))
          {[ 3%positive := PullJob.with_error (-5)
                             (PullJob.with_state PULL_JOB_FAILED
                                (download_job_of DOWNLOAD_URL (new_session None))) ]}.

(** ** The session invariant *)

(** The slots and the heap agree: every slot holds a live job, every job
    is held by a slot, and no job is held by two slots. *)
Record wf (w : World) : Prop := mk_wf {
  wf_slot_live : forall s p, AciPull.slot s (aci w) = Some p -> is_Some (jobs w !! p);
  wf_job_slot : forall p, is_Some (jobs w !! p) -> exists s, AciPull.slot s (aci w) = Some p;
  wf_slot_inj : forall s s' p,
    AciPull.slot s (aci w) = Some p -> AciPull.slot s' (aci w) = Some p -> s = s'
}.

Definition same_slots (i i' : AciPull.t) : Prop :=
  forall s, AciPull.slot s i' = AciPull.slot s i.

Definition slot_failed (s : Slot) (w : World) : bool :=
  match slot_job s w with Some job => failed job | None => false end.
Definition slot_succeeded (s : Slot) (w : World) : bool :=
  match slot_job s w with Some job => succeeded job | None => false end.
Definition slot_state (s : Slot) (w : World) : option PullJobState :=
  PullJob.state <$> slot_job s w.

(** What holds of the session and of its call log between two events. *)
Record Inv (w : World) (tr : list Effect) : Prop := mk_Inv {
  inv_wf : wf w;
  (* a meta-discovery job exists only after simple discovery has failed *)
  inv_meta : is_Some (slot_job META_DISCOVERY_JOB w) ->
             slot_failed SIMPLE_DISCOVERY_JOB w = true;
  (* a download job exists only after meta discovery has succeeded *)
  inv_download : is_Some (slot_job DOWNLOAD_JOB w) ->
                 slot_succeeded META_DISCOVERY_JOB w = true;
  (* a job that has begun has its completion hook *)
  inv_hook : forall s job, slot_job s w = Some job ->
             PullJob.state job <> PULL_JOB_INIT -> is_Some (PullJob.on_finished job);
  (* the meta-discovery job has no disk sink *)
  inv_meta_sink : forall job, slot_job META_DISCOVERY_JOB w = Some job ->
                  PullJob.on_open_disk job = None;
  (* an attached subprocess is a real child, and belongs to a job whose
     sink has been opened *)
  inv_tar : 0 < AciPull.tar_pid (aci w) ->
            1 < AciPull.tar_pid (aci w) /\
            (slot_state SIMPLE_DISCOVERY_JOB w = Some PULL_JOB_RUNNING \/
             exists st, slot_state DOWNLOAD_JOB w = Some st /\
                        st <> PULL_JOB_ANALYZING /\ st <> PULL_JOB_INIT);
  (* the attempts to create the follow-up jobs so far *)
  inv_count_meta : count (is_job_new META_DISCOVERY_JOB) tr
                   = Nat.b2n (slot_failed SIMPLE_DISCOVERY_JOB w);
  inv_count_download : count (is_job_new DOWNLOAD_JOB) tr
                       = Nat.b2n (slot_succeeded META_DISCOVERY_JOB w)
}.

(** [fork] returns to the parent the identifier of a child, which is never
    that of the init process: a successful [import_fork_tar_x] reports a
    child above 1. *)
Definition fork_ok (e : Env) : Prop :=
  0 <= import_fork_tar_x_r e -> 1 < fork_pid e.

(** Calls that do not create anything outside the staging path [temp]. *)
Definition stages_at (temp : option string) (x : Effect) : Prop :=
  forall c, creates x = Some c -> c = temp /\ is_Some temp.

(** What one event may do to the staging of the session: the staging path,
    once chosen, stays; and while no local name is requested everything
    that is created is created at the staging path. *)
Definition stage_step (w w' : World) (tr' : list Effect) : Prop :=
  (forall p, AciPull.temp_path (aci w) = Some p -> AciPull.temp_path (aci w') = Some p) /\
  (AciPull.local (aci w') = None ->
   Forall (stages_at (AciPull.temp_path (aci w'))) tr').

(** The requested local name changes only when a pull is started. *)
Definition local_step (ev : Event) (w w' : World) : Prop :=
  match ev with
  | EvStart _ _ local _ =>
      AciPull.local (aci w') = AciPull.local (aci w) \/ AciPull.local (aci w') = local
  | _ => AciPull.local (aci w') = AciPull.local (aci w)
  end.

(** The simple-discovery job as [aci_pull_start] sets it up. *)
Definition simple_discovery_job_of (u : string) : PullJob.t :=
  PullJob.with_on_progress (Some hook_aci_pull_job_on_progress)
    (PullJob.with_on_open_disk (Some hook_aci_pull_job_on_open_disk)
      (PullJob.with_on_finished (Some hook_aci_pull_job_on_finished)
        (PullJob.fresh u))).

(** The job after the transport has reported its completion. *)
Definition finished_job (ret : Z) (job : PullJob.t) : PullJob.t :=
  if decide (ret = 0)
  then PullJob.with_progress_percent 100 (PullJob.with_state PULL_JOB_DONE job)
  else PullJob.with_error ret (PullJob.with_state PULL_JOB_FAILED job).

(** An event is handled without abort, keeps the invariant and stages
    properly. *)
Definition step_ok (ev : Event) (w : World) (tr : list Effect) (res : Res unit) : Prop :=
  exists w' tr',
    res = Ok tt w' tr' /\ Inv w' (tr ++ tr') /\ stage_step w w' tr' /\ local_step ev w w'.

(** ** Scripts *)

(** Every fork of the script yields a proper child. *)
Definition script_fork_ok (script : list (Env * Event)) : Prop :=
  Forall (fun x => fork_ok (fst x)) script.

(** No pull of the script requests a local name. *)
Definition starts_without_local (script : list (Env * Event)) : Prop :=
  Forall (fun x => match snd x with
                   | EvStart _ _ local _ => local = None
                   | _ => True
                   end) script.

(** A failed simple discovery escalates to a successful meta discovery and
    download: the session visits all its phases. *)
Definition script_escalation : list (Env * Event) :=
  [(env_ok, EvStart "example" "v2.0.0" None false);
   (env_ok, EvOpenDisk 1%positive);
   (env_ok, EvProgress 1%positive 40);
   (env_ok, EvFinished 1%positive (-5));
   (env_ok, EvFinished 2%positive 0);
   (env_ok, EvOpenDisk 3%positive);
   (env_ok, EvFinished 3%positive 0)].

(** Simple discovery delivers the final asset. *)
Definition script_shortcut : list (Env * Event) :=
  [(env_ok, EvStart "example" "v2.0.0" None false);
   (env_ok, EvOpenDisk 1%positive);
   (env_ok, EvFinished 1%positive 0)].

(** The session of [script_escalation] just before the download job opens
    its disk sink. *)
Definition script_before_download_sink : list (Env * Event) :=
  [(env_ok, EvStart "example" "v2.0.0" None false);
   (env_ok, EvOpenDisk 1%positive);
   (env_ok, EvProgress 1%positive 40);
   (env_ok, EvFinished 1%positive (-5));
   (env_ok, EvFinished 2%positive 0)].

(** The simple-discovery job has just been marked failed with -5, its
    subprocess 4242 still attached. *)
Definition world_simple_failed : World :=
  mkWorld (AciPull.with_tar_pid 4242
             (AciPull.with_simple_discovery_job (Some 1%positive) (aci (new_session None))))
          {[ 1%positive := PullJob.with_error (-5)
                             (PullJob.with_state PULL_JOB_FAILED
                                (simple_discovery_job_of
                                   "https://example-v2.0.0-linux-amd64.aci")) ]}.

(** The simple-discovery job has just been marked done. *)
Definition world_simple_done : World :=
  mkWorld (AciPull.with_tar_pid 4242
             (AciPull.with_simple_discovery_job (Some 1%positive) (aci (new_session None))))
          {[ 1%positive := PullJob.with_progress_percent 100
                             (PullJob.with_state PULL_JOB_DONE
                                (simple_discovery_job_of
                                   "https://example-v2.0.0-linux-amd64.aci")) ]}.

(** ** What a handler may do

    A computation [respects R Q P] when, from every store, it makes only
    calls that satisfy [P] (also on the way to an abort) and, when it
    returns, the store it leaves is related by [R] to the one it found
    and the value returned satisfies [Q]. *)
Definition log_of {A} (r : Res A) : list Effect :=
  match r with
  | Ok _ _ tr => tr
  | Crash _ tr => tr
  end.

Definition respects {A} (R : World -> World -> Prop) (Q : A -> Prop)
    (P : Effect -> Prop) (m : M A) : Prop :=
  forall w, match m w with
            | Ok a w' tr => R w w' /\ Q a /\ Forall P tr
            | Crash _ tr => Forall P tr
            end.

Definition any {A} : A -> Prop := fun _ => True.

(** The same, of the result of one run from the store [w]. *)
Definition outcome {A} (R : World -> World -> Prop) (P : Effect -> Prop)
    (w : World) (res : Res A) : Prop :=
  match res with
  | Ok _ w' tr => R w w' /\ Forall P tr
  | Crash _ tr => Forall P tr
  end.

(** A signal is only ever [SIGKILL] sent to a child of the process: never
    to a process group (pid <= 0) nor to init (pid 1). *)
Definition signals_child (x : Effect) : bool :=
  match x with
  | kill_and_sigcont pid sig => (1 <? pid) && (sig =? SIGKILL)
  | _ => true
  end.

(** Calls that drop a reference to a job, to the transport or to the
    event loop. *)
Definition is_release (x : Effect) : bool :=
  match x with
  | pull_job_unref _ | curl_glue_unref _ | sd_event_unref _ => true
  | _ => false
  end.

(** A result code handed to the caller is 0 or a negative errno. *)
Definition code_not_positive (x : Effect) : bool :=
  match x with
  | call_on_finished _ r _ | sd_event_exit _ r => r <=? 0
  | _ => true
  end.

(** What the handlers never do while the session is alive. *)
Definition harmless (x : Effect) : Prop :=
  signals_child x = true /\
  is_release x = false /\
  is_snapshot_removal x = false /\
  code_not_positive x = true.

(** What [aci_pull_new] fixes for the life of the session. *)
Definition configuration (i : AciPull.t)
    : option ptr * option ptr * option string * option ptr * Z * bool :=
  (AciPull.event i, AciPull.glue i, AciPull.image_root i,
   AciPull.on_finished i, AciPull.userdata i, AciPull.grow_machine_directory i).

(** What every handler keeps: the configuration of the session, and the
    jobs that are live. *)
Definition session_step (w w' : World) : Prop :=
  configuration (aci w') = configuration (aci w) /\
  dom (jobs w) ⊆ dom (jobs w').

(** The calls each entry point is made of. *)
Definition is_start_call (x : Effect) : bool :=
  match x with
  | pull_job_new SIMPLE_DISCOVERY_JOB _ _ | pull_job_begin _ _ => true
  | _ => false
  end.
Definition is_staging_call (x : Effect) : bool :=
  match x with
  | mkdir_parents_label _ _ | btrfs_subvol_make _ | import_fork_tar_x _ => true
  | _ => false
  end.
Definition is_progress_call (x : Effect) : bool :=
  match x with
  | sd_notifyf _ _ => true
  | _ => false
  end.

(** [pull_job_begin] fails with [-ENOMEM]: the job is created but never
    handed to the transport. *)
Definition env_no_begin : Env :=
  {| alloc_ok := fun _ => true; entropy := 7;
     sd_event_default_r := 0; sd_event_default_h := 1%positive;
     curl_glue_new_r := 0; curl_glue_new_h := 2%positive;
     pull_job_new_r := 0; pull_job_begin_r := - ENOMEM;
     btrfs_subvol_make_r := 0;
     import_fork_tar_x_r := 5; fork_pid := 4242;
     wait_for_terminate_and_warn_r := 0;
     pull_make_local_copy_r := 0 |}.

(** The call that forks the extraction subprocess. *)
Definition is_fork (x : Effect) : bool :=
  match x with
  | import_fork_tar_x _ => true
  | _ => false
  end.

(** [btrfs_subvol_make] fails with [-EIO]. *)
Definition env_no_snapshot : Env :=
  {| alloc_ok := fun _ => true; entropy := 7;
     sd_event_default_r := 0; sd_event_default_h := 1%positive;
     curl_glue_new_r := 0; curl_glue_new_h := 2%positive;
     pull_job_new_r := 0; pull_job_begin_r := 0;
     btrfs_subvol_make_r := -5;
     import_fork_tar_x_r := 5; fork_pid := 4242;
     wait_for_terminate_and_warn_r := 0;
     pull_make_local_copy_r := 0 |}.

(** The session of [world_started] once its job has opened the disk sink:
    child 4242 extracts into the staging snapshot. *)
Definition world_opened : World :=
  match aci_pull_job_on_open_disk (H := linux_x86_64) env_ok 1%positive world_started with
  | Ok _ w _ => w
  | Crash _ _ => world_started
  end.

(** The same once the child has been killed and reaped. *)
Definition world_reaped : World :=
  mkWorld (AciPull.with_tar_pid 0 (aci world_opened)) (jobs world_opened).

(** The oracle [e] with another result for [wait_for_terminate_and_warn]. *)
Definition with_wait_for_terminate_and_warn_r (v : Z) (e : Env) : Env :=
  mkEnv (alloc_ok e) (entropy e) (sd_event_default_r e) (sd_event_default_h e)
        (curl_glue_new_r e) (curl_glue_new_h e) (pull_job_new_r e) (pull_job_begin_r e)
        (btrfs_subvol_make_r e) (import_fork_tar_x_r e) (fork_pid e) v
        (pull_make_local_copy_r e).

(** A job that belongs to none of the three slots of the session. *)
Definition foreign (j : ptr) (w : World) : Prop :=
  forall s, AciPull.slot s (aci w) <> Some j.

(** The download job of a session has failed with -5 while child 4242 is
    still extracting. *)
Definition world_download_failed : World :=
  mkWorld (AciPull.with_tar_pid 4242
             (AciPull.with_temp_path (Some "/var/lib/machines/.aci-x.7")
                (aci world_downloading)))
          (jobs world_downloading).

(** The job of [world_simple_done] with a local name requested. *)
Definition world_simple_done_local : World :=
  mkWorld (AciPull.with_local (Some "box")
             (AciPull.with_temp_path (Some "/var/lib/machines/.aci-x.7")
                (AciPull.with_final_path (Some "/var/lib/machines/.aci-x")
                   (aci world_simple_done))))
          (jobs world_simple_done).

(** The subprocess cannot be waited for. *)
Definition env_no_wait : Env := with_wait_for_terminate_and_warn_r (-10) env_ok.

(** The subprocess exits with status 1. *)
Definition env_tar_fails : Env := with_wait_for_terminate_and_warn_r 1 env_ok.

(** A live job that the session does not know. *)
Definition world_foreign_job : World :=
  mkWorld (aci (new_session None)) {[ 9%positive := PullJob.fresh "https://a" ]}.

(** The meta-discovery job of a session has just been marked done. *)
Definition world_meta_done : World :=
  mkWorld (AciPull.with_meta_discovery_job (Some 2%positive) (aci world_simple_failed))
          (<[ 2%positive := PullJob.with_progress_percent 100
                              (PullJob.with_state PULL_JOB_DONE
                                 (meta_discovery_job_of (new_session None))) ]>
             (jobs world_simple_failed)).

(** No job of the session is active: nothing more will call back. *)
Definition quiescent (w : World) : Prop :=
  forall p job, jobs w !! p = Some job -> PullJob.active job = false.

(** The result of the pull has been delivered at most once, and once it
    has been delivered the session is quiescent and stays busy. *)
Definition delivered_once (w : World) (tr : list Effect) : Prop :=
  (count is_notification tr <= 1)%nat /\
  (count is_notification tr = 1%nat ->
   quiescent w /\ is_Some (AciPull.simple_discovery_job (aci w))).

(** The release of the job [p]. *)
Definition is_unref_of (p : ptr) (x : Effect) : bool :=
  match x with
  | pull_job_unref (Some q) => bool_decide (q = p)
  | _ => false
  end.

(** Every job of the session reports a progress between 0 and 100. *)
Definition bounded (w : World) : Prop :=
  forall p job, jobs w !! p = Some job -> 0 <= PullJob.progress_percent job <= 100.

Definition bounded_step (w w' : World) : Prop := bounded w -> bounded w'.

(** A progress message carries a percentage between 0 and 95. *)
Definition publishes_within_bounds (x : Effect) : Prop :=
  forall u msg, x = sd_notifyf u msg ->
  u = false /\ exists v, msg = progress_message v /\ 0 <= v <= 95.

(** The transport reports progress between 0 and 100. *)
Definition progress_in_range (script : list (Env * Event)) : Prop :=
  Forall (fun x => match snd x with
                   | EvProgress _ percent => 0 <= percent <= 100
                   | _ => True
                   end) script.
(** * Properties *)

(** Unfolds the monad down to functions on the store. *)
Ltac munfold :=
  unfold mbind, mret, M_bind, M_ret, or_return, get_aci, get_jobs, modify_aci,
         call, abort, assert_, deref, modify_job, modify_slot, allocate_job in *.

Lemma u32_small (x : Z) : 0 <= x < 4294967296 -> u32 x = x.
Proof. intros Hx. unfold u32. apply Z.mod_small. exact Hx. Qed.

Lemma add_job_progress_live (w : World) (j : ptr) (job : PullJob.t) (scale floor : Z) :
  jobs w !! j = Some job ->
  0 <= PullJob.progress_percent job <= 100 ->
  0 <= scale <= 100 -> 0 <= floor <= 100 ->
  add_job_progress (Some j) scale floor w
  = Ok (floor + PullJob.progress_percent job * scale / 100) w [].
Proof.
  intros Hj Hp Hs Hf. unfold add_job_progress. munfold. rewrite Hj. simpl.
  assert (Hprod : 0 <= PullJob.progress_percent job * scale <= 10000) by nia.
  assert (Hq : 0 <= PullJob.progress_percent job * scale / 100 <= 100).
  { split; [apply Z.div_pos; lia | apply Z.div_le_upper_bound; lia]. }
  rewrite (u32_small (PullJob.progress_percent job * scale)) by lia.
  rewrite u32_small by lia.
  reflexivity.
Qed.

(** C3.  When the job of a phase reports progress [p] in 0..100, the
    percentage published for that phase is the floor of its band plus [p]
    rescaled to the width of the band, in integer arithmetic: [0 + p*50/100]
    for simple discovery, [50 + p*5/100] for meta discovery,
    [55 + p*40/100] for downloading; for copying it is 95 in every store.
    It is published as the message [X_IMPORT_PROGRESS=<percent>]. *)
Theorem report_progress_bands (w : World) (j : ptr) (job : PullJob.t) (p : Z) :
  jobs w !! j = Some job ->
  PullJob.progress_percent job = p ->
  0 <= p <= 100 ->
  (AciPull.simple_discovery_job (aci w) = Some j ->
   aci_pull_report_progress ACI_SIMPLE_DISCOVERY w
   = Ok tt w [sd_notifyf false (progress_message (0 + p * 50 / 100))]) /\
  (AciPull.meta_discovery_job (aci w) = Some j ->
   aci_pull_report_progress ACI_META_DISCOVERY w
   = Ok tt w [sd_notifyf false (progress_message (50 + p * 5 / 100))]) /\
  (AciPull.download_job (aci w) = Some j ->
   aci_pull_report_progress ACI_DOWNLOADING w
   = Ok tt w [sd_notifyf false (progress_message (55 + p * 40 / 100))]) /\
  (forall w' : World,
   aci_pull_report_progress ACI_COPYING w'
   = Ok tt w' [sd_notifyf false (progress_message 95)]).
Proof.
  intros Hj Hp Hr. subst p.
  repeat split; try intros Hs;
    unfold aci_pull_report_progress, combined_percent;
    unfold mbind at 1 2, M_bind, get_aci; try rewrite Hs;
    try (erewrite add_job_progress_live by (eauto; lia)); reflexivity.
Qed.

Lemma report_progress_bands_witness :
  aci_pull_report_progress ACI_SIMPLE_DISCOVERY world_simple_at_40
  = Ok tt world_simple_at_40 [sd_notifyf false "X_IMPORT_PROGRESS=20"].
Proof.
  apply (report_progress_bands world_simple_at_40 1%positive
           (PullJob.with_progress_percent 40
              (PullJob.with_state PULL_JOB_RUNNING (PullJob.fresh "https://a"))) 40).
  - reflexivity.
  - reflexivity.
  - lia.
  - reflexivity.
Defined.

(** ** Teardown *)

Lemma ordered_app (l1 l2 : list Effect) (n m : nat) (x y : Effect) :
  forallb (fun a => negb (is_snapshot_removal a)) l1 = true ->
  forallb (fun a => negb (is_reap a)) l2 = true ->
  (l1 ++ l2) !! n = Some x -> (l1 ++ l2) !! m = Some y ->
  is_snapshot_removal x = true -> is_reap y = true ->
  (m < n)%nat.
Proof.
  intros H1 H2 Hx Hy Rx Ry.
  rewrite forallb_forall in H1, H2.
  assert (Hn : (length l1 <= n)%nat).
  { destruct (decide (n < length l1)%nat) as [Hlt|]; [|lia].
    rewrite lookup_app_l in Hx by exact Hlt.
    apply list_elem_of_lookup_2, list_elem_of_In, H1 in Hx.
    rewrite Rx in Hx. discriminate. }
  assert (Hm : (m < length l1)%nat).
  { destruct (decide (m < length l1)%nat) as [|Hge]; [assumption|].
    rewrite lookup_app_r in Hy by lia.
    apply list_elem_of_lookup_2, list_elem_of_In, H2 in Hy.
    rewrite Ry in Hy. discriminate. }
  lia.
Qed.

(** A session that was constructed but never started has no subprocess and
    no snapshot: its teardown only releases the (empty) job slots, the
    transport and the event loop. *)
Lemma aci_pull_unref_fresh_session `{Collaborators} (e : Env) (event : option ptr)
    (image_root : option string) (callback : option ptr) (userdata : Z) (w : World)
    (tr : list Effect) :
  aci_pull_new e event image_root callback userdata = (0, Some w, tr) ->
  aci_pull_unref (Some w)
  = (None, [pull_job_unref None; pull_job_unref None; pull_job_unref None;
            curl_glue_unref (AciPull.glue (aci w)); sd_event_unref (AciPull.event (aci w))]).
Proof.
  unfold aci_pull_new. intros Hnew.
  repeat case_match; simplify_eq; reflexivity.
Qed.

(** ** Start: validation and the simple-discovery URL *)

Section StartProperties.

Context `{Collaborators}.

(** C7, as the code has it.  [aci_pull_start] rejects before it touches
    anything: an invalid name and an invalid requested local name are
    both refused with [-EINVAL], and, the arguments being valid, a
    session that already has a simple-discovery job is refused with
    [-EBUSY].  In the three cases the store is unchanged and no
    collaborator has been called. *)
Theorem aci_pull_start_rejects (e : Env) (name tag : string) (local : option string)
    (force_local : bool) (w : World) :
  (aci_name_is_valid name = false ->
   aci_pull_start e name tag local force_local w = Ok (- EINVAL) w []) /\
  (forall l, local = Some l -> machine_name_is_valid l = false ->
   aci_pull_start e name tag local force_local w = Ok (- EINVAL) w []) /\
  (aci_name_is_valid name = true ->
   (forall l, local = Some l -> machine_name_is_valid l = true) ->
   is_Some (AciPull.simple_discovery_job (aci w)) ->
   aci_pull_start e name tag local force_local w = Ok (- EBUSY) w []).
Proof.
  unfold aci_pull_start. munfold. repeat split.
  - intros ->. reflexivity.
  - intros l -> ->. destruct (aci_name_is_valid name); reflexivity.
  - intros -> Hl Hbusy. simpl.
    destruct local as [l|]; [rewrite (Hl l eq_refl)|]; simpl;
      rewrite bool_decide_eq_true_2 by exact Hbusy; reflexivity.
Qed.

Lemma start_passes_validation (e : Env) (name tag : string) (local : option string)
    (force_local : bool) (w : World) :
  aci_name_is_valid name = true ->
  (forall l, local = Some l -> machine_name_is_valid l = true) ->
  AciPull.simple_discovery_job (aci w) = None ->
  alloc_ok e 0 = true ->
  alloc_ok e 1 = true ->
  aci_pull_start e name tag local force_local w
  = let u := simple_discovery_url name tag in
    let i := AciPull.with_name (Some name)
               (AciPull.with_force_local force_local
                 (AciPull.with_local local
                   (AciPull.with_id (Some ACI_ID_PLACEHOLDER) (aci w)))) in
    if pull_job_new_r e <? 0
    then Ok (pull_job_new_r e) (mkWorld i (jobs w)) [pull_job_new SIMPLE_DISCOVERY_JOB u None]
    else
      let p := fresh (dom (jobs w)) in
      let job := PullJob.with_on_progress (Some hook_aci_pull_job_on_progress)
                   (PullJob.with_on_open_disk (Some hook_aci_pull_job_on_open_disk)
                     (PullJob.with_on_finished (Some hook_aci_pull_job_on_finished)
                       (PullJob.fresh u))) in
      Ok (pull_job_begin_r e)
         (mkWorld (AciPull.with_simple_discovery_job (Some p) i)
            (if pull_job_begin_r e <? 0 then <[p := job]> (jobs w)
             else <[p := PullJob.with_state PULL_JOB_ANALYZING job]> (jobs w)))
         [pull_job_new SIMPLE_DISCOVERY_JOB u (Some p); pull_job_begin p (pull_job_begin_r e)].
Proof.
  intros Hname Hlocal Hidle Halloc Halloc1.
  unfold aci_pull_start, free_and_strdup, do_pull_job_new, do_pull_job_begin. munfold.
  rewrite Hname, Hidle, Halloc, Halloc1. cbn [negb].
  replace (match local with Some l => negb (machine_name_is_valid l) | None => false end)
    with false by (destruct local as [l|]; [rewrite (Hlocal l eq_refl)|]; reflexivity).
  rewrite bool_decide_eq_false_2 by (intros [? ?]; discriminate).
  destruct (pull_job_new_r e <? 0) eqn:Hnew; destruct (pull_job_begin_r e <? 0) eqn:Hbegin;
    destruct local as [l|];
    repeat (progress (munfold; cbn -[simple_discovery_url fresh];
                      rewrite ?Hnew, ?Hbegin, ?lookup_insert_eq, ?insert_insert_eq));
    reflexivity.
Qed.

(** The URL that [aci_pull_start] builds.  For a valid name, a valid (or
    no) local name, an idle session and successful allocation, the first
    collaborator call of [aci_pull_start] is the creation of the
    simple-discovery job for the URL
    [https://<name>-<version>-<os>-<arch>.aci], where [<version>] is a
    copy of the tag, [<os>] is [u.sysname] after [os[0] = tolower(os[0])]
    and [<arch>] is the architecture name with ["x86-64"] replaced by
    ["amd64"] and any other name unchanged.  The URL is a function of the
    name, the tag and the platform alone, and nothing is called before
    the job is created. *)
Theorem aci_pull_start_url (e : Env) (name tag : string) (local : option string)
    (force_local : bool) (w : World) :
  aci_name_is_valid name = true ->
  (forall l, local = Some l -> machine_name_is_valid l = true) ->
  AciPull.simple_discovery_job (aci w) = None ->
  alloc_ok e 0 = true ->
  alloc_ok e 1 = true ->
  let u := PROTOCOL_PREFIX +:+ name +:+ "-" +:+ tag +:+ "-"
             +:+ tolower_first uname_sysname +:+ "-"
             +:+ (if String.eqb uname_architecture_string "x86-64" then "amd64"
                  else uname_architecture_string)
             +:+ ".aci" in
  simple_discovery_url name tag = u /\
  exists r w' allocated rest,
    aci_pull_start e name tag local force_local w
    = Ok r w' (pull_job_new SIMPLE_DISCOVERY_JOB u allocated :: rest) /\
    (0 <= pull_job_new_r e ->
     r = pull_job_begin_r e /\
     PullJob.url <$> slot_job SIMPLE_DISCOVERY_JOB w' = Some u).
Proof.
  intros Hname Hlocal Hidle Halloc Halloc1 u.
  assert (Hu : simple_discovery_url name tag = u).
  { unfold simple_discovery_url, u. cbn [strjoin].
    destruct (String.eqb uname_architecture_string "x86-64"); reflexivity. }
  split; [exact Hu|].
  rewrite start_passes_validation by assumption. cbv zeta. rewrite Hu.
  destruct (pull_job_new_r e <? 0) eqn:Hnew.
  - do 4 eexists. split; [reflexivity|]. apply Z.ltb_lt in Hnew. lia.
  - do 4 eexists. split; [reflexivity|]. intros _. split; [reflexivity|].
    unfold slot_job. cbn [aci AciPull.slot AciPull.with_simple_discovery_job
                           AciPull.simple_discovery_job jobs mbind option_bind].
    destruct (pull_job_begin_r e <? 0); rewrite lookup_insert_eq; reflexivity.
Qed.

End StartProperties.

Lemma aci_pull_start_rejects_witness :
  aci_pull_start (H := linux_x86_64) env_ok "" "v2.0.0" None false (new_session None)
  = Ok (- EINVAL) (new_session None) [].
Proof.
  apply (aci_pull_start_rejects (H := linux_x86_64) env_ok "" "v2.0.0" None false
           (new_session None)).
  reflexivity.
Defined.

Lemma aci_pull_start_url_witness :
  simple_discovery_url (H := linux_x86_64) "example" "v2.0.0"
  = "https://example-v2.0.0-linux-amd64.aci".
Proof.
  apply (aci_pull_start_url (H := linux_x86_64) env_ok "example" "v2.0.0" None false
           (new_session None)).
  - reflexivity.
  - intros l Hl. discriminate Hl.
  - reflexivity.
  - reflexivity.
  - reflexivity.
Defined.

(** C7 as stated fails on a busy session when the name is invalid: the
    arguments are validated first, and the call is refused with
    [-EINVAL], not with [-EBUSY]. *)
Lemma aci_pull_start_busy_session_invalid_name :
  is_Some (AciPull.simple_discovery_job (aci world_started)) /\
  aci_pull_start (H := linux_x86_64) env_ok "" "v2.0.0" None false world_started
  = Ok (- EINVAL) world_started [] /\
  - EINVAL <> - EBUSY.
Proof.
  split; [|split].
  - vm_compute. eexists. reflexivity.
  - vm_compute. reflexivity.
  - vm_compute. discriminate.
Qed.

(** On Linux the URL built has the operating-system and architecture
    tokens the spec describes, and it is the URL of the spec whenever the
    tag is its own version token: the two differ only where the tag
    carries labels. *)
Lemma simple_discovery_url_on_linux `{Collaborators} (name tag : string) :
  uname_sysname = "Linux" ->
  simple_discovery_url name tag
  = PROTOCOL_PREFIX +:+ name +:+ "-" +:+ tag +:+ "-"
      +:+ lower_cased uname_sysname +:+ "-"
      +:+ (if String.eqb uname_architecture_string "x86-64" then "amd64"
           else uname_architecture_string)
      +:+ ".aci" /\
  (version_token tag = tag ->
   simple_discovery_url name tag = claimed_simple_discovery_url name tag).
Proof.
  intros Hos.
  assert (Hurl : simple_discovery_url name tag
                 = PROTOCOL_PREFIX +:+ name +:+ "-" +:+ tag +:+ "-"
                     +:+ lower_cased uname_sysname +:+ "-"
                     +:+ (if String.eqb uname_architecture_string "x86-64" then "amd64"
                          else uname_architecture_string)
                     +:+ ".aci").
  { unfold simple_discovery_url. cbn [strjoin]. rewrite Hos.
    destruct (String.eqb uname_architecture_string "x86-64"); reflexivity. }
  split; [exact Hurl|].
  intros Htoken. rewrite Hurl. unfold claimed_simple_discovery_url.
  rewrite Htoken. reflexivity.
Qed.

(** C5.  The version token is not parsed out of the tag: [version] is a
    copy of the whole tag.  Started on Linux/x86-64 for the name
    ["example"] and the tag ["version=v2.0.0,foo=bar"], the label form
    that the comment on [version] gives, [aci_pull_start] creates the
    simple-discovery job for
    [https://example-version=v2.0.0,foo=bar-linux-amd64.aci], where the
    URL of the spec, built from the version token ["v2.0.0"], is
    [https://example-v2.0.0-linux-amd64.aci].  For the bare tag
    ["v2.0.0"] the two agree. *)
Theorem aci_pull_start_url_keeps_labels :
  version_token "version=v2.0.0,foo=bar" = "v2.0.0" /\
  claimed_simple_discovery_url (H := linux_x86_64) "example" "version=v2.0.0,foo=bar"
  = "https://example-v2.0.0-linux-amd64.aci" /\
  (exists w',
     aci_pull_start (H := linux_x86_64) env_ok "example" "version=v2.0.0,foo=bar" None false
       (new_session None)
     = Ok 0 w'
         [pull_job_new SIMPLE_DISCOVERY_JOB
            "https://example-version=v2.0.0,foo=bar-linux-amd64.aci" (Some 1%positive);
          pull_job_begin 1%positive 0]) /\
  simple_discovery_url (H := linux_x86_64) "example" "version=v2.0.0,foo=bar"
  <> claimed_simple_discovery_url (H := linux_x86_64) "example" "version=v2.0.0,foo=bar" /\
  simple_discovery_url (H := linux_x86_64) "example" "v2.0.0"
  = claimed_simple_discovery_url (H := linux_x86_64) "example" "v2.0.0".
Proof.
  split; [reflexivity|]. split; [reflexivity|]. split; [|split].
  - eexists. vm_compute. reflexivity.
  - vm_compute. discriminate.
  - apply (simple_discovery_url_on_linux (H := linux_x86_64)); reflexivity.
Qed.

(** ** The disk-open hook: staging paths *)

Lemma append_empty_r (s : string) : s +:+ "" = s.
Proof.
  induction s as [|c s IH]; [reflexivity|].
  change (String c (s +:+ "") = String c s). f_equal. exact IH.
Qed.

Section OpenDiskProperties.

Context `{Collaborators}.

(** What the hook does the first time it runs in a session whose
    subprocess slot is free. *)
Lemma open_disk_first (e : Env) (j : ptr) (job : PullJob.t) (w : World) :
  jobs w !! j = Some job ->
  AciPull.final_path (aci w) = None ->
  AciPull.temp_path (aci w) = None ->
  alloc_ok e 0 = true ->
  alloc_ok e 1 = true ->
  AciPull.tar_pid (aci w) <= 0 ->
  aci_pull_job_on_open_disk e j w
  = let final := strjoin [AciPull.image_root (aci w); Some "/.aci-"; AciPull.id (aci w)] in
    let temp := tempfn_random final (entropy e) in
    let i := AciPull.with_temp_path (Some temp)
               (AciPull.with_final_path (Some final) (aci w)) in
    if btrfs_subvol_make_r e <? 0
    then Ok (log_error_errno (btrfs_subvol_make_r e)) (mkWorld i (jobs w))
            [mkdir_parents_label temp 448; btrfs_subvol_make temp]
    else if import_fork_tar_x_r e <? 0
    then Ok (import_fork_tar_x_r e)
            (mkWorld i (<[j := PullJob.with_disk_fd (import_fork_tar_x_r e) job]> (jobs w)))
            [mkdir_parents_label temp 448; btrfs_subvol_make temp; import_fork_tar_x temp]
    else Ok 0
            (mkWorld (AciPull.with_tar_pid (fork_pid e) i)
               (<[j := PullJob.with_disk_fd (import_fork_tar_x_r e) job]> (jobs w)))
            [mkdir_parents_label temp 448; btrfs_subvol_make temp; import_fork_tar_x temp].
Proof.
  intros Hj Hfinal Htemp Halloc Halloc1 Hpid. apply Z.leb_le in Hpid.
  unfold aci_pull_job_on_open_disk.
  destruct (btrfs_subvol_make_r e <? 0) eqn:Hmake;
    destruct (import_fork_tar_x_r e <? 0) eqn:Hfork;
    repeat (progress (munfold; cbn -[strjoin];
                      rewrite ?Hj, ?Hfinal, ?Htemp, ?Halloc, ?Halloc1, ?Hpid, ?Hmake, ?Hfork));
    reflexivity.
Qed.

(** C4, as the code has it.  The first time the disk sink is opened in a
    session with image root [root] and content-id [c], the base path is
    computed as [<root>/.aci-<c>]; the staging snapshot is created at the
    name that [tempfn_random] derives from that base path, and that name
    is recorded as the staging path. *)
Theorem open_disk_staging_paths (e : Env) (j : ptr) (w : World) (root c : string) :
  is_Some (jobs w !! j) ->
  AciPull.image_root (aci w) = Some root ->
  AciPull.id (aci w) = Some c ->
  AciPull.final_path (aci w) = None ->
  AciPull.temp_path (aci w) = None ->
  alloc_ok e 0 = true ->
  alloc_ok e 1 = true ->
  AciPull.tar_pid (aci w) <= 0 ->
  let base := root +:+ "/.aci-" +:+ c in
  let temp := tempfn_random base (entropy e) in
  exists r w' rest,
    aci_pull_job_on_open_disk e j w
    = Ok r w' (mkdir_parents_label temp 448 :: btrfs_subvol_make temp :: rest) /\
    AciPull.final_path (aci w') = Some base /\
    AciPull.temp_path (aci w') = Some temp.
Proof.
  intros [job Hj] Hroot Hid Hfinal Htemp Halloc Halloc1 Hpid base temp.
  rewrite (open_disk_first e j job w) by assumption.
  rewrite Hroot, Hid. cbn [strjoin]. rewrite append_empty_r.
  fold base. fold temp. cbv zeta.
  destruct (btrfs_subvol_make_r e <? 0); [|destruct (import_fork_tar_x_r e <? 0)];
    do 3 eexists; (split; [reflexivity|split; reflexivity]).
Qed.

End OpenDiskProperties.

Lemma open_disk_staging_paths_witness :
  exists r w' rest,
    aci_pull_job_on_open_disk (H := linux_x86_64) env_ok 1%positive world_started
    = Ok r w'
        (mkdir_parents_label
           "/var/lib/machines/.aci-68b329da9893e34099c7d8ad5cb9c940.7" 448
         :: btrfs_subvol_make "/var/lib/machines/.aci-68b329da9893e34099c7d8ad5cb9c940.7"
         :: rest) /\
    AciPull.final_path (aci w')
    = Some "/var/lib/machines/.aci-68b329da9893e34099c7d8ad5cb9c940" /\
    AciPull.temp_path (aci w')
    = Some "/var/lib/machines/.aci-68b329da9893e34099c7d8ad5cb9c940.7".
Proof.
  apply (open_disk_staging_paths (H := linux_x86_64) env_ok 1%positive world_started
           "/var/lib/machines" "68b329da9893e34099c7d8ad5cb9c940").
  - vm_compute. eexists. reflexivity.
  - reflexivity.
  - reflexivity.
  - reflexivity.
  - reflexivity.
  - reflexivity.
  - reflexivity.
  - vm_compute. discriminate.
Defined.

(** C4 as stated fails: the base path is named [.aci-<c>], not
    [.pull-<c>]. *)
Lemma open_disk_base_path_not_pull :
  exists w' tr,
    aci_pull_job_on_open_disk (H := linux_x86_64) env_ok 1%positive world_started
    = Ok 0 w' tr /\
    AciPull.image_root (aci world_started) = Some "/var/lib/machines" /\
    AciPull.id (aci world_started) = Some "68b329da9893e34099c7d8ad5cb9c940" /\
    AciPull.final_path (aci w')
    = Some "/var/lib/machines/.aci-68b329da9893e34099c7d8ad5cb9c940" /\
    AciPull.final_path (aci w')
    <> Some ("/var/lib/machines" +:+ "/.pull-" +:+ "68b329da9893e34099c7d8ad5cb9c940").
Proof.
  do 2 eexists. split; [vm_compute; reflexivity|].
  repeat split; try reflexivity. vm_compute. discriminate.
Qed.
(** ** The completion handler, case by case

    The transitions of the state machine, as equations on the handler. *)

Lemma fresh_job_ptr (js : gmap ptr PullJob.t) (j : ptr) (job : PullJob.t) :
  js !! j = Some job -> fresh (dom js) <> j.
Proof.
  intros Hj Heq. apply (is_fresh (dom js)). rewrite Heq.
  apply elem_of_dom. eexists. exact Hj.
Qed.

Lemma log_error_errno_neg (r : Z) : (r <? 0) = true -> (log_error_errno r <? 0) = true.
Proof. unfold log_error_errno. rewrite !Z.ltb_lt. lia. Qed.

Lemma on_finished_finish_eq (r : Z) (w : World) :
  on_finished_finish r w = Ok tt w [notification (aci w) r].
Proof.
  unfold on_finished_finish, notification. munfold. cbn.
  destruct (AciPull.on_finished (aci w)); reflexivity.
Qed.

(** Evaluation of a handler once its tests are decided: unfold the monad
    and rewrite with the tests and lookups known from the context. *)
Ltac mrew :=
  repeat match goal with
  | H : ?c = true |- context [if ?c then _ else _] => rewrite H
  | H : ?c = false |- context [if ?c then _ else _] => rewrite H
  | H : ?m !! ?k = _ |- context [?m !! ?k] => rewrite H
  | H : ?x = Some _ |- context [match ?x with Some _ => _ | None => _ end] => rewrite H
  | H : ?x = None |- context [match ?x with Some _ => _ | None => _ end] => rewrite H
  end.
Ltac mred :=
  repeat (progress (munfold; cbn -[fresh notification log_error_errno strjoin];
                    mrew; rewrite ?insert_insert_eq, ?lookup_insert_eq)).

Lemma aci_pull_start_meta_discovery_eq (e : Env) (w : World) :
  aci_pull_start_meta_discovery e w
  = if pull_job_new_r e <? 0
    then Ok (log_error_errno (pull_job_new_r e)) w
            [pull_job_new META_DISCOVERY_JOB META_DISCOVERY_URL None]
    else Ok (if pull_job_begin_r e <? 0 then log_error_errno (pull_job_begin_r e) else 0)
            (with_new_job META_DISCOVERY_JOB (begun e (meta_discovery_job_of w)) w)
            [pull_job_new META_DISCOVERY_JOB META_DISCOVERY_URL (Some (fresh (dom (jobs w))));
             pull_job_begin (fresh (dom (jobs w))) (pull_job_begin_r e)].
Proof.
  unfold aci_pull_start_meta_discovery, do_pull_job_new, do_pull_job_begin,
         with_new_job, begun, meta_discovery_job_of.
  destruct (pull_job_new_r e <? 0) eqn:Hnew;
    [pose proof (log_error_errno_neg _ Hnew)
    |destruct (pull_job_begin_r e <? 0) eqn:Hbegin;
     [pose proof (log_error_errno_neg _ Hbegin)|]];
    mred; reflexivity.
Qed.

Lemma aci_pull_start_download_eq (e : Env) (u : string) (w : World) :
  aci_pull_start_download e u w
  = if pull_job_new_r e <? 0
    then Ok (log_error_errno (pull_job_new_r e)) w [pull_job_new DOWNLOAD_JOB u None]
    else Ok (if pull_job_begin_r e <? 0 then log_error_errno (pull_job_begin_r e) else 0)
            (with_new_job DOWNLOAD_JOB (begun e (download_job_of u w)) w)
            [pull_job_new DOWNLOAD_JOB u (Some (fresh (dom (jobs w))));
             pull_job_begin (fresh (dom (jobs w))) (pull_job_begin_r e)].
Proof.
  unfold aci_pull_start_download, do_pull_job_new, do_pull_job_begin,
         with_new_job, begun, download_job_of.
  destruct (pull_job_new_r e <? 0) eqn:Hnew;
    [pose proof (log_error_errno_neg _ Hnew)
    |destruct (pull_job_begin_r e <? 0) eqn:Hbegin;
     [pose proof (log_error_errno_neg _ Hbegin)|]];
    mred; reflexivity.
Qed.

(** The handler is its dispatch followed by the blocks the [goto]s name. *)
Lemma aci_pull_job_on_finished_eq (e : Env) (j : ptr) (w : World) :
  aci_pull_job_on_finished e j w
  = match on_finished_dispatch e j w with
    | Ok goto_return w1 tr1 => Ok tt w1 tr1
    | Ok goto_copy w1 tr1 =>
        match on_finished_copy e j w1 with
        | Ok r w2 tr2 => Ok tt w2 (tr1 ++ tr2 ++ [notification (aci w2) r])
        | Crash why tr2 => Crash why (tr1 ++ tr2)
        end
    | Ok (goto_finish r) w1 tr1 => Ok tt w1 (tr1 ++ [notification (aci w1) r])
    | Crash why tr1 => Crash why tr1
    end.
Proof.
  unfold aci_pull_job_on_finished. unfold mbind at 1, M_bind.
  destruct (on_finished_dispatch e j w) as [[| |r] w1 tr1|why tr1]; try reflexivity.
  - unfold mret, M_ret. rewrite app_nil_r. reflexivity.
  - unfold mbind, M_bind.
    destruct (on_finished_copy e j w1) as [r w2 tr2|why tr2]; [|reflexivity].
    rewrite on_finished_finish_eq. reflexivity.
  - rewrite on_finished_finish_eq. reflexivity.
Qed.

(** SimpleDiscovery -> MetaDiscovery. *)
Lemma dispatch_simple_failed (e : Env) (j : ptr) (job : PullJob.t) (w : World) :
  jobs w !! j = Some job ->
  AciPull.simple_discovery_job (aci w) = Some j ->
  PullJob.error job < 0 ->
  on_finished_dispatch e j w
  = if pull_job_new_r e <? 0
    then Ok (goto_finish (log_error_errno (pull_job_new_r e))) (reaped w)
            (reap_calls w ++ [pull_job_new META_DISCOVERY_JOB META_DISCOVERY_URL None])
    else Ok (if pull_job_begin_r e <? 0
             then goto_finish (log_error_errno (pull_job_begin_r e)) else goto_return)
            (with_new_job META_DISCOVERY_JOB (begun e (meta_discovery_job_of (reaped w)))
               (reaped w))
            (reap_calls w
             ++ [pull_job_new META_DISCOVERY_JOB META_DISCOVERY_URL
                   (Some (fresh (dom (jobs w))));
                 pull_job_begin (fresh (dom (jobs w))) (pull_job_begin_r e)]).
Proof.
  intros Hj Hs Herr. apply Z.ltb_lt in Herr.
  unfold on_finished_dispatch. munfold. rewrite Hj. cbn.
  rewrite decide_True by exact Hs. rewrite Herr.
  replace (jobs w) with (jobs (reaped w)) at 2 3 by (unfold reaped; case_match; reflexivity).
  unfold reaped, reap_calls.
  destruct (1 <? AciPull.tar_pid (aci w)) eqn:Hpid; cbn;
    rewrite aci_pull_start_meta_discovery_eq;
    destruct (pull_job_new_r e <? 0) eqn:Hnew; cbn;
    rewrite ?(log_error_errno_neg _ Hnew); try reflexivity;
    destruct (pull_job_begin_r e <? 0) eqn:Hbegin; cbn;
    rewrite ?(log_error_errno_neg _ Hbegin); reflexivity.
Qed.

(** SimpleDiscovery -> Copying, and Downloading -> Copying. *)
Lemma dispatch_copy (e : Env) (j : ptr) (job : PullJob.t) (w : World) :
  jobs w !! j = Some job ->
  AciPull.simple_discovery_job (aci w) = Some j \/
  (AciPull.meta_discovery_job (aci w) <> Some j /\
   AciPull.download_job (aci w) = Some j) ->
  0 <= PullJob.error job ->
  on_finished_dispatch e j w = Ok goto_copy w [].
Proof.
  intros Hj Hs Herr. apply Z.ltb_ge in Herr.
  unfold on_finished_dispatch. munfold. rewrite Hj. cbn.
  destruct (decide (AciPull.simple_discovery_job (aci w) = Some j)) as [|Hns].
  - rewrite Herr. reflexivity.
  - destruct Hs as [Hs|[Hm Hd]]; [contradiction|].
    rewrite decide_False by exact Hm. rewrite decide_True by exact Hd.
    rewrite Herr. reflexivity.
Qed.

(** MetaDiscovery -> Failed, and Downloading -> Failed. *)
Lemma dispatch_failed (e : Env) (j : ptr) (job : PullJob.t) (w : World) :
  jobs w !! j = Some job ->
  AciPull.simple_discovery_job (aci w) <> Some j ->
  AciPull.meta_discovery_job (aci w) = Some j \/ AciPull.download_job (aci w) = Some j ->
  PullJob.error job < 0 ->
  on_finished_dispatch e j w = Ok (goto_finish (PullJob.error job)) w [].
Proof.
  intros Hj Hns Hs Herr. apply Z.ltb_lt in Herr.
  unfold on_finished_dispatch. munfold. rewrite Hj. cbn.
  rewrite decide_False by exact Hns.
  destruct (decide (AciPull.meta_discovery_job (aci w) = Some j)) as [|Hnm].
  - rewrite Herr. reflexivity.
  - destruct Hs as [Hs|Hs]; [contradiction|].
    rewrite decide_True by exact Hs. rewrite Herr. reflexivity.
Qed.

(** MetaDiscovery -> Downloading. *)
Lemma dispatch_meta_succeeded (e : Env) (j : ptr) (job : PullJob.t) (w : World) :
  jobs w !! j = Some job ->
  AciPull.simple_discovery_job (aci w) <> Some j ->
  AciPull.meta_discovery_job (aci w) = Some j ->
  0 <= PullJob.error job ->
  on_finished_dispatch e j w
  = if pull_job_new_r e <? 0
    then Ok (goto_finish (log_error_errno (pull_job_new_r e))) w
            [pull_job_new DOWNLOAD_JOB DOWNLOAD_URL None]
    else Ok (if pull_job_begin_r e <? 0
             then goto_finish (log_error_errno (pull_job_begin_r e)) else goto_return)
            (with_new_job DOWNLOAD_JOB (begun e (download_job_of DOWNLOAD_URL w)) w)
            [pull_job_new DOWNLOAD_JOB DOWNLOAD_URL (Some (fresh (dom (jobs w))));
             pull_job_begin (fresh (dom (jobs w))) (pull_job_begin_r e)].
Proof.
  intros Hj Hns Hm Herr. apply Z.ltb_ge in Herr.
  unfold on_finished_dispatch. munfold. rewrite Hj. cbn.
  rewrite decide_False by exact Hns. rewrite decide_True by exact Hm. rewrite Herr.
  rewrite aci_pull_start_download_eq.
  destruct (pull_job_new_r e <? 0) eqn:Hnew; cbn;
    rewrite ?(log_error_errno_neg _ Hnew); try reflexivity;
    destruct (pull_job_begin_r e <? 0) eqn:Hbegin; cbn;
    rewrite ?(log_error_errno_neg _ Hbegin); reflexivity.
Qed.

(** ** Finalization *)

Lemma aci_pull_make_local_copy_eq (e : Env) (w : World) :
  aci_pull_make_local_copy e w
  = let i := aci w in
    let copy := pull_make_local_copy (AciPull.temp_path i) (AciPull.image_root i)
                  (AciPull.local i) (AciPull.force_local i) in
    let r := if pull_make_local_copy_r e <? 0 then pull_make_local_copy_r e else 0 in
    match AciPull.local i, AciPull.final_path i with
    | None, _ => Ok 0 w []
    | Some _, Some _ => Ok r w [copy]
    | Some _, None =>
        if alloc_ok e 0
        then Ok r (mkWorld (AciPull.with_final_path
                     (Some (strjoin [AciPull.image_root i; Some "/.aci-"; AciPull.id i])) i)
                     (jobs w)) [copy]
        else Ok log_oom w []
    end.
Proof.
  unfold aci_pull_make_local_copy.
  destruct (AciPull.local (aci w)) eqn:Hlocal; [|mred; reflexivity].
  destruct (AciPull.final_path (aci w)) eqn:Hfinal;
    [|destruct (alloc_ok e 0) eqn:Halloc];
    try destruct (pull_make_local_copy_r e <? 0) eqn:Hcopy;
    mred; reflexivity.
Qed.

(** The [copy:] block: it publishes 95%, closes the job's descriptor,
    waits for the subprocess if one is attached and makes the local copy
    if one was requested.  It leaves no subprocess attached and touches
    nothing else in the session but the base path. *)
Lemma on_finished_copy_spec (e : Env) (j : ptr) (job : PullJob.t) (w : World) :
  jobs w !! j = Some job ->
  exists r fp (copied : bool),
    on_finished_copy e j w
    = Ok r
        (mkWorld
           (AciPull.with_final_path fp
              (AciPull.with_tar_pid
                 (if 0 <? AciPull.tar_pid (aci w) then 0 else AciPull.tar_pid (aci w))
                 (aci w)))
           (<[j := PullJob.with_disk_fd (-1) job]> (jobs w)))
        ([sd_notifyf false (progress_message 95); safe_close (PullJob.disk_fd job)]
         ++ (if 0 <? AciPull.tar_pid (aci w)
             then [wait_for_terminate_and_warn "tar" (AciPull.tar_pid (aci w)) true]
             else [])
         ++ (if copied
             then [pull_make_local_copy (AciPull.temp_path (aci w))
                     (AciPull.image_root (aci w)) (AciPull.local (aci w))
                     (AciPull.force_local (aci w))]
             else [])) /\
    (copied = true -> is_Some (AciPull.local (aci w))) /\
    (AciPull.local (aci w) = None ->
     r = 0 \/ (0 < AciPull.tar_pid (aci w) /\ r = wait_for_terminate_and_warn_r e /\ r < 0)).
Proof.
  intros Hj. unfold on_finished_copy, aci_pull_report_progress, combined_percent.
  destruct w as [i js]. cbn [aci jobs] in *.
  destruct (0 <? AciPull.tar_pid i) eqn:Hpid;
    [destruct (wait_for_terminate_and_warn_r e <? 0) eqn:Hwait|];
    mred; rewrite ?aci_pull_make_local_copy_eq; cbn [aci jobs];
    try (exists (wait_for_terminate_and_warn_r e), (AciPull.final_path i), false;
         split; [destruct i; reflexivity|];
         split; [discriminate|]; intros _; right; rewrite Z.ltb_lt in *; lia).
  all: destruct (AciPull.local i) eqn:Hlocal;
         [destruct (AciPull.final_path i) eqn:Hfinal;
            [|destruct (alloc_ok e 0) eqn:Halloc];
            destruct (pull_make_local_copy_r e <? 0) eqn:Hcopy|];
         mred.
  all: try solve
    [ eexists _, (AciPull.final_path i), true; rewrite ?Hlocal;
      (split; [destruct i; cbn in *; subst; reflexivity|]);
      split; [intros _; eexists; reflexivity|discriminate]
    | eexists _, (Some (strjoin [AciPull.image_root i; Some "/.aci-"; AciPull.id i])), true;
      rewrite ?Hlocal;
      (split; [destruct i; cbn in *; subst; reflexivity|]);
      split; [intros _; eexists; reflexivity|discriminate]
    | eexists _, (AciPull.final_path i), false; rewrite ?Hlocal;
      (split; [destruct i; cbn in *; subst; reflexivity|]);
      split; [discriminate|first [discriminate|intros _; left; reflexivity]] ].
Qed.

(** ** Delivery of the result code *)

Lemma notification_same_caller (i i' : AciPull.t) (r : Z) :
  AciPull.on_finished i' = AciPull.on_finished i ->
  AciPull.userdata i' = AciPull.userdata i ->
  AciPull.event i' = AciPull.event i ->
  notification i' r = notification i r.
Proof. unfold notification. intros -> -> ->. reflexivity. Qed.

Lemma notification_reaped (w : World) (r : Z) :
  notification (aci (reaped w)) r = notification (aci w) r.
Proof. unfold reaped. case_match; reflexivity. Qed.

Lemma notification_with_new_job (s : Slot) (job : PullJob.t) (w : World) (r : Z) :
  notification (aci (with_new_job s job w)) r = notification (aci w) r.
Proof. destruct s; reflexivity. Qed.

Lemma notification_after_copy (fp : option string) (pid : Z) (i : AciPull.t) (r : Z) :
  notification (AciPull.with_final_path fp (AciPull.with_tar_pid pid i)) r
  = notification i r.
Proof. reflexivity. Qed.

Lemma no_notification_reap_calls (w : World) (tr : list Effect) :
  no_notification tr -> no_notification (reap_calls w ++ tr).
Proof.
  unfold no_notification, reap_calls. intros Htr.
  rewrite forallb_app, Htr. case_match; reflexivity.
Qed.

Lemma delivered_last (i : AciPull.t) (r : Z) (tr0 : list Effect) :
  (forall callback, AciPull.on_finished i = Some callback ->
     last (tr0 ++ [notification i r])
     = Some (call_on_finished callback r (AciPull.userdata i))) /\
  (AciPull.on_finished i = None ->
     last (tr0 ++ [notification i r]) = Some (sd_event_exit (AciPull.event i) r)).
Proof.
  rewrite last_snoc. unfold notification. split.
  - intros callback ->. reflexivity.
  - intros ->. reflexivity.
Qed.

(** The two transitions into the [copy:] block end by delivering the code
    that block computes. *)
Lemma copy_then_finish (e : Env) (j : ptr) (job : PullJob.t) (w : World) :
  jobs w !! j = Some job ->
  exists r w' tr0,
    on_finished_copy e j w = Ok r w' tr0 /\
    no_notification tr0 /\
    notification (aci w') r = notification (aci w) r.
Proof.
  intros Hj.
  destruct (on_finished_copy_spec e j job w Hj) as (r & fp & copied & -> & _ & _).
  do 3 eexists. split; [reflexivity|]. split; [|reflexivity].
  unfold no_notification. destruct (0 <? AciPull.tar_pid (aci w)), copied; reflexivity.
Qed.

(** C10.  The completion handler, called for a job of the session, always
    returns.  Whenever control reaches [finish:] with result code [r], the
    last call it makes delivers [r]: to the completion callback the
    session was constructed with if there is one, and otherwise as the
    exit code requested from the event loop; no other call of the
    invocation delivers a result.  When control does not reach [finish:]
    the pull is not over: the handler has just begun a follow-up job. *)
Theorem on_finished_delivers_result (e : Env) (j : ptr) (job : PullJob.t) (w : World) :
  jobs w !! j = Some job ->
  (exists s, AciPull.slot s (aci w) = Some j) ->
  exists w' tr,
    aci_pull_job_on_finished e j w = Ok tt w' tr /\
    match finish_code e j w with
    | Some r =>
        exists tr0,
          tr = tr0 ++ [notification (aci w) r] /\
          no_notification tr0 /\
          (forall callback, AciPull.on_finished (aci w) = Some callback ->
             last tr = Some (call_on_finished callback r (AciPull.userdata (aci w)))) /\
          (AciPull.on_finished (aci w) = None ->
             last tr = Some (sd_event_exit (AciPull.event (aci w)) r))
    | None =>
        no_notification tr /\
        exists tr0 p r, tr = tr0 ++ [pull_job_begin p r] /\ 0 <= r
    end.
Proof.
  intros Hj [s Hs].
  rewrite aci_pull_job_on_finished_eq. unfold finish_code.
  destruct (Z.lt_ge_cases (PullJob.error job) 0) as [Herr|Herr];
    destruct (decide (AciPull.simple_discovery_job (aci w) = Some j)) as [Hsimple|Hns];
    [| | |destruct (decide (AciPull.meta_discovery_job (aci w) = Some j)) as [Hmeta|Hnm]].
  - rewrite (dispatch_simple_failed e j job w) by assumption.
    destruct (pull_job_new_r e <? 0) eqn:Hnew;
      [|destruct (pull_job_begin_r e <? 0) eqn:Hbegin];
      do 2 eexists; (split; [reflexivity|]);
      rewrite ?notification_with_new_job, ?notification_reaped.
    + eexists. split; [reflexivity|].
      split; [apply no_notification_reap_calls; reflexivity|apply delivered_last].
    + eexists. split; [reflexivity|].
      split; [apply no_notification_reap_calls; reflexivity|apply delivered_last].
    + split; [apply no_notification_reap_calls; reflexivity|].
      exists (reap_calls w ++ [pull_job_new META_DISCOVERY_JOB META_DISCOVERY_URL
                                 (Some (fresh (dom (jobs w))))]),
             (fresh (dom (jobs w))), (pull_job_begin_r e).
      rewrite <- app_assoc. split; [reflexivity|]. apply Z.ltb_ge. exact Hbegin.
  - rewrite (dispatch_failed e j job w); try assumption.
    + do 2 eexists. split; [reflexivity|]. exists [].
      split; [reflexivity|]. split; [reflexivity|apply (delivered_last _ _ [])].
    + destruct s; cbn [AciPull.slot] in Hs; [contradiction|left|right]; exact Hs.
  - rewrite (dispatch_copy e j job w) by auto.
    destruct (copy_then_finish e j job w Hj) as (r & w' & tr0 & -> & Hno & Hsame).
    do 2 eexists. split; [reflexivity|]. rewrite Hsame. exists tr0.
    split; [reflexivity|]. split; [exact Hno|apply delivered_last].
  - rewrite (dispatch_meta_succeeded e j job w) by assumption.
    destruct (pull_job_new_r e <? 0) eqn:Hnew;
      [|destruct (pull_job_begin_r e <? 0) eqn:Hbegin];
      do 2 eexists; (split; [reflexivity|]);
      rewrite ?notification_with_new_job.
    + eexists. split; [reflexivity|]. split; [reflexivity|apply delivered_last].
    + eexists. split; [reflexivity|]. split; [reflexivity|apply delivered_last].
    + split; [reflexivity|].
      exists [pull_job_new DOWNLOAD_JOB DOWNLOAD_URL (Some (fresh (dom (jobs w))))],
             (fresh (dom (jobs w))), (pull_job_begin_r e).
      split; [reflexivity|]. apply Z.ltb_ge. exact Hbegin.
  - rewrite (dispatch_copy e j job w);
      [|assumption
       |right; split; [assumption|];
        destruct s; cbn [AciPull.slot] in Hs; [contradiction|contradiction|exact Hs]
       |assumption].
    destruct (copy_then_finish e j job w Hj) as (r & w' & tr0 & -> & Hno & Hsame).
    do 2 eexists. split; [reflexivity|]. rewrite Hsame. exists tr0.
    split; [reflexivity|]. split; [exact Hno|apply delivered_last].
Qed.

Lemma on_finished_delivers_result_witness :
  exists w' tr,
    aci_pull_job_on_finished env_ok 3%positive world_downloading = Ok tt w' tr /\
    last tr = Some (sd_event_exit (Some 1%positive) (-5)).
Proof.
  destruct (on_finished_delivers_result env_ok 3%positive
              (PullJob.with_error (-5)
                 (PullJob.with_state PULL_JOB_FAILED
                    (download_job_of DOWNLOAD_URL (new_session None))))
              world_downloading)
    as (w' & tr & Hrun & Hcode).
  - reflexivity.
  - exists DOWNLOAD_JOB. reflexivity.
  - exists w', tr. split; [exact Hrun|].
    change (finish_code env_ok 3%positive world_downloading) with (Some (-5)) in Hcode.
    destruct Hcode as (tr0 & _ & _ & _ & Hexit). apply Hexit. reflexivity.
Defined.
(** ** Slots and heap under the updates the handlers make *)

Lemma slot_job_frame (s : Slot) (w : World) (i' : AciPull.t) :
  same_slots (aci w) i' -> slot_job s (mkWorld i' (jobs w)) = slot_job s w.
Proof. intros Hs. unfold slot_job. cbn [aci jobs]. rewrite (Hs s). reflexivity. Qed.

Lemma slot_job_upd (s s0 : Slot) (j : ptr) (job' : PullJob.t) (w : World) (i' : AciPull.t) :
  wf w -> AciPull.slot s0 (aci w) = Some j -> same_slots (aci w) i' ->
  slot_job s (mkWorld i' (<[j := job']> (jobs w)))
  = if decide (s = s0) then Some job' else slot_job s w.
Proof.
  intros Hwf Hj Hs. unfold slot_job. cbn [aci jobs]. rewrite (Hs s).
  destruct (decide (s = s0)) as [->|Hne].
  - rewrite Hj. cbn. apply lookup_insert_eq.
  - destruct (AciPull.slot s (aci w)) as [p|] eqn:Hp; [|reflexivity]. cbn.
    apply lookup_insert_ne. intros <-. apply Hne.
    exact (wf_slot_inj w Hwf _ _ _ Hp Hj).
Qed.

Lemma slot_with_slot (s s' : Slot) (v : option ptr) (i : AciPull.t) :
  AciPull.slot s (AciPull.with_slot s' v i)
  = if decide (s = s') then v else AciPull.slot s i.
Proof. destruct s, s'; reflexivity. Qed.

Lemma slot_job_new (s s' : Slot) (job : PullJob.t) (w : World) :
  wf w ->
  slot_job s (with_new_job s' job w) = if decide (s = s') then Some job else slot_job s w.
Proof.
  intros Hwf. unfold slot_job, with_new_job. cbn [aci jobs]. rewrite slot_with_slot.
  destruct (decide (s = s')) as [->|Hne].
  - cbn. apply lookup_insert_eq.
  - destruct (AciPull.slot s (aci w)) as [p|] eqn:Hp; [|reflexivity]. cbn.
    apply lookup_insert_ne. intros Heq.
    destruct (wf_slot_live w Hwf _ _ Hp) as [job' Hjob].
    exact (fresh_job_ptr _ _ _ Hjob Heq).
Qed.

Lemma wf_frame (w : World) (i' : AciPull.t) :
  wf w -> same_slots (aci w) i' -> wf (mkWorld i' (jobs w)).
Proof.
  intros [H1 H2 H3] Hs. split; cbn [aci jobs].
  - intros s p. rewrite (Hs s). apply H1.
  - intros p Hp. destruct (H2 p Hp) as [s Hsp]. exists s. rewrite (Hs s). exact Hsp.
  - intros s s' p. rewrite (Hs s), (Hs s'). apply H3.
Qed.

Lemma wf_upd (j : ptr) (job' : PullJob.t) (w : World) (i' : AciPull.t) :
  wf w -> is_Some (jobs w !! j) -> same_slots (aci w) i' ->
  wf (mkWorld i' (<[j := job']> (jobs w))).
Proof.
  intros [H1 H2 H3] Hj Hs. split; cbn [aci jobs].
  - intros s p. rewrite (Hs s). intros Hp. rewrite lookup_insert_is_Some.
    destruct (decide (j = p)); [left; assumption|right; split; eauto].
  - intros p. rewrite lookup_insert_is_Some. intros [<-|[_ Hp]].
    + destruct (H2 j Hj) as [s Hsp]. exists s. rewrite (Hs s). exact Hsp.
    + destruct (H2 p Hp) as [s Hsp]. exists s. rewrite (Hs s). exact Hsp.
  - intros s s' p. rewrite (Hs s), (Hs s'). apply H3.
Qed.

Lemma wf_new (s' : Slot) (job : PullJob.t) (w : World) :
  wf w -> AciPull.slot s' (aci w) = None -> wf (with_new_job s' job w).
Proof.
  intros Hwf Hnone. pose proof Hwf as [H1 H2 H3].
  assert (Hfresh : forall s p, AciPull.slot s (aci w) = Some p -> p <> fresh (dom (jobs w))).
  { intros s p Hp Heq. destruct (H1 s p Hp) as [job' Hjob].
    exact (fresh_job_ptr _ _ _ Hjob (eq_sym Heq)). }
  unfold with_new_job. split; cbn [aci jobs].
  - intros s p. rewrite slot_with_slot, lookup_insert_is_Some.
    destruct (decide (s = s')); [intros [= <-]; left; reflexivity|].
    intros Hp. right. split; [apply not_eq_sym; eauto|eauto].
  - intros p. rewrite lookup_insert_is_Some. intros [<-|[Hne Hp]].
    + exists s'. rewrite slot_with_slot, decide_True by reflexivity. reflexivity.
    + destruct (H2 p Hp) as [s Hsp]. exists s. rewrite slot_with_slot.
      rewrite decide_False; [exact Hsp|]. intros ->. congruence.
  - intros s1 s2 p. rewrite !slot_with_slot.
    destruct (decide (s1 = s')) as [->|Hn1], (decide (s2 = s')) as [->|Hn2];
      try (intros; congruence).
    + intros [= <-] Hp. exfalso. exact (Hfresh _ _ Hp eq_refl).
    + intros Hp [= <-]. exfalso. exact (Hfresh _ _ Hp eq_refl).
    + apply H3.
Qed.
(** ** Preservation of the session invariant *)

Lemma count_app (f : Effect -> bool) (l1 l2 : list Effect) :
  count f (l1 ++ l2) = (count f l1 + count f l2)%nat.
Proof. induction l1 as [|x l1 IH]; cbn; [reflexivity|]. rewrite IH. lia. Qed.

Lemma slot_job_Some (s : Slot) (w : World) (p : ptr) (job : PullJob.t) :
  AciPull.slot s (aci w) = Some p -> jobs w !! p = Some job -> slot_job s w = Some job.
Proof. intros Hs Hp. unfold slot_job. rewrite Hs. exact Hp. Qed.

Lemma same_slots_refl (i : AciPull.t) : same_slots i i.
Proof. intros s. reflexivity. Qed.

Section Preservation.

Context `{Collaborators}.

Lemma on_progress_spec (j : ptr) (job : PullJob.t) (w : World) :
  wf w -> jobs w !! j = Some job ->
  exists msg, aci_pull_job_on_progress j w = Ok tt w [sd_notifyf false msg].
Proof.
  intros Hwf Hj.
  unfold aci_pull_job_on_progress, aci_pull_report_progress, combined_percent,
         add_job_progress.
  assert (Hlive : forall s, match AciPull.slot s (aci w) with
                            | Some p => is_Some (jobs w !! p)
                            | None => True
                            end).
  { intros s. destruct (AciPull.slot s (aci w)) eqn:Hs; [|exact I].
    exact (wf_slot_live w Hwf _ _ Hs). }
  pose proof (Hlive SIMPLE_DISCOVERY_JOB) as H1.
  pose proof (Hlive META_DISCOVERY_JOB) as H2.
  pose proof (Hlive DOWNLOAD_JOB) as H3. cbn [AciPull.slot] in H1, H2, H3.
  mred.
  repeat case_decide; mred;
    repeat match goal with
    | H : match ?x with Some _ => _ | None => _ end |- _ =>
        destruct x eqn:?; [destruct H as [? ?]|]
    end; mred; eexists; reflexivity.
Qed.

End Preservation.
Section OpenDiskSpec.

Context `{Collaborators}.

(** The disk-open hook in general: it changes the base path, the staging
    path and the subprocess of the session and the descriptor of the job,
    and creates nothing outside the staging path. *)
Lemma open_disk_spec (e : Env) (j : ptr) (job : PullJob.t) (w : World) :
  jobs w !! j = Some job ->
  AciPull.tar_pid (aci w) <= 0 ->
  exists r fp tp pid (opened : bool) tr',
    aci_pull_job_on_open_disk e j w
    = Ok r
        (mkWorld (AciPull.with_tar_pid pid
                    (AciPull.with_temp_path tp (AciPull.with_final_path fp (aci w))))
           (if opened then <[j := PullJob.with_disk_fd (import_fork_tar_x_r e) job]> (jobs w)
            else jobs w))
        tr' /\
    (pid = AciPull.tar_pid (aci w) \/ (pid = fork_pid e /\ 0 <= import_fork_tar_x_r e)) /\
    (forall p, AciPull.temp_path (aci w) = Some p -> tp = Some p) /\
    Forall (stages_at tp) tr' /\
    forallb (fun x => negb (is_job_call x || is_notification x)) tr' = true.
Proof.
  intros Hj Hpid. apply Z.leb_le in Hpid.
  unfold aci_pull_job_on_open_disk.
  destruct w as [i js]. cbn [aci jobs] in *.
  assert (Heta : forall i0 : AciPull.t,
    i0 = AciPull.with_tar_pid (AciPull.tar_pid i0)
           (AciPull.with_temp_path (AciPull.temp_path i0)
              (AciPull.with_final_path (AciPull.final_path i0) i0)))
    by (intros []; reflexivity).
  destruct (AciPull.final_path i) as [final|] eqn:Hfinal;
    destruct (AciPull.temp_path i) as [temp|] eqn:Htemp;
    destruct (alloc_ok e 0) eqn:Halloc; destruct (alloc_ok e 1) eqn:Halloc1;
    destruct (btrfs_subvol_make_r e <? 0) eqn:Hmake;
    destruct (import_fork_tar_x_r e <? 0) eqn:Hfork;
    mred.
  all: match goal with
       | |- exists r fp tp pid opened tr', Ok ?r0 {| aci := ?I; jobs := ?J |} ?T = _ /\ _ =>
           let o := match J with
                    | context [PullJob.with_disk_fd] => constr:(true)
                    | _ => constr:(false)
                    end in
           exists r0, (AciPull.final_path I), (AciPull.temp_path I), (AciPull.tar_pid I), o, T
       end.
  all: split; [destruct i; cbn in *; subst; reflexivity|].
  all: split; [first [left; reflexivity
                     |right; split; [reflexivity|apply Z.ltb_ge; assumption]]|].
  all: split; [cbn; congruence|].
  all: split; [|reflexivity].
  all: repeat match goal with
              | |- Forall _ (_ :: _) => apply List.Forall_cons
              | |- Forall _ [] => apply List.Forall_nil
              end;
         intros c Hc; cbn in Hc; injection Hc as <-; cbn; rewrite ?Htemp;
         (split; [reflexivity|eexists; reflexivity]).
Qed.

End OpenDiskSpec.
(** ** The three ways a handler changes the store *)

Arguments slot_job : simpl never.

(** Decides the comparisons of concrete slots. *)
Ltac dec_slots :=
  repeat first [rewrite decide_True by congruence | rewrite decide_False by congruence].

Lemma active_not_completed (job : PullJob.t) :
  PullJob.active job = true -> completed job = false.
Proof. unfold PullJob.active, completed. destruct (PullJob.state job); congruence. Qed.

Lemma active_not_init (job : PullJob.t) :
  PullJob.active job = true -> PullJob.state job <> PULL_JOB_INIT.
Proof. unfold PullJob.active. destruct (PullJob.state job); congruence. Qed.

Lemma slot_job_is_Some (s : Slot) (w : World) :
  wf w -> is_Some (slot_job s w) <-> is_Some (AciPull.slot s (aci w)).
Proof.
  intros Hwf. unfold slot_job. destruct (AciPull.slot s (aci w)) as [p|] eqn:Hp; cbn.
  - split; [eauto|]. intros _. exact (wf_slot_live w Hwf _ _ Hp).
  - split; intros [? ?]; discriminate.
Qed.

(** Only the session struct changes, its slots and subprocess apart. *)
Lemma Inv_frame (w : World) (tr tr' : list Effect) (i' : AciPull.t) :
  Inv w tr ->
  same_slots (aci w) i' ->
  AciPull.tar_pid i' = AciPull.tar_pid (aci w) ->
  count (is_job_new META_DISCOVERY_JOB) tr' = 0%nat ->
  count (is_job_new DOWNLOAD_JOB) tr' = 0%nat ->
  Inv (mkWorld i' (jobs w)) (tr ++ tr').
Proof.
  intros [Hwf Hmeta Hdl Hhook Hsink Htar Hcm Hcd] Hs Hpid Hc1 Hc2.
  split; rewrite ?count_app, ?Hc1, ?Hc2, ?Nat.add_0_r;
    unfold slot_failed, slot_succeeded, slot_state in *; cbn [aci];
    rewrite ?Hpid; try (intros *); rewrite ?slot_job_frame by exact Hs; try assumption.
  - apply wf_frame; assumption.
  - apply Hhook.
  - apply Hsink.
Qed.

(** A job is allocated in a free slot, in its place in the sequence. *)
Lemma Inv_new (w : World) (tr : list Effect) (s' : Slot) (job : PullJob.t) :
  Inv w tr ->
  AciPull.slot s' (aci w) = None ->
  completed job = false ->
  (PullJob.state job <> PULL_JOB_INIT -> is_Some (PullJob.on_finished job)) ->
  match s' with
  | SIMPLE_DISCOVERY_JOB => True
  | META_DISCOVERY_JOB =>
      PullJob.on_open_disk job = None /\ slot_failed SIMPLE_DISCOVERY_JOB w = true
  | DOWNLOAD_JOB => slot_succeeded META_DISCOVERY_JOB w = true
  end ->
  Inv (with_new_job s' job w) tr.
Proof.
  intros [Hwf Hmeta Hdl Hhook Hsink Htar Hcm Hcd] Hnone Hjob Hfin Hseq.
  assert (Hfree : slot_job s' w = None).
  { destruct (slot_job s' w) eqn:Hsj; [|reflexivity].
    apply mk_is_Some, (slot_job_is_Some _ _ Hwf) in Hsj.
    rewrite Hnone in Hsj. destruct Hsj; discriminate. }
  assert (Htar0 : s' <> META_DISCOVERY_JOB -> AciPull.tar_pid (aci w) <= 0).
  { intros Hs'. destruct (Z.lt_ge_cases 0 (AciPull.tar_pid (aci w))) as [Hpos|]; [|lia].
    exfalso. destruct (Htar Hpos) as [_ Hor].
    unfold slot_state, slot_failed, slot_succeeded in *.
    destruct s'; [|congruence|]; rewrite ?Hfree in *; cbn in *.
    - destruct Hor as [Hrun|(st & Hst & _)]; [(simpl in Hrun; discriminate Hrun)|].
      destruct (slot_job DOWNLOAD_JOB w) eqn:Hd; [|(simpl in Hst; discriminate Hst)].
      specialize (Hdl (mk_is_Some _ _ eq_refl)).
      destruct (slot_job META_DISCOVERY_JOB w) eqn:Hm; [|(simpl in Hdl; discriminate Hdl)].
      specialize (Hmeta (mk_is_Some _ _ eq_refl)). (simpl in Hmeta; discriminate Hmeta).
    - destruct Hor as [Hrun|(st & Hst & _)]; [|(simpl in Hst; discriminate Hst)].
      destruct (slot_job META_DISCOVERY_JOB w) eqn:Hm; [|(simpl in Hseq; discriminate Hseq)].
      specialize (Hmeta (mk_is_Some _ _ eq_refl)).
      destruct (slot_job SIMPLE_DISCOVERY_JOB w) as [js|]; [|(simpl in Hrun; discriminate Hrun)].
      cbn in *. injection Hrun as Hrun. unfold failed, completed in Hmeta.
      rewrite Hrun in Hmeta. (simpl in Hmeta; discriminate Hmeta). }
  split; unfold slot_failed, slot_succeeded, slot_state in *;
    try (intros *); rewrite ?(slot_job_new _ _ _ _ Hwf).
  - apply wf_new; assumption.
  - destruct s'; dec_slots; cbn; rewrite ?Hfree in *; try assumption.
    + intros Hm. specialize (Hmeta Hm). (simpl in Hmeta; discriminate Hmeta).
    + intros _. apply Hseq.
  - destruct s'; dec_slots; cbn; rewrite ?Hfree in *; try assumption.
    + intros Hd. specialize (Hdl Hd). (simpl in Hdl; discriminate Hdl).
    + intros _. exact Hseq.
  - destruct (decide (s = s')); [intros [= <-]; exact Hfin|apply Hhook].
  - destruct s'; dec_slots; cbn; try apply Hsink. intros [= <-]. apply Hseq.
  - cbn [aci with_new_job]. 
    replace (AciPull.tar_pid (AciPull.with_slot s' (Some (fresh (dom (jobs w)))) (aci w)))
      with (AciPull.tar_pid (aci w)) by (destruct s'; reflexivity).
    destruct s'; dec_slots; cbn; try (intros Hpos; specialize (Htar0 ltac:(congruence)); lia).
    exact Htar.
  - destruct s'; dec_slots; cbn; rewrite ?Hfree in *; try assumption.
    unfold failed. rewrite Hjob. exact Hcm.
  - destruct s'; dec_slots; cbn; rewrite ?Hfree in *; try assumption.
    unfold succeeded. rewrite Hjob. exact Hcd.
Qed.

(** The job [j] of slot [s0], which is active, is updated; the subprocess
    may change with it and calls are logged. *)
Lemma Inv_update (w : World) (tr tr' : list Effect) (s0 : Slot) (j : ptr)
    (job job' : PullJob.t) (i' : AciPull.t) :
  Inv w tr ->
  AciPull.slot s0 (aci w) = Some j ->
  jobs w !! j = Some job ->
  PullJob.active job = true ->
  same_slots (aci w) i' ->
  PullJob.on_finished job' = PullJob.on_finished job ->
  PullJob.on_open_disk job' = PullJob.on_open_disk job ->
  PullJob.state job' <> PULL_JOB_INIT ->
  (AciPull.tar_pid i' <= 0 \/
   (1 < AciPull.tar_pid i' /\ PullJob.state job' = PULL_JOB_RUNNING /\
    s0 <> META_DISCOVERY_JOB) \/
   (AciPull.tar_pid i' = AciPull.tar_pid (aci w) /\
    (PullJob.state job' = PullJob.state job \/ s0 = META_DISCOVERY_JOB \/
     (s0 = DOWNLOAD_JOB /\ completed job' = true)))) ->
  count (is_job_new META_DISCOVERY_JOB) tr'
  = (if decide (s0 = SIMPLE_DISCOVERY_JOB) then Nat.b2n (failed job') else 0%nat) ->
  count (is_job_new DOWNLOAD_JOB) tr'
  = (if decide (s0 = META_DISCOVERY_JOB) then Nat.b2n (succeeded job') else 0%nat) ->
  Inv (mkWorld i' (<[j := job']> (jobs w))) (tr ++ tr').
Proof.
  intros [Hwf Hmeta Hdl Hhook Hsink Htar Hcm Hcd] Hs0 Hj Hact Hs Hfin Hdisk Hst Hpid Hc1 Hc2.
  pose proof (slot_job_Some _ _ _ _ Hs0 Hj) as Hjob.
  pose proof (active_not_completed _ Hact) as Hnc.
  pose proof (active_not_init _ Hact) as Hni.
  unfold slot_failed, slot_succeeded, slot_state in *.
  (* what the activity of the job excludes *)
  assert (Hseq : match s0 with
                 | SIMPLE_DISCOVERY_JOB =>
                     slot_job META_DISCOVERY_JOB w = None /\ slot_job DOWNLOAD_JOB w = None
                 | META_DISCOVERY_JOB =>
                     slot_job DOWNLOAD_JOB w = None /\ AciPull.tar_pid (aci w) <= 0
                 | DOWNLOAD_JOB => True
                 end).
  { destruct s0; [| |exact I].
    - assert (Hm : slot_job META_DISCOVERY_JOB w = None).
      { destruct (slot_job META_DISCOVERY_JOB w) eqn:Hm; [|reflexivity].
        specialize (Hmeta (mk_is_Some _ _ eq_refl)). rewrite Hjob in Hmeta.
        unfold failed in Hmeta. rewrite Hnc in Hmeta. (simpl in Hmeta; discriminate Hmeta). }
      split; [exact Hm|].
      destruct (slot_job DOWNLOAD_JOB w) eqn:Hd; [|reflexivity].
      specialize (Hdl (mk_is_Some _ _ eq_refl)). rewrite Hm in Hdl. (simpl in Hdl; discriminate Hdl).
    - assert (Hd : slot_job DOWNLOAD_JOB w = None).
      { destruct (slot_job DOWNLOAD_JOB w) eqn:Hd; [|reflexivity].
        specialize (Hdl (mk_is_Some _ _ eq_refl)). rewrite Hjob in Hdl.
        unfold succeeded in Hdl. rewrite Hnc in Hdl. (simpl in Hdl; discriminate Hdl). }
      split; [exact Hd|].
      destruct (Z.lt_ge_cases 0 (AciPull.tar_pid (aci w))) as [Hpos|]; [|lia].
      exfalso. destruct (Htar Hpos) as [_ [Hrun|(st & Hst' & _)]].
      + specialize (Hmeta (mk_is_Some _ _ Hjob)).
        destruct (slot_job SIMPLE_DISCOVERY_JOB w) as [js|]; [|(simpl in Hmeta; discriminate Hmeta)].
        cbn in Hrun. injection Hrun as Hrun. unfold failed, completed in Hmeta.
        rewrite Hrun in Hmeta. (simpl in Hmeta; discriminate Hmeta).
      + rewrite Hd in Hst'. (simpl in Hst'; discriminate Hst'). }
  split; rewrite ?count_app, ?Hc1, ?Hc2; unfold slot_failed, slot_succeeded, slot_state;
    try (intros *); rewrite ?(slot_job_upd _ _ _ _ _ _ Hwf Hs0 Hs).
  - apply wf_upd; [assumption|eauto|assumption].
  - destruct s0; dec_slots; cbn; rewrite ?Hjob in *; try assumption.
    + destruct Hseq as [-> _]. intros [? Hx]; (simpl in Hx; discriminate Hx).
    + intros _. apply Hmeta. eexists; reflexivity.
  - destruct s0; dec_slots; cbn; rewrite ?Hjob in *; try assumption.
    + destruct Hseq as [-> _]. intros [? Hx]; (simpl in Hx; discriminate Hx).
    + intros _. apply Hdl. eexists; reflexivity.
  - destruct (decide (s = s0)) as [->|]; [|apply Hhook].
    intros [= <-] _. rewrite Hfin. exact (Hhook _ _ Hjob Hni).
  - destruct s0; dec_slots; cbn; try apply Hsink.
    intros [= <-]. rewrite Hdisk. exact (Hsink _ Hjob).
  - cbn [aci]. intros Hpos.
    destruct Hpid as [Hle|[(Hgt & Hrun & Hnm)|(Heq & Hsame)]]; [lia| |].
    + split; [exact Hgt|]. destruct s0; [|congruence|]; dec_slots; cbn.
      * left. rewrite Hrun. reflexivity.
      * right. exists PULL_JOB_RUNNING. rewrite Hrun. repeat split; congruence.
    + rewrite Heq in *. destruct (Htar Hpos) as [Hgt Hor]. split; [exact Hgt|].
      destruct s0; dec_slots; cbn; rewrite ?Hjob in *; cbn in *.
      * destruct Hseq as [_ Hd]. rewrite Hd in Hor.
        destruct Hor as [Hrun|(st & Hx & _)]; [|(simpl in Hx; discriminate Hx)].
        destruct Hsame as [->|[Hx|[Hx _]]]; try (simpl in Hx; discriminate Hx). left. exact Hrun.
      * destruct Hseq as [_ Hle]. lia.
      * destruct Hor as [Hrun|(st & Hst' & Hna & Hni')]; [left; exact Hrun|].
        right. injection Hst' as <-.
        destruct Hsame as [->|[Hx|[_ Hc]]]; [eauto|(simpl in Hx; discriminate Hx)|].
        eexists. split; [reflexivity|]. unfold completed in Hc.
        destruct (PullJob.state job'); split; congruence.
  - destruct s0; dec_slots; cbn; rewrite ?Hjob in *; cbn; rewrite ?Nat.add_0_r; try assumption.
    rewrite Hcm. unfold failed at 1. rewrite Hnc. reflexivity.
  - destruct s0; dec_slots; cbn; rewrite ?Hjob in *; cbn; rewrite ?Nat.add_0_r; try assumption.
    rewrite Hcd. unfold succeeded at 1. rewrite Hnc. reflexivity.
Qed.
(** ** Every event keeps the invariant *)

Lemma Inv_active_seq (w : World) (tr : list Effect) (s0 : Slot) (j : ptr) (job : PullJob.t) :
  Inv w tr ->
  AciPull.slot s0 (aci w) = Some j ->
  jobs w !! j = Some job ->
  PullJob.active job = true ->
  match s0 with
  | SIMPLE_DISCOVERY_JOB =>
      AciPull.meta_discovery_job (aci w) = None /\ AciPull.download_job (aci w) = None
  | META_DISCOVERY_JOB =>
      AciPull.download_job (aci w) = None /\ AciPull.tar_pid (aci w) <= 0
  | DOWNLOAD_JOB => True
  end.
Proof.
  intros [Hwf Hmeta Hdl Hhook Hsink Htar Hcm Hcd] Hs0 Hj Hact.
  pose proof (slot_job_Some _ _ _ _ Hs0 Hj) as Hjob.
  pose proof (active_not_completed _ Hact) as Hnc.
  unfold slot_failed, slot_succeeded, slot_state in *.
  assert (Hnone : forall s, ~ is_Some (slot_job s w) -> AciPull.slot s (aci w) = None).
  { intros s Hn. destruct (AciPull.slot s (aci w)) eqn:Hs; [|reflexivity].
    exfalso. apply Hn, (slot_job_is_Some _ _ Hwf). rewrite Hs. eauto. }
  destruct s0; [| |exact I].
  - assert (Hm : ~ is_Some (slot_job META_DISCOVERY_JOB w)).
    { intros Hm. specialize (Hmeta Hm). rewrite Hjob in Hmeta.
      unfold failed in Hmeta. rewrite Hnc in Hmeta. discriminate Hmeta. }
    split; [exact (Hnone META_DISCOVERY_JOB Hm)|].
    apply (Hnone DOWNLOAD_JOB). intros Hd. specialize (Hdl Hd).
    destruct (slot_job META_DISCOVERY_JOB w); [|discriminate Hdl].
    apply Hm. eauto.
  - assert (Hd : ~ is_Some (slot_job DOWNLOAD_JOB w)).
    { intros Hd. specialize (Hdl Hd). rewrite Hjob in Hdl.
      unfold succeeded in Hdl. rewrite Hnc in Hdl. discriminate Hdl. }
    split; [exact (Hnone DOWNLOAD_JOB Hd)|].
    destruct (Z.lt_ge_cases 0 (AciPull.tar_pid (aci w))) as [Hpos|]; [|lia].
    exfalso. destruct (Htar Hpos) as [_ [Hrun|(st & Hst' & _)]].
    + specialize (Hmeta (mk_is_Some _ _ Hjob)).
      destruct (slot_job SIMPLE_DISCOVERY_JOB w) as [js|]; [|discriminate Hmeta].
      cbn in Hrun. injection Hrun as Hrun. unfold failed, completed in Hmeta.
      rewrite Hrun in Hmeta. discriminate Hmeta.
    + destruct (slot_job DOWNLOAD_JOB w) eqn:Hdj; [|discriminate Hst'].
      apply Hd. eauto.
Qed.

(** The fact behind the assertion of the disk-open hook: while a job that
    has a disk sink is still waiting to open it, no subprocess is attached
    to the session. *)
Lemma Inv_analyzing_no_subprocess (w : World) (tr : list Effect) (j : ptr) (job : PullJob.t) :
  Inv w tr ->
  jobs w !! j = Some job ->
  PullJob.state job = PULL_JOB_ANALYZING ->
  AciPull.tar_pid (aci w) <= 0.
Proof.
  intros HI Hj Hst.
  pose proof (inv_wf _ _ HI) as Hwf.
  destruct (wf_job_slot w Hwf j (mk_is_Some _ _ Hj)) as [s0 Hs0].
  pose proof (slot_job_Some _ _ _ _ Hs0 Hj) as Hjob.
  assert (Hact : PullJob.active job = true) by (unfold PullJob.active; rewrite Hst; reflexivity).
  pose proof (Inv_active_seq _ _ _ _ _ HI Hs0 Hj Hact) as Hseq.
  destruct (Z.lt_ge_cases 0 (AciPull.tar_pid (aci w))) as [Hpos|]; [|lia].
  exfalso. destruct (inv_tar _ _ HI Hpos) as [_ Hor]. unfold slot_state in Hor.
  destruct s0.
  - rewrite Hjob in Hor. cbn in Hor. rewrite Hst in Hor.
    destruct Hor as [Hrun|(st & Hd & _)]; [discriminate Hrun|].
    destruct Hseq as [_ Hnone]. unfold slot_job in Hd. cbn in Hd.
    rewrite Hnone in Hd. discriminate Hd.
  - destruct Hseq as [_ Hle]. lia.
  - rewrite Hjob in Hor. cbn in Hor. rewrite Hst in Hor.
    destruct Hor as [Hrun|(st & [= <-] & Hna & _)]; [|congruence].
    assert (Hd : is_Some (slot_job DOWNLOAD_JOB w)) by eauto.
    pose proof (inv_download _ _ HI Hd) as Hm. unfold slot_succeeded in Hm.
    destruct (slot_job META_DISCOVERY_JOB w) eqn:Hmj; [|discriminate Hm].
    pose proof (inv_meta _ _ HI (mk_is_Some _ _ Hmj)) as Hf. unfold slot_failed in Hf.
    destruct (slot_job SIMPLE_DISCOVERY_JOB w) as [js|]; [|discriminate Hf].
    cbn in Hrun. injection Hrun as Hrun. unfold failed, completed in Hf.
    rewrite Hrun in Hf. discriminate Hf.
Qed.

Lemma stage_step_refl (w : World) (i' : AciPull.t) (js : gmap ptr PullJob.t)
    (tr' : list Effect) :
  AciPull.temp_path i' = AciPull.temp_path (aci w) ->
  forallb (fun x => negb (is_creation x)) tr' = true ->
  stage_step w (mkWorld i' js) tr'.
Proof.
  intros Htemp Hno. split; cbn [aci].
  - rewrite Htemp. auto.
  - intros _. rewrite forallb_forall in Hno. apply List.Forall_forall.
    intros x Hx c Hc. apply Hno in Hx. unfold is_creation in Hx.
    rewrite Hc in Hx. discriminate Hx.
Qed.

Section Events.

Context `{Collaborators}.

Lemma deliver_progress_ok (e : Env) (j : ptr) (percent : Z) (w : World)
    (tr : list Effect) (res : Res unit) :
  Inv w tr ->
  deliver e (EvProgress j percent) w = Some res ->
  step_ok (EvProgress j percent) w tr res.
Proof.
  intros HI. cbn [deliver].
  destruct (jobs w !! j) as [job|] eqn:Hj; [|discriminate].
  destruct (PullJob.active job) eqn:Hact; [|discriminate]. intros [= <-].
  pose proof (inv_wf _ _ HI) as Hwf.
  destruct (wf_job_slot w Hwf j (mk_is_Some _ _ Hj)) as [s0 Hs0].
  set (job' := PullJob.with_progress_percent (u32 percent) job).
  set (w1 := mkWorld (aci w) (<[j := job']> (jobs w))).
  assert (Hwf1 : wf w1) by (apply wf_upd; [assumption|eauto|apply same_slots_refl]).
  assert (Hrun : exists tr',
    (modify_job j (PullJob.with_progress_percent (u32 percent));;
     run_hook (PullJob.on_progress job) (aci_pull_job_on_progress j)) w
    = Ok tt w1 tr' /\ (tr' = [] \/ exists msg, tr' = [sd_notifyf false msg])).
  { unfold run_hook. destruct (PullJob.on_progress job).
    - destruct (on_progress_spec j job' w1 Hwf1) as [msg Hmsg];
        [apply lookup_insert_eq|].
      mred. fold job'. fold w1. rewrite Hmsg. eexists. split; [reflexivity|].
      right. eexists. reflexivity.
    - mred. eexists. split; [reflexivity|]. left. reflexivity. }
  destruct Hrun as (tr' & -> & Htr').
  assert (Hnc : completed job' = false) by exact (active_not_completed _ Hact).
  exists w1, tr'. split; [reflexivity|]. split; [|split].
  - apply (Inv_update w tr tr' s0 j job job' (aci w)); try assumption; try reflexivity.
    + apply same_slots_refl.
    + apply (active_not_init _ Hact).
    + right. right. split; [reflexivity|]. left. reflexivity.
    + unfold failed. rewrite Hnc.
      destruct Htr' as [->|[msg ->]]; case_decide; reflexivity.
    + unfold succeeded. rewrite Hnc.
      destruct Htr' as [->|[msg ->]]; case_decide; reflexivity.
  - apply stage_step_refl; [reflexivity|]. destruct Htr' as [->|[msg ->]]; reflexivity.
  - reflexivity.
Qed.

Lemma deliver_open_disk_ok (e : Env) (j : ptr) (w : World) (tr : list Effect)
    (res : Res unit) :
  Inv w tr -> fork_ok e ->
  deliver e (EvOpenDisk j) w = Some res ->
  step_ok (EvOpenDisk j) w tr res.
Proof.
  intros HI Hfork. cbn [deliver].
  destruct (jobs w !! j) as [job|] eqn:Hj; [|discriminate].
  destruct (decide (PullJob.state job = PULL_JOB_ANALYZING)) as [Hst|]; [|discriminate].
  intros [= <-].
  pose proof (inv_wf _ _ HI) as Hwf.
  destruct (wf_job_slot w Hwf j (mk_is_Some _ _ Hj)) as [s0 Hs0].
  pose proof (slot_job_Some _ _ _ _ Hs0 Hj) as Hjob.
  pose proof (Inv_analyzing_no_subprocess _ _ _ _ HI Hj Hst) as Hpid.
  assert (Hact : PullJob.active job = true)
    by (unfold PullJob.active; rewrite Hst; reflexivity).
  unfold step_ok, run_hook.
  destruct (PullJob.on_open_disk job) as [hook|] eqn:Hhook.
  - destruct (open_disk_spec e j job w Hj Hpid)
      as (r & fp & tp & pid & opened & tr' & Hrun & Hpid' & Htemp & Hstage & Hcalls).
    mred. rewrite Hrun. cbn [aci jobs].
    exists (mkWorld (AciPull.with_tar_pid pid
                      (AciPull.with_temp_path tp (AciPull.with_final_path fp (aci w))))
              (<[j := PullJob.with_state PULL_JOB_RUNNING
                        (if opened then PullJob.with_disk_fd (import_fork_tar_x_r e) job
                         else job)]> (jobs w))), tr'.
    split.
    { destruct opened; mred; rewrite ?app_nil_r; reflexivity. }
    assert (Hcount : forall s, count (is_job_new s) tr' = 0%nat).
    { intros s. clear -Hcalls.
      induction tr' as [|x tr' IH]; [reflexivity|]. cbn in Hcalls.
      apply andb_prop in Hcalls as [Hx Htl]. cbn [count]. rewrite (IH Htl).
      destruct x; cbn in Hx; try discriminate Hx; reflexivity. }
    split; [|split].
    + eapply (Inv_update w tr tr' s0 j job _ _ HI Hs0 Hj Hact).
      * intros []; reflexivity.
      * destruct opened; reflexivity.
      * destruct opened; reflexivity.
      * destruct opened; cbn; congruence.
      * cbn [AciPull.tar_pid AciPull.with_tar_pid].
        destruct Hpid' as [->|[-> Hok]]; [left; exact Hpid|].
        right. left. split; [exact (Hfork Hok)|]. split; [destruct opened; reflexivity|].
        intros ->. rewrite (inv_meta_sink _ _ HI _ Hjob) in Hhook. discriminate Hhook.
      * rewrite Hcount. case_decide; [|reflexivity].
        unfold failed, completed. destruct opened; reflexivity.
      * rewrite Hcount. case_decide; [|reflexivity].
        unfold succeeded, completed. destruct opened; reflexivity.
    + split; cbn [aci]; [exact Htemp|]. intros _. exact Hstage.
    + reflexivity.
  - mred. do 2 eexists. split; [reflexivity|].
    split; [|split].
    + eapply (Inv_update w tr [] s0 j job _ _ HI Hs0 Hj Hact); try reflexivity.
      * apply same_slots_refl.
      * cbn. congruence.
      * left. exact Hpid.
      * case_decide; reflexivity.
      * case_decide; reflexivity.
    + apply stage_step_refl; reflexivity.
    + reflexivity.
Qed.

End Events.

(** *** Completion of a job *)

Lemma finished_job_facts (ret : Z) (job : PullJob.t) :
  completed (finished_job ret job) = true /\
  PullJob.on_finished (finished_job ret job) = PullJob.on_finished job /\
  PullJob.on_open_disk (finished_job ret job) = PullJob.on_open_disk job /\
  PullJob.state (finished_job ret job) <> PULL_JOB_INIT.
Proof. unfold finished_job, completed. case_decide; cbn; repeat split; congruence. Qed.

Lemma notification_quiet (i : AciPull.t) (r : Z) (s : Slot) :
  is_job_new s (notification i r) = false /\ is_creation (notification i r) = false.
Proof. unfold notification. destruct (AciPull.on_finished i); split; reflexivity. Qed.

Lemma reap_calls_quiet (w : World) (s : Slot) :
  count (is_job_new s) (reap_calls w) = 0%nat /\
  forallb (fun x => negb (is_creation x)) (reap_calls w) = true.
Proof. unfold reap_calls. case_match; split; reflexivity. Qed.

Lemma reaped_eq (i : AciPull.t) (js : gmap ptr PullJob.t) :
  reaped (mkWorld i js)
  = mkWorld (if 1 <? AciPull.tar_pid i then AciPull.with_tar_pid 0 i else i) js.
Proof. unfold reaped. cbn [aci jobs]. case_match; reflexivity. Qed.

Lemma count_snoc_notification (s : Slot) (tr : list Effect) (i : AciPull.t) (r : Z) :
  count (is_job_new s) (tr ++ [notification i r]) = count (is_job_new s) tr.
Proof.
  rewrite count_app. cbn [count]. rewrite (proj1 (notification_quiet i r s)). lia.
Qed.

Lemma quiet_snoc_notification (tr : list Effect) (i : AciPull.t) (r : Z) :
  forallb (fun x => negb (is_creation x)) tr = true ->
  forallb (fun x => negb (is_creation x)) (tr ++ [notification i r]) = true.
Proof.
  intros Htr. rewrite forallb_app, Htr. cbn.
  rewrite (proj2 (notification_quiet i r SIMPLE_DISCOVERY_JOB)). reflexivity.
Qed.

(** A failed simple discovery, seen from the session: the subprocess is
    gone, one attempt to create the meta-discovery job is logged, and the
    job is in its slot if the attempt succeeded. *)
Lemma finished_simple_failed (e : Env) (j : ptr) (job job1 : PullJob.t) (w : World)
    (tr : list Effect) :
  Inv w tr ->
  AciPull.slot SIMPLE_DISCOVERY_JOB (aci w) = Some j ->
  jobs w !! j = Some job ->
  PullJob.active job = true ->
  completed job1 = true ->
  PullJob.on_finished job1 = PullJob.on_finished job ->
  PullJob.on_open_disk job1 = PullJob.on_open_disk job ->
  PullJob.state job1 <> PULL_JOB_INIT ->
  PullJob.error job1 < 0 ->
  forall ret,
  step_ok (EvFinished j ret) w tr
    (aci_pull_job_on_finished e j (mkWorld (aci w) (<[j := job1]> (jobs w)))).
Proof.
  intros HI Hs0 Hj Hact Hc Hfin Hdisk Hst Herr ret.
  pose proof (inv_wf _ _ HI) as Hwf.
  destruct (Inv_active_seq _ _ _ _ _ HI Hs0 Hj Hact) as [Hnometa _].
  set (w1 := mkWorld (aci w) (<[j := job1]> (jobs w))).
  set (ir := if 1 <? AciPull.tar_pid (aci w) then AciPull.with_tar_pid 0 (aci w) else aci w).
  assert (Hreaped : reaped w1 = mkWorld ir (<[j := job1]> (jobs w))) by apply reaped_eq.
  assert (Hfailed : failed job1 = true).
  { unfold failed. rewrite Hc. cbn. apply Z.ltb_lt. exact Herr. }
  assert (Hsame : same_slots (aci w) ir) by (intros []; unfold ir; case_match; reflexivity).
  assert (Hle : AciPull.tar_pid ir <= 0).
  { unfold ir. destruct (1 <? AciPull.tar_pid (aci w)) eqn:Hgt; [cbn; lia|].
    apply Z.ltb_ge in Hgt.
    destruct (Z.lt_ge_cases 0 (AciPull.tar_pid (aci w))) as [Hpos|]; [|lia].
    destruct (inv_tar _ _ HI Hpos). lia. }
  assert (Hupd : forall tr',
    count (is_job_new META_DISCOVERY_JOB) tr' = 1%nat ->
    count (is_job_new DOWNLOAD_JOB) tr' = 0%nat ->
    Inv (reaped w1) (tr ++ tr')).
  { intros tr' Hc1 Hc2. rewrite Hreaped.
    apply (Inv_update w tr tr' SIMPLE_DISCOVERY_JOB j job job1 ir); try assumption.
    - left. exact Hle.
    - rewrite Hc1, Hfailed. reflexivity. }
  assert (Hnew : forall tr' jobM,
    Inv (reaped w1) (tr ++ tr') ->
    completed jobM = false ->
    is_Some (PullJob.on_finished jobM) ->
    PullJob.on_open_disk jobM = None ->
    Inv (with_new_job META_DISCOVERY_JOB jobM (reaped w1)) (tr ++ tr')).
  { intros tr' jobM HI' HcM HfM HdM. apply Inv_new; try assumption.
    - rewrite Hreaped. cbn [aci]. rewrite (Hsame META_DISCOVERY_JOB). exact Hnometa.
    - intros _. exact HfM.
    - split; [exact HdM|]. unfold slot_failed. rewrite Hreaped.
      rewrite (slot_job_upd _ _ _ _ _ _ Hwf Hs0 Hsame), decide_True by reflexivity.
      exact Hfailed. }
  assert (Htemp : AciPull.temp_path ir = AciPull.temp_path (aci w)
                  /\ AciPull.local ir = AciPull.local (aci w))
    by (unfold ir; case_match; split; reflexivity).
  unfold step_ok. rewrite aci_pull_job_on_finished_eq.
  rewrite (dispatch_simple_failed e j job1 w1);
    [|apply lookup_insert_eq|exact Hs0|exact Herr].
  fold w1. rewrite Hreaped. cbn [jobs]. rewrite <- Hreaped.
  destruct (pull_job_new_r e <? 0) eqn:Hnew_r;
    [|destruct (pull_job_begin_r e <? 0) eqn:Hbegin].
  - do 2 eexists. split; [reflexivity|]. split; [|split].
    + apply Hupd; rewrite count_snoc_notification, count_app,
        (proj1 (reap_calls_quiet _ _)); reflexivity.
    + rewrite Hreaped. apply stage_step_refl; [apply Htemp|].
      apply quiet_snoc_notification. rewrite forallb_app.
      rewrite (proj2 (reap_calls_quiet w1 SIMPLE_DISCOVERY_JOB)). reflexivity.
    + rewrite Hreaped. apply Htemp.
  - do 2 eexists. split; [reflexivity|]. split; [|split].
    + apply Hnew; [|unfold begun; rewrite Hbegin; reflexivity
                   |unfold begun; rewrite Hbegin; cbn; eauto
                   |unfold begun; rewrite Hbegin; reflexivity].
      apply Hupd; rewrite count_snoc_notification, count_app,
        (proj1 (reap_calls_quiet _ _)); reflexivity.
    + rewrite Hreaped. apply stage_step_refl; [apply Htemp|].
      apply quiet_snoc_notification. rewrite forallb_app.
      rewrite (proj2 (reap_calls_quiet w1 SIMPLE_DISCOVERY_JOB)). reflexivity.
    + rewrite Hreaped. apply Htemp.
  - do 2 eexists. split; [reflexivity|]. split; [|split].
    + apply Hnew; [|unfold begun; rewrite Hbegin; reflexivity
                   |unfold begun; rewrite Hbegin; cbn; eauto
                   |unfold begun; rewrite Hbegin; reflexivity].
      apply Hupd; rewrite count_app, (proj1 (reap_calls_quiet _ _)); reflexivity.
    + rewrite Hreaped. apply stage_step_refl; [apply Htemp|].
      rewrite forallb_app.
      rewrite (proj2 (reap_calls_quiet w1 SIMPLE_DISCOVERY_JOB)). reflexivity.
    + rewrite Hreaped. apply Htemp.
Qed.


(** A job that has delivered the final asset: the [copy:] block runs, no
    job is created and no subprocess is left attached. *)
Lemma finished_copy (e : Env) (s0 : Slot) (j : ptr) (job job1 : PullJob.t) (w : World)
    (tr : list Effect) :
  Inv w tr ->
  s0 <> META_DISCOVERY_JOB ->
  AciPull.slot s0 (aci w) = Some j ->
  jobs w !! j = Some job ->
  PullJob.active job = true ->
  completed job1 = true ->
  PullJob.on_finished job1 = PullJob.on_finished job ->
  PullJob.on_open_disk job1 = PullJob.on_open_disk job ->
  PullJob.state job1 <> PULL_JOB_INIT ->
  0 <= PullJob.error job1 ->
  forall ret,
  step_ok (EvFinished j ret) w tr
    (aci_pull_job_on_finished e j (mkWorld (aci w) (<[j := job1]> (jobs w)))).
Proof.
  intros HI Hnm Hs0 Hj Hact Hc Hfin Hdisk Hst Herr ret.
  pose proof (inv_wf _ _ HI) as Hwf.
  set (w1 := mkWorld (aci w) (<[j := job1]> (jobs w))).
  assert (Hj1 : jobs w1 !! j = Some job1) by apply lookup_insert_eq.
  assert (Hnf : failed job1 = false).
  { unfold failed. rewrite Hc. cbn. apply Z.ltb_ge. exact Herr. }
  unfold step_ok. rewrite aci_pull_job_on_finished_eq.
  rewrite (dispatch_copy e j job1 w1); [|exact Hj1| |exact Herr].
  2:{ destruct s0; [left; exact Hs0|congruence|right]. split; [|exact Hs0].
      unfold w1. cbn [aci]. intros Hm.
      pose proof (wf_slot_inj w Hwf META_DISCOVERY_JOB DOWNLOAD_JOB j Hm Hs0).
      discriminate. }
  destruct (on_finished_copy_spec e j job1 w1 Hj1)
    as (r & fp & copied & -> & Hcopied & _).
  unfold w1. cbn [aci jobs]. rewrite insert_insert_eq.
  do 2 eexists. split; [reflexivity|]. cbn [app].
  set (tr2 := _ :: _ :: _).
  assert (Hquiet : forall s, count (is_job_new s) tr2 = 0%nat).
  { intros s. unfold tr2. rewrite !app_comm_cons.
    rewrite count_snoc_notification.
    destruct (0 <? AciPull.tar_pid (aci w)), copied; reflexivity. }
  split; [|split].
  - eapply (Inv_update w tr tr2 s0 j job _ _ HI Hs0 Hj Hact).
    + intros []; reflexivity.
    + exact Hfin.
    + exact Hdisk.
    + exact Hst.
    + left. cbn. case_match; [lia|]. apply Z.ltb_ge. assumption.
    + rewrite Hquiet. case_decide; [|reflexivity].
      change (failed (PullJob.with_disk_fd (-1) job1)) with (failed job1).
      rewrite Hnf. reflexivity.
    + rewrite Hquiet. rewrite decide_False by exact Hnm. reflexivity.
  - split; cbn [aci]; [auto|]. intros Hlocal. cbn in Hlocal.
    assert (copied = false) as ->.
    { destruct copied; [|reflexivity]. destruct (Hcopied eq_refl) as [? Hx].
      cbn in Hx. congruence. }
    apply List.Forall_forall. intros x Hx c Hcr. exfalso.
    assert (Hq : forallb (fun x => negb (is_creation x)) tr2 = true).
    { unfold tr2. rewrite !app_comm_cons.
      apply quiet_snoc_notification.
      destruct (0 <? AciPull.tar_pid (aci w)); reflexivity. }
    rewrite forallb_forall in Hq. apply Hq in Hx. unfold is_creation in Hx.
    rewrite Hcr in Hx. discriminate Hx.
  - reflexivity.
Qed.

(** A failed meta discovery or download: the result is delivered and
    nothing else happens. *)
Lemma finished_failed (e : Env) (s0 : Slot) (j : ptr) (job job1 : PullJob.t) (w : World)
    (tr : list Effect) :
  Inv w tr ->
  s0 <> SIMPLE_DISCOVERY_JOB ->
  AciPull.slot s0 (aci w) = Some j ->
  jobs w !! j = Some job ->
  PullJob.active job = true ->
  completed job1 = true ->
  PullJob.on_finished job1 = PullJob.on_finished job ->
  PullJob.on_open_disk job1 = PullJob.on_open_disk job ->
  PullJob.state job1 <> PULL_JOB_INIT ->
  PullJob.error job1 < 0 ->
  forall ret,
  step_ok (EvFinished j ret) w tr
    (aci_pull_job_on_finished e j (mkWorld (aci w) (<[j := job1]> (jobs w)))).
Proof.
  intros HI Hns Hs0 Hj Hact Hc Hfin Hdisk Hst Herr ret.
  pose proof (inv_wf _ _ HI) as Hwf.
  set (w1 := mkWorld (aci w) (<[j := job1]> (jobs w))).
  assert (Hj1 : jobs w1 !! j = Some job1) by apply lookup_insert_eq.
  assert (Hnsucc : succeeded job1 = false).
  { unfold succeeded. rewrite Hc. cbn. apply Z.leb_gt. exact Herr. }
  unfold step_ok. rewrite aci_pull_job_on_finished_eq.
  rewrite (dispatch_failed e j job1 w1); [|exact Hj1| | |exact Herr].
  2:{ unfold w1. cbn [aci]. intros Hsimple. apply Hns.
      exact (wf_slot_inj w Hwf _ SIMPLE_DISCOVERY_JOB j Hs0 Hsimple). }
  2:{ unfold w1. cbn [aci]. destruct s0; [congruence|left|right]; exact Hs0. }
  do 2 eexists. split; [reflexivity|]. cbn [app]. split; [|split].
  - apply (Inv_update w tr _ s0 j job job1 (aci w)); try assumption.
    + apply same_slots_refl.
    + right. right. split; [reflexivity|]. right.
      destruct s0; [congruence|left; reflexivity|right; split; [reflexivity|exact Hc]].
    + cbn [count]. rewrite (proj1 (notification_quiet _ _ _)).
      rewrite decide_False by exact Hns. reflexivity.
    + cbn [count]. rewrite (proj1 (notification_quiet _ _ _)).
      case_decide; [|reflexivity]. rewrite Hnsucc. reflexivity.
  - apply stage_step_refl; [reflexivity|]. apply (quiet_snoc_notification []). reflexivity.
  - reflexivity.
Qed.

(** A successful meta discovery: one attempt to create the download job
    is logged, and the job is in its slot if the attempt succeeded. *)
Lemma finished_meta_succeeded (e : Env) (j : ptr) (job job1 : PullJob.t) (w : World)
    (tr : list Effect) :
  Inv w tr ->
  AciPull.slot META_DISCOVERY_JOB (aci w) = Some j ->
  jobs w !! j = Some job ->
  PullJob.active job = true ->
  completed job1 = true ->
  PullJob.on_finished job1 = PullJob.on_finished job ->
  PullJob.on_open_disk job1 = PullJob.on_open_disk job ->
  PullJob.state job1 <> PULL_JOB_INIT ->
  0 <= PullJob.error job1 ->
  forall ret,
  step_ok (EvFinished j ret) w tr
    (aci_pull_job_on_finished e j (mkWorld (aci w) (<[j := job1]> (jobs w)))).
Proof.
  intros HI Hs0 Hj Hact Hc Hfin Hdisk Hst Herr ret.
  pose proof (inv_wf _ _ HI) as Hwf.
  destruct (Inv_active_seq _ _ _ _ _ HI Hs0 Hj Hact) as [Hnodl _].
  set (w1 := mkWorld (aci w) (<[j := job1]> (jobs w))).
  assert (Hj1 : jobs w1 !! j = Some job1) by apply lookup_insert_eq.
  assert (Hsucc : succeeded job1 = true).
  { unfold succeeded. rewrite Hc. cbn. apply Z.leb_le. exact Herr. }
  assert (Hupd : forall tr',
    count (is_job_new META_DISCOVERY_JOB) tr' = 0%nat ->
    count (is_job_new DOWNLOAD_JOB) tr' = 1%nat ->
    Inv w1 (tr ++ tr')).
  { intros tr' Hc1 Hc2.
    apply (Inv_update w tr tr' META_DISCOVERY_JOB j job job1 (aci w)); try assumption.
    - apply same_slots_refl.
    - right. right. split; [reflexivity|]. right. left. reflexivity.
    - rewrite Hc2, Hsucc. reflexivity. }
  assert (Hnew : forall tr' jobD,
    Inv w1 (tr ++ tr') ->
    completed jobD = false ->
    is_Some (PullJob.on_finished jobD) ->
    Inv (with_new_job DOWNLOAD_JOB jobD w1) (tr ++ tr')).
  { intros tr' jobD HI' HcD HfD. apply Inv_new; try assumption.
    - intros _. exact HfD.
    - unfold slot_succeeded, w1.
      rewrite (slot_job_upd _ _ _ _ _ _ Hwf Hs0 (same_slots_refl _)),
        decide_True by reflexivity.
      exact Hsucc. }
  unfold step_ok. rewrite aci_pull_job_on_finished_eq.
  rewrite (dispatch_meta_succeeded e j job1 w1); [|exact Hj1| |exact Hs0|exact Herr].
  2:{ unfold w1. cbn [aci]. intros Hsimple.
      pose proof (wf_slot_inj w Hwf META_DISCOVERY_JOB SIMPLE_DISCOVERY_JOB j Hs0 Hsimple).
      discriminate. }
  destruct (pull_job_new_r e <? 0) eqn:Hnew_r;
    [|destruct (pull_job_begin_r e <? 0) eqn:Hbegin].
  - do 2 eexists. split; [reflexivity|]. split; [|split].
    + apply Hupd; rewrite count_snoc_notification; reflexivity.
    + apply stage_step_refl; [reflexivity|].
      apply quiet_snoc_notification. reflexivity.
    + reflexivity.
  - do 2 eexists. split; [reflexivity|]. split; [|split].
    + apply Hnew; [|unfold begun; rewrite Hbegin; reflexivity
                   |unfold begun; rewrite Hbegin; cbn; eauto].
      apply Hupd; rewrite count_snoc_notification; reflexivity.
    + apply stage_step_refl; [reflexivity|].
      apply quiet_snoc_notification. reflexivity.
    + reflexivity.
  - do 2 eexists. split; [reflexivity|]. split; [|split].
    + apply Hnew; [|unfold begun; rewrite Hbegin; reflexivity
                   |unfold begun; rewrite Hbegin; cbn; eauto].
      apply Hupd; reflexivity.
    + apply stage_step_refl; reflexivity.
    + reflexivity.
Qed.

Section Delivery.

Context `{Collaborators}.

Lemma deliver_finished_ok (e : Env) (j : ptr) (ret : Z) (w : World) (tr : list Effect)
    (res : Res unit) :
  Inv w tr ->
  deliver e (EvFinished j ret) w = Some res ->
  step_ok (EvFinished j ret) w tr res.
Proof.
  intros HI. cbn [deliver].
  destruct (jobs w !! j) as [job|] eqn:Hj; [|discriminate].
  destruct (PullJob.active job) eqn:Hact; [|discriminate]. intros [= <-].
  pose proof (inv_wf _ _ HI) as Hwf.
  destruct (wf_job_slot w Hwf j (mk_is_Some _ _ Hj)) as [s0 Hs0].
  pose proof (slot_job_Some _ _ _ _ Hs0 Hj) as Hjob.
  destruct (inv_hook _ _ HI _ _ Hjob (active_not_init _ Hact)) as [hook Hhook].
  destruct (finished_job_facts ret job) as (Hc & Hfin & Hdisk & Hst).
  assert (Hhandler :
    step_ok (EvFinished j ret) w tr
      (aci_pull_job_on_finished e j (mkWorld (aci w) (<[j := finished_job ret job]> (jobs w))))).
  { destruct (Z.lt_ge_cases (PullJob.error (finished_job ret job)) 0) as [Herr|Herr].
    - destruct (decide (s0 = SIMPLE_DISCOVERY_JOB)) as [->|Hns].
      + apply (finished_simple_failed e j job); assumption.
      + apply (finished_failed e s0 j job); assumption.
    - destruct (decide (s0 = META_DISCOVERY_JOB)) as [->|Hnm].
      + apply (finished_meta_succeeded e j job); assumption.
      + apply (finished_copy e s0 j job); assumption. }
  destruct Hhandler as (w' & tr' & Hrun & HI' & Hstage & Hlocal).
  exists w', tr'. split; [|auto].
  unfold run_hook. rewrite Hhook. unfold finished_job in Hrun.
  case_decide; mred; rewrite Hrun; rewrite app_nil_r; reflexivity.
Qed.

Lemma deliver_start_ok (e : Env) (name tag : string) (local : option string)
    (force_local : bool) (w : World) (tr : list Effect) (res : Res unit) :
  Inv w tr ->
  deliver e (EvStart name tag local force_local) w = Some res ->
  step_ok (EvStart name tag local force_local) w tr res.
Proof.
  intros HI. cbn [deliver]. intros [= <-].
  unfold step_ok, local_step. destruct w as [i js]. cbn [aci jobs] in *.
  assert (Hframe : forall i' tr',
    same_slots i i' ->
    AciPull.tar_pid i' = AciPull.tar_pid i ->
    AciPull.temp_path i' = AciPull.temp_path i ->
    AciPull.local i' = AciPull.local i \/ AciPull.local i' = local ->
    tr' = [] \/ tr' = [pull_job_new SIMPLE_DISCOVERY_JOB (simple_discovery_url name tag) None] ->
    exists w' tr'0,
      Ok tt (mkWorld i' js) tr' = Ok tt w' tr'0 /\
      Inv w' (tr ++ tr'0) /\ stage_step (mkWorld i js) w' tr'0 /\
      (AciPull.local (aci w') = AciPull.local i \/ AciPull.local (aci w') = local)).
  { intros i' tr' Hs Hpid Htemp Hlocal Htr'. exists (mkWorld i' js), tr'.
    split; [reflexivity|]. split; [|split; [|exact Hlocal]].
    - apply (Inv_frame (mkWorld i js)); try assumption;
        destruct Htr' as [->| ->]; reflexivity.
    - apply stage_step_refl; [exact Htemp|]. destruct Htr' as [->| ->]; reflexivity. }
  assert (Hnew : forall i' job,
    AciPull.simple_discovery_job i = None ->
    same_slots i i' ->
    AciPull.tar_pid i' = AciPull.tar_pid i ->
    AciPull.temp_path i' = AciPull.temp_path i ->
    AciPull.local i' = AciPull.local i \/ AciPull.local i' = local ->
    completed job = false ->
    is_Some (PullJob.on_finished job) ->
    exists w' tr'0,
      Ok tt (mkWorld (AciPull.with_simple_discovery_job (Some (fresh (dom js))) i')
               (<[fresh (dom js) := job]> js))
        [pull_job_new SIMPLE_DISCOVERY_JOB (simple_discovery_url name tag)
           (Some (fresh (dom js)));
         pull_job_begin (fresh (dom js)) (pull_job_begin_r e)]
      = Ok tt w' tr'0 /\
      Inv w' (tr ++ tr'0) /\ stage_step (mkWorld i js) w' tr'0 /\
      (AciPull.local (aci w') = AciPull.local i \/ AciPull.local (aci w') = local)).
  { intros i' job Hidle Hs Hpid Htemp Hlocal Hc Hfin. do 2 eexists.
    split; [reflexivity|]. split; [|split; [|exact Hlocal]].
    - apply (Inv_new (mkWorld i' js) _ SIMPLE_DISCOVERY_JOB job);
        [|cbn [aci]; rewrite (Hs SIMPLE_DISCOVERY_JOB); exact Hidle
         |exact Hc|intros _; exact Hfin|exact I].
      apply (Inv_frame (mkWorld i js)); try assumption; reflexivity.
    - apply stage_step_refl; [exact Htemp|reflexivity]. }
  unfold aci_pull_start, free_and_strdup, do_pull_job_new, do_pull_job_begin.
  destruct (aci_name_is_valid name) eqn:Hname;
    [|mred; apply Hframe; auto using same_slots_refl].
  assert (Hsimple : bool_decide (is_Some (AciPull.simple_discovery_job i)) = false ->
    AciPull.simple_discovery_job i = None).
  { intros Hb. apply bool_decide_eq_false_1 in Hb.
    destruct (AciPull.simple_discovery_job i); [exfalso; eauto|reflexivity]. }
  destruct (bool_decide (is_Some (AciPull.simple_discovery_job i))) eqn:Hb;
    [clear Hsimple|specialize (Hsimple eq_refl)];
    (destruct local as [l|]; [destruct (machine_name_is_valid l) eqn:Hl|]);
    destruct (alloc_ok e 0) eqn:Halloc; destruct (alloc_ok e 1) eqn:Halloc1;
    destruct (pull_job_new_r e <? 0) eqn:Hnew_r;
    destruct (pull_job_begin_r e <? 0) eqn:Hbegin;
    mred;
    first
      [ apply Hframe;
        [intros []; cbn; congruence|reflexivity|reflexivity
        |first [left; reflexivity|right; reflexivity]
        |first [left; reflexivity|right; reflexivity]]
      | apply Hnew;
        [assumption|intros []; cbn; congruence|reflexivity|reflexivity
        |first [left; reflexivity|right; reflexivity]
        |reflexivity|cbn; eauto] ].
Qed.

End Delivery.
(** ** Sessions *)

Lemma stages_at_mono (tp tp' : option string) (x : Effect) :
  (forall p, tp = Some p -> tp' = Some p) -> stages_at tp x -> stages_at tp' x.
Proof.
  intros Hmono Hx c Hc. destruct (Hx c Hc) as [-> [p Hp]].
  rewrite (Hmono p Hp), Hp. split; [reflexivity|eauto].
Qed.

(** A freshly constructed session satisfies the invariant. *)
Lemma Inv_idle (i : AciPull.t) :
  (forall s, AciPull.slot s i = None) ->
  AciPull.tar_pid i = 0 ->
  Inv (mkWorld i ∅) [].
Proof.
  intros Hs Hpid.
  assert (Hnone : forall s, slot_job s (mkWorld i ∅) = None).
  { intros s. unfold slot_job. cbn [aci]. rewrite (Hs s). reflexivity. }
  split; unfold slot_failed, slot_succeeded, slot_state; cbn [aci jobs];
    try (intros *); rewrite ?Hnone; try reflexivity.
  - split; cbn [aci jobs].
    + intros s p. rewrite (Hs s). discriminate.
    + intros p [? Hp]. rewrite lookup_empty in Hp. discriminate Hp.
    + intros s s' p. rewrite (Hs s). discriminate.
  - intros [? Hx]. discriminate Hx.
  - intros [? Hx]. discriminate Hx.
  - discriminate.
  - discriminate.
  - rewrite Hpid. lia.
Qed.

Section Sessions.

Context `{Collaborators}.

Lemma Inv_new_session (e : Env) (event : option ptr) (image_root : option string)
    (callback : option ptr) (userdata : Z) (w : World) (tr : list Effect) :
  aci_pull_new e event image_root callback userdata = (0, Some w, tr) ->
  Inv w [] /\ AciPull.local (aci w) = None /\ AciPull.temp_path (aci w) = None /\
  AciPull.on_finished (aci w) = callback.
Proof.
  unfold aci_pull_new. intros Hnew.
  repeat case_match; simplify_eq; (split; [apply Inv_idle; [intros []|]; reflexivity|]);
    repeat split; reflexivity.
Qed.

Lemma deliver_ok (e : Env) (ev : Event) (w : World) (tr : list Effect) (res : Res unit) :
  Inv w tr -> fork_ok e ->
  deliver e ev w = Some res ->
  step_ok ev w tr res.
Proof.
  intros HI Hfork Hrun. destruct ev.
  - exact (deliver_start_ok _ _ _ _ _ _ _ _ HI Hrun).
  - exact (deliver_open_disk_ok _ _ _ _ _ HI Hfork Hrun).
  - exact (deliver_progress_ok _ _ _ _ _ _ HI Hrun).
  - exact (deliver_finished_ok _ _ _ _ _ _ HI Hrun).
Qed.

(** Every session runs to the end of its script without abort; the
    invariant holds at the end, and if no local name was ever requested
    everything the session created is at its staging path. *)
Lemma run_ok (script : list (Env * Event)) :
  forall (w : World) (tr : list Effect) (res : Res unit),
  Inv w tr ->
  script_fork_ok script ->
  run script w = Some res ->
  exists w' tr',
    res = Ok tt w' tr' /\
    Inv w' (tr ++ tr') /\
    (starts_without_local script ->
     AciPull.local (aci w) = None ->
     Forall (stages_at (AciPull.temp_path (aci w))) tr ->
     AciPull.local (aci w') = None /\
     Forall (stages_at (AciPull.temp_path (aci w'))) (tr ++ tr')).
Proof.
  induction script as [|[e ev] script IH]; intros w tr res HI Hfork Hrun.
  - cbn in Hrun. injection Hrun as <-. exists w, []. rewrite app_nil_r. auto.
  - cbn [run] in Hrun.
    apply Forall_cons in Hfork as [Hfe Hfork]. cbn [fst] in Hfe.
    destruct (deliver e ev w) as [res1|] eqn:Hdel; [|discriminate].
    destruct (deliver_ok e ev w tr res1 HI Hfe Hdel)
      as (w1 & tr1 & -> & HI1 & [Htemp Hstage] & Hlocal).
    destruct (run script w1) as [res2|] eqn:Hrest; [|discriminate].
    destruct (IH w1 (tr ++ tr1) res2 HI1 Hfork Hrest) as (w2 & tr2 & -> & HI2 & Hst2).
    injection Hrun as <-. exists w2, (tr1 ++ tr2). split; [reflexivity|].
    rewrite app_assoc. split; [exact HI2|].
    intros Hnolocal Hl Hsofar. apply Forall_cons in Hnolocal as [Hev Hnolocal].
    apply Hst2; [exact Hnolocal| |].
    + destruct ev; cbn in Hev, Hlocal; [destruct Hlocal|..]; congruence.
    + assert (Hl1 : AciPull.local (aci w1) = None)
        by (destruct ev; cbn in Hev, Hlocal; [destruct Hlocal|..]; congruence).
      apply Forall_app. split; [|exact (Hstage Hl1)].
      eapply Forall_impl; [exact Hsofar|]. intros x. apply stages_at_mono. exact Htemp.
Qed.

End Sessions.
(** ** The state machine *)

Section StateMachine.

Context `{Collaborators}.

(** C9.  A session built by [aci_pull_new] and driven by any script of
    events never aborts: in particular the assertion [tar_pid <= 0] of the
    disk-open hook holds every time the hook runs.  In every state the
    session reaches, while a job is still waiting to open its disk sink no
    subprocess is attached, and the hook called for that job returns. *)
Theorem open_disk_assertion_holds (e0 : Env) (event : option ptr)
    (image_root : option string) (callback : option ptr) (userdata : Z)
    (w0 : World) (tr0 : list Effect) (script : list (Env * Event)) (res : Res unit) :
  aci_pull_new e0 event image_root callback userdata = (0, Some w0, tr0) ->
  script_fork_ok script ->
  run script w0 = Some res ->
  exists w tr,
    res = Ok tt w tr /\
    forall j job,
      jobs w !! j = Some job ->
      PullJob.state job = PULL_JOB_ANALYZING ->
      AciPull.tar_pid (aci w) <= 0 /\
      forall e, exists r w' tr', aci_pull_job_on_open_disk e j w = Ok r w' tr'.
Proof.
  intros Hnew Hfork Hrun.
  destruct (Inv_new_session _ _ _ _ _ _ _ Hnew) as (HI & _).
  destruct (run_ok script w0 [] res HI Hfork Hrun) as (w & tr & -> & HI' & _).
  exists w, tr. split; [reflexivity|]. intros j job Hj Hst.
  pose proof (Inv_analyzing_no_subprocess _ _ _ _ HI' Hj Hst) as Hpid.
  split; [exact Hpid|]. intros e.
  destruct (open_disk_spec e j job w Hj Hpid) as (r & fp & tp & pid & opened & tr' & -> & _).
  eauto.
Qed.

(** C1.  When the simple-discovery job has failed, the completion handler
    starts meta discovery exactly once: it asks once for a job in the
    meta-discovery slot and for no other job, so at most one
    meta-discovery job is created, and it is created and begun when the
    transport grants it; otherwise the pull ends with that error.  Over a
    whole session there is at most one such attempt, and there is one
    exactly when simple discovery has failed.  When the meta-discovery job
    itself fails, the handler delivers the error code of the job and does
    nothing else: the store is unchanged and no job is asked for. *)
Theorem simple_failure_starts_meta_discovery_once :
  (forall (e : Env) (j : ptr) (job : PullJob.t) (w : World),
     jobs w !! j = Some job ->
     AciPull.simple_discovery_job (aci w) = Some j ->
     PullJob.error job < 0 ->
     exists w' tr,
       aci_pull_job_on_finished e j w = Ok tt w' tr /\
       count (is_job_new META_DISCOVERY_JOB) tr = 1%nat /\
       count (is_job_new SIMPLE_DISCOVERY_JOB) tr = 0%nat /\
       count (is_job_new DOWNLOAD_JOB) tr = 0%nat /\
       (count (is_job_created META_DISCOVERY_JOB) tr <= 1)%nat /\
       (0 <= pull_job_new_r e -> 0 <= pull_job_begin_r e ->
        count (is_job_created META_DISCOVERY_JOB) tr = 1%nat /\
        no_notification tr /\
        (wf w -> slot_state META_DISCOVERY_JOB w' = Some PULL_JOB_ANALYZING)) /\
       (pull_job_new_r e < 0 \/ pull_job_begin_r e < 0 ->
        exists r, r < 0 /\ last tr = Some (notification (aci w) r))) /\
  (forall (e0 : Env) (event : option ptr) (image_root : option string)
          (callback : option ptr) (userdata : Z) (w0 : World) (tr0 : list Effect)
          (script : list (Env * Event)) (res : Res unit),
     aci_pull_new e0 event image_root callback userdata = (0, Some w0, tr0) ->
     script_fork_ok script ->
     run script w0 = Some res ->
     exists w tr,
       res = Ok tt w tr /\
       (count (is_job_new META_DISCOVERY_JOB) tr <= 1)%nat /\
       (count (is_job_new META_DISCOVERY_JOB) tr = 1%nat <->
        slot_failed SIMPLE_DISCOVERY_JOB w = true)) /\
  (forall (e : Env) (j : ptr) (job : PullJob.t) (w : World),
     jobs w !! j = Some job ->
     AciPull.simple_discovery_job (aci w) <> Some j ->
     AciPull.meta_discovery_job (aci w) = Some j ->
     PullJob.error job < 0 ->
     aci_pull_job_on_finished e j w = Ok tt w [notification (aci w) (PullJob.error job)]).
Proof.
  split; [|split].
  - intros e j job w Hj Hs Herr. rewrite aci_pull_job_on_finished_eq.
    rewrite (dispatch_simple_failed e j job w Hj Hs Herr).
    assert (Hq : forall s, count (is_job_new s) (reap_calls w) = 0%nat
                           /\ count (is_job_created s) (reap_calls w) = 0%nat)
      by (intros s; unfold reap_calls; case_match; split; reflexivity).
    assert (Hn : forall s tr i r,
      count (is_job_created s) (tr ++ [notification i r]) = count (is_job_created s) tr).
    { intros s tr i r. rewrite count_app. unfold notification.
      destruct (AciPull.on_finished i); cbn; lia. }
    destruct (pull_job_new_r e <? 0) eqn:Hnew;
      [|destruct (pull_job_begin_r e <? 0) eqn:Hbegin];
      do 2 eexists; (split; [reflexivity|]);
      rewrite ?count_snoc_notification, ?Hn, ?count_app, ?(proj1 (Hq _)), ?(proj2 (Hq _));
      rewrite ?notification_with_new_job, ?notification_reaped;
      (split; [reflexivity|]); (split; [reflexivity|]); (split; [reflexivity|]);
      (split; [cbn [count is_job_created]; repeat case_bool_decide; cbn; lia|]).
    + apply Z.ltb_lt in Hnew. split; [intros; lia|]. intros _.
      eexists. split; [|apply last_snoc]. unfold log_error_errno. lia.
    + apply Z.ltb_lt in Hbegin. split; [intros; lia|]. intros _.
      eexists. split; [|apply last_snoc]. unfold log_error_errno. lia.
    + apply Z.ltb_ge in Hnew, Hbegin. split; [|intros; lia]. intros _ _.
      split; [reflexivity|]. split; [apply no_notification_reap_calls; reflexivity|].
      intros Hwf. unfold slot_state.
      assert (Hwf' : wf (reaped w)).
      { unfold reaped. case_match; [|exact Hwf].
        apply wf_frame; [exact Hwf|intros []; reflexivity]. }
      rewrite (slot_job_new _ _ _ _ Hwf'), decide_True by reflexivity.
      unfold begun. rewrite (proj2 (Z.ltb_ge _ _) Hbegin). reflexivity.
  - intros e0 event image_root callback userdata w0 tr0 script res Hnew Hfork Hrun.
    destruct (Inv_new_session _ _ _ _ _ _ _ Hnew) as (HI & _).
    destruct (run_ok script w0 [] res HI Hfork Hrun) as (w & tr & -> & HI' & _).
    exists w, tr. split; [reflexivity|].
    pose proof (inv_count_meta _ _ HI') as Hc. cbn [app] in Hc. rewrite Hc.
    destruct (slot_failed SIMPLE_DISCOVERY_JOB w); cbn; split; try lia;
      split; intros; congruence.
  - intros e j job w Hj Hns Hm Herr. rewrite aci_pull_job_on_finished_eq.
    rewrite (dispatch_failed e j job w Hj Hns (or_introl Hm) Herr). reflexivity.
Qed.

(** C2.  When the simple-discovery job has completed with a non-negative
    error code, the completion handler goes straight to the [copy:] block:
    it publishes 95%, finalizes what the job has written and delivers the
    result, asks for no job and leaves the job slots as they are.  Over a
    whole session in which simple discovery has succeeded no attempt to
    create a meta-discovery or a download job is ever logged, and both
    slots are empty. *)
Theorem simple_success_skips_other_jobs :
  (forall (e : Env) (j : ptr) (job : PullJob.t) (w : World),
     jobs w !! j = Some job ->
     AciPull.simple_discovery_job (aci w) = Some j ->
     0 <= PullJob.error job ->
     on_finished_dispatch e j w = Ok goto_copy w [] /\
     exists r w' tr,
       aci_pull_job_on_finished e j w
       = Ok tt w' (sd_notifyf false (progress_message 95) :: tr
                   ++ [notification (aci w) r]) /\
       forallb (fun x => negb (is_job_call x)) tr = true /\
       same_slots (aci w) (aci w')) /\
  (forall (e0 : Env) (event : option ptr) (image_root : option string)
          (callback : option ptr) (userdata : Z) (w0 : World) (tr0 : list Effect)
          (script : list (Env * Event)) (res : Res unit),
     aci_pull_new e0 event image_root callback userdata = (0, Some w0, tr0) ->
     script_fork_ok script ->
     run script w0 = Some res ->
     exists w tr,
       res = Ok tt w tr /\
       (slot_succeeded SIMPLE_DISCOVERY_JOB w = true ->
        AciPull.meta_discovery_job (aci w) = None /\
        AciPull.download_job (aci w) = None /\
        count (is_job_new META_DISCOVERY_JOB) tr = 0%nat /\
        count (is_job_new DOWNLOAD_JOB) tr = 0%nat)).
Proof.
  split.
  - intros e j job w Hj Hs Herr.
    pose proof (dispatch_copy e j job w Hj (or_introl Hs) Herr) as Hd.
    split; [exact Hd|]. rewrite aci_pull_job_on_finished_eq, Hd.
    destruct (on_finished_copy_spec e j job w Hj) as (r & fp & copied & -> & _ & _).
    do 3 eexists. split; [reflexivity|]. split.
    + destruct (0 <? AciPull.tar_pid (aci w)), copied; reflexivity.
    + intros []; reflexivity.
  - intros e0 event image_root callback userdata w0 tr0 script res Hnew Hfork Hrun.
    destruct (Inv_new_session _ _ _ _ _ _ _ Hnew) as (HI & _).
    destruct (run_ok script w0 [] res HI Hfork Hrun) as (w & tr & -> & HI' & _).
    exists w, tr. split; [reflexivity|]. intros Hsucc.
    destruct HI' as [Hwf Hmeta Hdl _ _ _ Hcm Hcd]. cbn [app] in Hcm, Hcd.
    assert (Hnf : slot_failed SIMPLE_DISCOVERY_JOB w = false).
    { unfold slot_failed, slot_succeeded in *.
      destruct (slot_job SIMPLE_DISCOVERY_JOB w) as [js|]; [|reflexivity].
      unfold failed, succeeded in *. apply andb_prop in Hsucc as [-> Hle].
      apply Z.leb_le in Hle. cbn. apply Z.ltb_ge. exact Hle. }
    assert (Hm : slot_job META_DISCOVERY_JOB w = None).
    { destruct (slot_job META_DISCOVERY_JOB w) eqn:Hm; [|reflexivity].
      rewrite (Hmeta (mk_is_Some _ _ eq_refl)) in Hnf. discriminate Hnf. }
    assert (Hd : slot_job DOWNLOAD_JOB w = None).
    { destruct (slot_job DOWNLOAD_JOB w) eqn:Hd; [|reflexivity].
      specialize (Hdl (mk_is_Some _ _ eq_refl)).
      unfold slot_succeeded in Hdl. rewrite Hm in Hdl. discriminate Hdl. }
    assert (Hnone : forall s, slot_job s w = None -> AciPull.slot s (aci w) = None).
    { intros s Hn. destruct (AciPull.slot s (aci w)) eqn:Hs; [|reflexivity].
      assert (Hx : is_Some (slot_job s w))
        by (apply (slot_job_is_Some _ _ Hwf); rewrite Hs; eauto).
      rewrite Hn in Hx. destruct Hx as [? Hx]. discriminate Hx. }
    split; [exact (Hnone META_DISCOVERY_JOB Hm)|].
    split; [exact (Hnone DOWNLOAD_JOB Hd)|].
    rewrite Hcm, Hcd, Hnf. unfold slot_succeeded. rewrite Hm. split; reflexivity.
Qed.

(** C8.  With no requested local name the finalization step returns 0 and
    does nothing: the store is unchanged and nothing is called.  Over a
    whole session in which no pull requests a local name, no local copy is
    ever made, everything that is created is created at the staging path
    of the session, and teardown removes that path. *)
Theorem no_local_name_nothing_persists :
  (forall (e : Env) (w : World),
     AciPull.local (aci w) = None -> aci_pull_make_local_copy e w = Ok 0 w []) /\
  (forall (e0 : Env) (event : option ptr) (image_root : option string)
          (callback : option ptr) (userdata : Z) (w0 : World) (tr0 : list Effect)
          (script : list (Env * Event)) (res : Res unit),
     aci_pull_new e0 event image_root callback userdata = (0, Some w0, tr0) ->
     script_fork_ok script ->
     starts_without_local script ->
     run script w0 = Some res ->
     exists w tr,
       res = Ok tt w tr /\
       AciPull.local (aci w) = None /\
       Forall (stages_at (AciPull.temp_path (aci w))) tr /\
       (forall temp root local force, pull_make_local_copy temp root local force ∉ tr) /\
       (forall p, AciPull.temp_path (aci w) = Some p ->
          btrfs_subvol_remove p ∈ snd (aci_pull_unref (Some w)) /\
          rm_rf_dangerous p false true false ∈ snd (aci_pull_unref (Some w)))).
Proof.
  split.
  - intros e w Hlocal. rewrite aci_pull_make_local_copy_eq. cbv zeta.
    rewrite Hlocal. reflexivity.
  - intros e0 event image_root callback userdata w0 tr0 script res Hnew Hfork Hnl Hrun.
    destruct (Inv_new_session _ _ _ _ _ _ _ Hnew) as (HI & Hlocal & Htemp & _).
    destruct (run_ok script w0 [] res HI Hfork Hrun) as (w & tr & -> & _ & Hst).
    destruct (Hst Hnl Hlocal (List.Forall_nil _)) as [Hl Hstage]. cbn [app] in Hstage.
    exists w, tr. split; [reflexivity|]. split; [exact Hl|]. split; [exact Hstage|].
    split.
    + intros temp root local force Hx. rewrite List.Forall_forall in Hstage.
      destruct (Hstage _ (proj1 (list_elem_of_In _ _) Hx) None eq_refl) as [<- [p Hp]].
      discriminate Hp.
    + intros p Hp. cbn [aci_pull_unref snd]. rewrite Hp, !elem_of_app.
      split; right; right;
        [apply list_elem_of_here|apply list_elem_of_further, list_elem_of_here].
Qed.

(** C6.  Teardown of the null session does nothing, and teardown of any
    session returns the null session, so that tearing down again does
    nothing.  On every session, whatever its state, a subprocess that is
    attached ([tar_pid > 1]) is killed and reaped first, the staging
    snapshot, if one was named, is removed, and every kill or reap comes
    before every removal in the call log.  In the states a session
    reaches, an attached subprocess always has an identifier above 1, so
    that teardown never leaves one behind; and a session that was
    constructed but never started has neither subprocess nor snapshot. *)
Theorem aci_pull_unref_idempotent_ordered :
  aci_pull_unref None = (None, []) /\
  (forall s : option World,
     fst (aci_pull_unref s) = None /\
     aci_pull_unref (fst (aci_pull_unref s)) = (None, [])) /\
  (forall w : World,
     let tr := snd (aci_pull_unref (Some w)) in
     (1 < AciPull.tar_pid (aci w) ->
      exists rest, tr = kill_and_sigcont (AciPull.tar_pid (aci w)) SIGKILL
                          :: wait_for_terminate (AciPull.tar_pid (aci w)) :: rest) /\
     (forall p, AciPull.temp_path (aci w) = Some p ->
      btrfs_subvol_remove p ∈ tr /\ rm_rf_dangerous p false true false ∈ tr) /\
     (forall n m x y, tr !! n = Some x -> tr !! m = Some y ->
      is_snapshot_removal x = true -> is_reap y = true -> (m < n)%nat)) /\
  (forall (e0 : Env) (event : option ptr) (image_root : option string)
          (callback : option ptr) (userdata : Z) (w0 : World) (tr0 : list Effect),
     aci_pull_new e0 event image_root callback userdata = (0, Some w0, tr0) ->
     aci_pull_unref (Some w0)
     = (None, [pull_job_unref None; pull_job_unref None; pull_job_unref None;
               curl_glue_unref (AciPull.glue (aci w0));
               sd_event_unref (AciPull.event (aci w0))]) /\
     forall (script : list (Env * Event)) (res : Res unit),
       script_fork_ok script ->
       run script w0 = Some res ->
       exists w tr,
         res = Ok tt w tr /\
         (0 < AciPull.tar_pid (aci w) -> 1 < AciPull.tar_pid (aci w))).
Proof.
  split; [reflexivity|]. split; [intros []; split; reflexivity|]. split.
  - intros w tr. subst tr. cbn [aci_pull_unref snd]. split; [|split].
    + intros Hlive. apply Z.ltb_lt in Hlive. rewrite Hlive. eexists. reflexivity.
    + intros p ->. rewrite !elem_of_app.
      split; right; right;
        [apply list_elem_of_here|apply list_elem_of_further, list_elem_of_here].
    + intros n m x y Hx Hy. rewrite app_assoc in Hx, Hy.
      eapply ordered_app; eauto.
      * rewrite forallb_app. apply andb_true_intro. split; [|reflexivity].
        destruct (1 <? AciPull.tar_pid (aci w)); reflexivity.
      * destruct (AciPull.temp_path (aci w)); reflexivity.
  - intros e0 event image_root callback userdata w0 tr0 Hnew.
    split; [exact (aci_pull_unref_fresh_session _ _ _ _ _ _ _ Hnew)|].
    intros script res Hfork Hrun.
    destruct (Inv_new_session _ _ _ _ _ _ _ Hnew) as (HI & _).
    destruct (run_ok script w0 [] res HI Hfork Hrun) as (w & tr & -> & HI' & _).
    exists w, tr. split; [reflexivity|]. intros Hpos.
    exact (proj1 (inv_tar _ _ HI' Hpos)).
Qed.

End StateMachine.

(** *** The theorems at work on the example sessions *)

Lemma script_escalation_fork_ok : script_fork_ok script_escalation.
Proof. repeat constructor; intros _; reflexivity. Qed.

Lemma script_before_download_sink_fork_ok : script_fork_ok script_before_download_sink.
Proof. repeat constructor; intros _; reflexivity. Qed.

Lemma script_shortcut_fork_ok : script_fork_ok script_shortcut.
Proof. repeat constructor; intros _; reflexivity. Qed.

Lemma open_disk_assertion_holds_witness :
  exists w tr,
    run (H := linux_x86_64) script_before_download_sink (new_session None)
    = Some (Ok tt w tr) /\
    PullJob.state <$> jobs w !! 3%positive = Some PULL_JOB_ANALYZING /\
    AciPull.tar_pid (aci w) <= 0.
Proof.
  destruct (run (H := linux_x86_64) script_before_download_sink (new_session None))
    as [res|] eqn:Hrun; [|vm_compute in Hrun; discriminate Hrun].
  destruct (open_disk_assertion_holds (H := linux_x86_64) env_ok None None None 0
              (new_session None) [] script_before_download_sink res
              eq_refl script_before_download_sink_fork_ok Hrun)
    as (w & tr & -> & Hprop).
  exists w, tr. split; [reflexivity|].
  vm_compute in Hrun. injection Hrun as <- _.
  split; [reflexivity|]. vm_compute. discriminate.
Defined.

Lemma simple_failure_starts_meta_discovery_once_witness :
  exists w' tr,
    aci_pull_job_on_finished env_ok 1%positive world_simple_failed = Ok tt w' tr /\
    count (is_job_new META_DISCOVERY_JOB) tr = 1%nat.
Proof.
  destruct (simple_failure_starts_meta_discovery_once (H := linux_x86_64))
    as (Hhandler & _ & _).
  destruct (Hhandler env_ok 1%positive
              (PullJob.with_error (-5)
                 (PullJob.with_state PULL_JOB_FAILED
                    (simple_discovery_job_of "https://example-v2.0.0-linux-amd64.aci")))
              world_simple_failed)
    as (w' & tr & Hrun & Hcount & _).
  - reflexivity.
  - reflexivity.
  - reflexivity.
  - exists w', tr. split; assumption.
Defined.

Lemma simple_success_skips_other_jobs_witness :
  on_finished_dispatch env_ok 1%positive world_simple_done
  = Ok goto_copy world_simple_done [].
Proof.
  destruct (simple_success_skips_other_jobs (H := linux_x86_64)) as (Hhandler & _).
  apply (Hhandler env_ok 1%positive
           (PullJob.with_progress_percent 100
              (PullJob.with_state PULL_JOB_DONE
                 (simple_discovery_job_of "https://example-v2.0.0-linux-amd64.aci")))
           world_simple_done).
  - reflexivity.
  - reflexivity.
  - vm_compute. discriminate.
Defined.

Lemma no_local_name_nothing_persists_witness :
  exists w tr,
    run (H := linux_x86_64) script_shortcut (new_session None) = Some (Ok tt w tr) /\
    AciPull.local (aci w) = None /\
    forall temp root local force, pull_make_local_copy temp root local force ∉ tr.
Proof.
  destruct (run (H := linux_x86_64) script_shortcut (new_session None))
    as [res|] eqn:Hrun; [|vm_compute in Hrun; discriminate Hrun].
  destruct (no_local_name_nothing_persists (H := linux_x86_64)) as (_ & Hsession).
  destruct (Hsession env_ok None None None 0 (new_session None) [] script_shortcut res
              eq_refl script_shortcut_fork_ok)
    as (w & tr & -> & Hlocal & _ & Hnocopy & _).
  - repeat constructor.
  - exact Hrun.
  - exists w, tr. split; [reflexivity|]. split; assumption.
Defined.

Lemma aci_pull_unref_idempotent_ordered_witness :
  snd (aci_pull_unref (Some world_extracting)) !! 0%nat = Some (kill_and_sigcont 4242 SIGKILL) /\
  btrfs_subvol_remove "/var/lib/machines/.aci-x.7" ∈ snd (aci_pull_unref (Some world_extracting)).
Proof.
  destruct (aci_pull_unref_idempotent_ordered (H := linux_x86_64)) as (_ & _ & Hw & _).
  destruct (Hw world_extracting) as (Hkill & Hrm & _).
  split.
  - destruct Hkill as [rest ->]; [reflexivity|]. reflexivity.
  - apply (Hrm "/var/lib/machines/.aci-x.7"). reflexivity.
Defined.

(** ** A program logic for the handlers *)

Section Respects.

Context (R : World -> World -> Prop) (P : Effect -> Prop).
Hypothesis R_refl : forall w, R w w.
Hypothesis R_trans : forall w1 w2 w3, R w1 w2 -> R w2 w3 -> R w1 w3.

Lemma respects_ret {A} (Q : A -> Prop) (a : A) : Q a -> respects R Q P (mret a).
Proof. intros Ha w. cbn. auto. Qed.

Lemma respects_bind {A B} (Q : A -> Prop) (Q' : B -> Prop) (m : M A) (k : A -> M B) :
  respects R Q P m ->
  (forall a, Q a -> respects R Q' P (k a)) ->
  respects R Q' P (mbind k m).
Proof.
  intros Hm Hk w. specialize (Hm w). unfold mbind, M_bind.
  destruct (m w) as [a w1 tr1|why tr1]; [|exact Hm].
  destruct Hm as (HR & HQ & HP). specialize (Hk a HQ w1).
  destruct (k a w1) as [b w2 tr2|why tr2].
  - destruct Hk as (HR' & HQ' & HP'). split; [eauto|]. split; [exact HQ'|].
    apply Forall_app. auto.
  - apply Forall_app. auto.
Qed.

Lemma respects_seq {A B} (Q : A -> Prop) (Q' : B -> Prop) (m : M A) (k : A -> M B) :
  respects R Q P m ->
  (forall a, respects R Q' P (k a)) ->
  respects R Q' P (mbind k m).
Proof. intros Hm Hk. apply (respects_bind Q); auto. Qed.

Lemma respects_get_aci : respects R any P get_aci.
Proof. intros w. cbn. unfold any. auto. Qed.

Lemma respects_get_jobs : respects R any P get_jobs.
Proof. intros w. cbn. unfold any. auto. Qed.

Lemma respects_call (x : Effect) : P x -> respects R any P (call x).
Proof. intros Hx w. cbn. unfold any. auto. Qed.

Lemma respects_abort {A} (Q : A -> Prop) (why : string) : respects R Q P (abort why).
Proof. intros w. cbn. constructor. Qed.

Lemma respects_assert (b : bool) (why : string) : respects R any P (assert_ b why).
Proof. destruct b; [apply respects_ret; exact I|apply respects_abort]. Qed.

Lemma respects_deref (j : ptr) : respects R any P (deref j).
Proof. intros w. unfold deref. destruct (jobs w !! j); cbn; unfold any; auto. Qed.

Lemma respects_modify_aci (f : AciPull.t -> AciPull.t) :
  (forall w, R w (mkWorld (f (aci w)) (jobs w))) -> respects R any P (modify_aci f).
Proof. intros Hf w. cbn. unfold any. auto. Qed.

Lemma respects_modify_job (j : ptr) (f : PullJob.t -> PullJob.t) :
  (forall w job, jobs w !! j = Some job ->
     R w (mkWorld (aci w) (<[j := f job]> (jobs w)))) ->
  respects R any P (modify_job j f).
Proof.
  intros Hf w. unfold modify_job.
  destruct (jobs w !! j) eqn:Hj; cbn; unfold any; auto.
Qed.

Lemma respects_modify_slot (slot : option ptr) (f : PullJob.t -> PullJob.t) :
  (forall j w job, jobs w !! j = Some job ->
     R w (mkWorld (aci w) (<[j := f job]> (jobs w)))) ->
  respects R any P (modify_slot slot f).
Proof. intros Hf. destruct slot; [apply respects_modify_job; auto|apply respects_abort]. Qed.

Lemma respects_allocate_job (s : Slot) (p : ptr) (u : string) :
  (forall w, R w (mkWorld (AciPull.with_slot s (Some p) (aci w))
                          (<[p := PullJob.fresh u]> (jobs w)))) ->
  respects R any P (allocate_job s p u).
Proof. intros Hs w. cbn. unfold any. auto. Qed.

Lemma respects_or_return (Q : Z -> Prop) (m : M (option Z)) (k : M Z) :
  respects R (fun o => forall r, o = Some r -> Q r) P m ->
  respects R Q P k ->
  respects R Q P (m ELSE k).
Proof.
  intros Hm Hk. unfold or_return.
  apply (respects_bind (fun o => forall r, o = Some r -> Q r)); [exact Hm|].
  intros [r|] Ho; [apply respects_ret; auto|exact Hk].
Qed.

Lemma respects_run_hook {A} (h : option Hook) (handler : M A) :
  respects R any P handler -> respects R any P (run_hook h handler).
Proof.
  intros Hh. destruct h; cbn [run_hook]; [|apply respects_ret; exact I].
  apply (respects_bind any); [exact Hh|]. intros _ _. apply respects_ret. exact I.
Qed.

End Respects.

Lemma respects_impl {A} (R R' : World -> World -> Prop) (Q Q' : A -> Prop)
    (P P' : Effect -> Prop) (m : M A) :
  (forall w w', R w w' -> R' w w') ->
  (forall a, Q a -> Q' a) ->
  (forall x, P x -> P' x) ->
  respects R Q P m -> respects R' Q' P' m.
Proof.
  intros HR HQ HP Hm w. specialize (Hm w). destruct (m w) as [a w' tr|why tr].
  - destruct Hm as (? & ? & Htr). split; [auto|]. split; [auto|].
    eapply Forall_impl; [exact Htr|exact HP].
  - eapply Forall_impl; [exact Hm|exact HP].
Qed.

Lemma respects_outcome {A} (R : World -> World -> Prop) (Q : A -> Prop)
    (P : Effect -> Prop) (m : M A) (w : World) :
  respects R Q P m -> outcome R P w (m w).
Proof.
  intros Hm. specialize (Hm w). unfold outcome.
  destruct (m w); [destruct Hm as (? & _ & ?); auto|exact Hm].
Qed.

Lemma outcome_log {A} (R : World -> World -> Prop) (P : Effect -> Prop)
    (w : World) (res : Res A) :
  outcome R P w res -> Forall P (log_of res).
Proof. destruct res; cbn; [intros [_ ?]; assumption|auto]. Qed.

Lemma session_step_refl (w : World) : session_step w w.
Proof. split; reflexivity. Qed.

Lemma session_step_trans (w1 w2 w3 : World) :
  session_step w1 w2 -> session_step w2 w3 -> session_step w1 w3.
Proof. intros [? ?] [? ?]. split; [congruence|etrans; eassumption]. Qed.

Lemma session_step_job (j : ptr) (x : PullJob.t) (w : World) (i : AciPull.t) :
  configuration i = configuration (aci w) ->
  session_step w (mkWorld i (<[j := x]> (jobs w))).
Proof. intros Hi. split; [exact Hi|]. cbn [jobs]. apply dom_insert_subseteq. Qed.

(** Symbolic execution in the logic: one rule per construct of the
    monad, a case split per test; the side conditions are arithmetic on
    the tests passed, or hold by computation. *)
Ltac rarith :=
  repeat match goal with
         | H : (_ <? _) = true |- _ => apply Z.ltb_lt in H
         | H : (_ <? _) = false |- _ => apply Z.ltb_ge in H
         | H : (_ <=? _) = true |- _ => apply Z.leb_le in H
         | H : (_ <=? _) = false |- _ => apply Z.leb_gt in H
         end;
  unfold log_oom, log_error_errno, ENOMEM, EINVAL, EBUSY in *; lia.

Ltac rside :=
  lazymatch goal with
  | |- respects _ _ _ _ => fail
  | |- _ =>
      first
        [ exact I
        | exact session_step_refl
        | exact session_step_trans
        | solve [intros; apply session_step_job; reflexivity]
        | solve [intros; split; reflexivity]
        | solve [intros; hnf; first [exact I | reflexivity | assumption]]
        | solve [unfold any; auto]
        | solve [intros; simplify_eq; rarith]
        | solve [repeat split; cbn;
                 repeat match goal with
                        | H : _ = true |- _ => rewrite H
                        | H : _ = false |- _ => rewrite H
                        end; first [reflexivity | lia | rarith]] ]
  end.

Ltac rstep :=
  lazymatch goal with
  | |- respects _ _ _ (mbind _ _) => eapply respects_seq with (Q := any); [| |intros ?]
  | |- respects _ _ _ (or_return _ _) => apply respects_or_return
  | |- respects _ _ _ (mret _) => apply respects_ret
  | |- respects _ _ _ get_aci => apply respects_get_aci
  | |- respects _ _ _ get_jobs => apply respects_get_jobs
  | |- respects _ _ _ (call _) => apply respects_call
  | |- respects _ _ _ (abort _) => apply respects_abort
  | |- respects _ _ _ (assert_ _ _) => apply respects_assert
  | |- respects _ _ _ (deref _) => apply respects_deref
  | |- respects _ _ _ (modify_aci _) => apply respects_modify_aci
  | |- respects _ _ _ (modify_job _ _) => apply respects_modify_job
  | |- respects _ _ _ (modify_slot _ _) => apply respects_modify_slot
  | |- respects _ _ _ (allocate_job _ _ _) => apply respects_allocate_job
  | |- respects _ _ _ (if ?c then _ else _) => destruct c eqn:?
  | |- respects _ _ _ (match ?x with _ => _ end) => destruct x eqn:?
  end.

Ltac rauto := repeat (rstep; try rside).

Lemma is_start_call_harmless (x : Effect) : is_start_call x = true -> harmless x.
Proof. destruct x; try discriminate; intros _; repeat split. Qed.

Lemma is_staging_call_harmless (x : Effect) : is_staging_call x = true -> harmless x.
Proof. destruct x; try discriminate; intros _; repeat split. Qed.

Lemma is_progress_call_harmless (x : Effect) : is_progress_call x = true -> harmless x.
Proof. destruct x; try discriminate; intros _; repeat split. Qed.

Section Handlers.

Context `{Collaborators}.

(** [aci_pull_start] only asks for the simple-discovery job and begins
    it. *)
Lemma start_respects (e : Env) (name tag : string) (local : option string)
    (force_local : bool) :
  respects session_step any (fun x => is_start_call x = true)
    (aci_pull_start e name tag local force_local).
Proof.
  unfold aci_pull_start, free_and_strdup, do_pull_job_new, do_pull_job_begin.
  rauto.
Qed.

(** The progress hook only publishes a progress message. *)
Lemma on_progress_respects (j : ptr) :
  respects session_step any (fun x => is_progress_call x = true)
    (aci_pull_job_on_progress j).
Proof.
  unfold aci_pull_job_on_progress, aci_pull_report_progress, combined_percent,
         add_job_progress.
  rauto.
Qed.

(** The disk-open hook only makes staging calls, and returns 0 or a
    negative code. *)
Lemma on_open_disk_respects (e : Env) (j : ptr) :
  respects session_step (fun r => r <= 0) (fun x => is_staging_call x = true)
    (aci_pull_job_on_open_disk e j).
Proof.
  unfold aci_pull_job_on_open_disk.
  rauto.
Qed.

Lemma on_finished_finish_respects (r : Z) :
  r <= 0 -> respects session_step any harmless (on_finished_finish r).
Proof.
  intros Hr. unfold on_finished_finish. rauto.
  all: repeat split; cbn; apply Z.leb_le; exact Hr.
Qed.

Lemma on_finished_dispatch_respects (e : Env) (j : ptr) :
  respects session_step
    (fun g => match g with goto_finish r => r <= 0 | _ => True end) harmless
    (on_finished_dispatch e j).
Proof.
  unfold on_finished_dispatch, aci_pull_start_meta_discovery, aci_pull_start_download,
         do_pull_job_new, do_pull_job_begin.
  rauto.
Qed.

Lemma on_finished_copy_respects (e : Env) (j : ptr) :
  respects session_step (fun r => r <= 0) harmless (on_finished_copy e j).
Proof.
  unfold on_finished_copy, aci_pull_make_local_copy, aci_pull_report_progress,
         combined_percent.
  rauto.
Qed.

(** The completion handler sends no signal but [SIGKILL] to a child,
    releases and removes nothing, and delivers 0 or a negative code. *)
Lemma on_finished_respects (e : Env) (j : ptr) :
  respects session_step any harmless (aci_pull_job_on_finished e j).
Proof.
  unfold aci_pull_job_on_finished.
  eapply respects_bind; [exact session_step_trans|apply on_finished_dispatch_respects|].
  intros [| |r] Hg.
  - apply respects_ret; [exact session_step_refl|exact I].
  - eapply respects_bind;
      [exact session_step_trans|apply on_finished_copy_respects|].
    intros r Hr. apply on_finished_finish_respects. exact Hr.
  - apply on_finished_finish_respects. exact Hg.
Qed.

(** What the handling of one event is made of. *)
Lemma deliver_respects (e : Env) (ev : Event) (w : World) (res : Res unit) :
  deliver e ev w = Some res ->
  outcome session_step harmless w res.
Proof.
  destruct ev as [name tag local force_local|j|j percent|j ret]; cbn [deliver].
  - intros [= <-]. apply (respects_outcome _ any).
    eapply respects_seq with (Q := any);
      [exact session_step_trans| |intros; apply respects_ret; [exact session_step_refl|exact I]].
    eapply respects_impl; [| | |apply start_respects]; auto using is_start_call_harmless.
  - destruct (jobs w !! j) as [job|]; [|discriminate].
    case_decide; [|discriminate]. intros [= <-]. apply (respects_outcome _ any).
    eapply respects_seq with (Q := any);
      [exact session_step_trans|
      |intros; apply respects_modify_job; rside].
    apply respects_run_hook; [exact session_step_refl|exact session_step_trans|].
    eapply respects_impl; [| | |apply on_open_disk_respects];
      unfold any; auto using is_staging_call_harmless.
  - destruct (jobs w !! j) as [job|]; [|discriminate].
    destruct (PullJob.active job); [|discriminate]. intros [= <-].
    apply (respects_outcome _ any).
    eapply respects_seq with (Q := any);
      [exact session_step_trans
      |apply respects_modify_job; rside|intros].
    apply respects_run_hook; [exact session_step_refl|exact session_step_trans|].
    eapply respects_impl; [| | |apply on_progress_respects];
      auto using is_progress_call_harmless.
  - destruct (jobs w !! j) as [job|]; [|discriminate].
    destruct (PullJob.active job); [|discriminate]. intros [= <-].
    apply (respects_outcome _ any).
    eapply respects_seq with (Q := any);
      [exact session_step_trans
      |case_decide; (apply respects_modify_job; rside)|intros].
    apply respects_run_hook; [exact session_step_refl|exact session_step_trans|].
    apply on_finished_respects.
Qed.

(** What a whole session is made of, from any store. *)
Lemma run_respects (script : list (Env * Event)) :
  forall (w : World) (res : Res unit),
  run script w = Some res ->
  outcome session_step harmless w res.
Proof.
  induction script as [|[e ev] script IH]; intros w res Hrun; cbn [run] in Hrun.
  - injection Hrun as <-. split; [exact (session_step_refl w)|constructor].
  - destruct (deliver e ev w) as [res1|] eqn:Hdel; [|discriminate].
    pose proof (deliver_respects _ _ _ _ Hdel) as H1.
    destruct res1 as [[] w1 tr1|why tr1]; [|injection Hrun as <-; exact H1].
    destruct (run script w1) as [res2|] eqn:Hrest; [|discriminate].
    pose proof (IH _ _ Hrest) as H2. destruct H1 as [HR1 HP1].
    destruct res2 as [[] w2 tr2|why tr2]; injection Hrun as <-; cbn in *.
    + destruct H2 as [HR2 HP2]. split; [eapply session_step_trans; eauto|].
      apply Forall_app. auto.
    + apply Forall_app. auto.
Qed.

Lemma respects_log {A} (R : World -> World -> Prop) (Q : A -> Prop)
    (P : Effect -> Prop) (m : M A) (w : World) :
  respects R Q P m -> Forall P (log_of (m w)).
Proof. intros Hm. eapply outcome_log, respects_outcome, Hm. Qed.

(** X1.  Each entry point other than the completion handler makes only
    its own kind of call, from every store and also when it fails or
    aborts: [aci_pull_start] only asks for the simple-discovery job and
    begins it, the disk-open hook only makes the three staging calls, the
    progress hook only publishes progress.  None of them delivers a
    result code, sends a signal, releases or removes anything. *)
Theorem entry_points_calls :
  (forall e name tag local force_local w,
     Forall (fun x => is_start_call x = true)
       (log_of (aci_pull_start e name tag local force_local w))) /\
  (forall e j w,
     Forall (fun x => is_staging_call x = true)
       (log_of (aci_pull_job_on_open_disk e j w))) /\
  (forall j w,
     Forall (fun x => is_progress_call x = true)
       (log_of (aci_pull_job_on_progress j w))).
Proof.
  split; [|split]; intros.
  - eapply respects_log, start_respects.
  - eapply respects_log, on_open_disk_respects.
  - eapply respects_log, on_progress_respects.
Qed.

(** X2.  The only signal this file ever sends is [SIGKILL], and only to
    a child process (pid above 1), never to a process group or to init:
    in every session, from any store and under any script of events, at
    teardown, and when [aci_pull_new] releases a half-built session. *)
Theorem session_signals_only_children :
  (forall script w res,
     run script w = Some res ->
     Forall (fun x => signals_child x = true) (log_of res)) /\
  (forall s, Forall (fun x => signals_child x = true) (snd (aci_pull_unref s))) /\
  (forall e event image_root callback userdata,
     Forall (fun x => signals_child x = true)
       (snd (aci_pull_new e event image_root callback userdata))).
Proof.
  split; [|split].
  - intros script w res Hrun.
    eapply Forall_impl; [exact (outcome_log _ _ _ _ (run_respects _ _ _ Hrun))|].
    intros x (Hx & _). exact Hx.
  - intros [w|]; [|constructor]. cbn [aci_pull_unref snd].
    destruct (1 <? AciPull.tar_pid (aci w)) eqn:Hpid;
      destruct (AciPull.temp_path (aci w));
      repeat constructor; cbn; rewrite Hpid; reflexivity.
  - intros e event image_root callback userdata. unfold aci_pull_new.
    repeat case_match; cbn; repeat constructor.
Qed.

(** X3.  While the session is alive nothing is given up: under any
    script of events, from any store, no reference to a job, to the
    transport or to the event loop is dropped and no snapshot is removed,
    and every job that is live stays live.  Only [aci_pull_unref] does
    these things. *)
Theorem session_releases_nothing (script : list (Env * Event)) (w : World) (res : Res unit) :
  run script w = Some res ->
  Forall (fun x => is_release x = false /\ is_snapshot_removal x = false) (log_of res) /\
  (forall w' tr, res = Ok tt w' tr -> dom (jobs w) ⊆ dom (jobs w')).
Proof.
  intros Hrun. pose proof (run_respects _ _ _ Hrun) as Hout. split.
  - eapply Forall_impl; [exact (outcome_log _ _ _ _ Hout)|].
    intros x (_ & Hrel & Hrm & _). auto.
  - intros w' tr ->. destruct Hout as [[_ Hdom] _]. exact Hdom.
Qed.

(** X4.  What [aci_pull_new] sets up is never changed by a pull: after
    any script of events the session still has the completion callback
    and user data it was constructed with, its image root (the default
    [/var/lib/machines] if none was given), the event loop it was given
    and its transport. *)
Theorem session_keeps_configuration (e0 : Env) (event : option ptr)
    (image_root : option string) (callback : option ptr) (userdata : Z)
    (w0 : World) (tr0 : list Effect) (script : list (Env * Event))
    (w : World) (tr : list Effect) :
  aci_pull_new e0 event image_root callback userdata = (0, Some w0, tr0) ->
  run script w0 = Some (Ok tt w tr) ->
  AciPull.on_finished (aci w) = callback /\
  AciPull.userdata (aci w) = userdata /\
  AciPull.image_root (aci w) = Some (default "/var/lib/machines" image_root) /\
  AciPull.grow_machine_directory (aci w)
  = path_startswith (default "/var/lib/machines" image_root) "/var/lib/machines" /\
  (forall h, event = Some h -> AciPull.event (aci w) = Some h) /\
  AciPull.glue (aci w) = AciPull.glue (aci w0).
Proof.
  intros Hnew Hrun.
  destruct (run_respects _ _ _ Hrun) as [[Hconf _] _].
  unfold configuration in Hconf. injection Hconf as -> -> -> -> -> ->.
  unfold aci_pull_new in Hnew.
  repeat case_match; simplify_eq; cbn; repeat split; intros; simplify_eq; reflexivity.
Qed.

(** X5.  Every result code the session hands to its caller, through the
    completion callback or as the exit code of the event loop, is 0 or
    negative, under any script of events and from any store. *)
Theorem session_result_codes_not_positive (script : list (Env * Event)) (w : World)
    (res : Res unit) :
  run script w = Some res ->
  forall x, x ∈ log_of res ->
  (forall callback r userdata, x = call_on_finished callback r userdata -> r <= 0) /\
  (forall event r, x = sd_event_exit event r -> r <= 0).
Proof.
  intros Hrun x Hx.
  pose proof (outcome_log _ _ _ _ (run_respects _ _ _ Hrun)) as Hall.
  rewrite Forall_forall in Hall. destruct (Hall x Hx) as (_ & _ & _ & Hcode).
  split; intros; subst x; cbn in Hcode; apply Z.leb_le; exact Hcode.
Qed.

End Handlers.

Lemma session_signals_only_children_witness :
  exists res,
    run (H := linux_x86_64) script_escalation (new_session None) = Some res /\
    Forall (fun x => signals_child x = true) (log_of res) /\
    kill_and_sigcont 4242 SIGKILL ∈ log_of res.
Proof.
  destruct (run (H := linux_x86_64) script_escalation (new_session None))
    as [res|] eqn:Hrun; [|vm_compute in Hrun; discriminate Hrun].
  exists res. split; [reflexivity|]. split.
  - exact (proj1 (session_signals_only_children (H := linux_x86_64)) _ _ _ Hrun).
  - vm_compute in Hrun. injection Hrun as <-. cbn [log_of].
    repeat first [apply list_elem_of_here|apply list_elem_of_further].
Defined.

Lemma session_releases_nothing_witness :
  exists w tr,
    run (H := linux_x86_64) script_escalation (new_session None) = Some (Ok tt w tr) /\
    Forall (fun x => is_release x = false /\ is_snapshot_removal x = false) tr /\
    dom (jobs w) = {[ 1%positive; 2%positive; 3%positive ]}.
Proof.
  destruct (run (H := linux_x86_64) script_escalation (new_session None))
    as [res|] eqn:Hrun; [|vm_compute in Hrun; discriminate Hrun].
  destruct (session_releases_nothing (H := linux_x86_64) _ _ _ Hrun) as [Hlog _].
  vm_compute in Hrun. injection Hrun as <-.
  eexists _, _. split; [reflexivity|]. split; [exact Hlog|].
  vm_compute. reflexivity.
Defined.

Lemma session_keeps_configuration_witness :
  exists w tr,
    run (H := linux_x86_64) script_escalation (new_session None) = Some (Ok tt w tr) /\
    AciPull.image_root (aci w) = Some "/var/lib/machines" /\
    AciPull.on_finished (aci w) = None.
Proof.
  destruct (run (H := linux_x86_64) script_escalation (new_session None))
    as [[[] w tr|why tr]|] eqn:Hrun;
    [|vm_compute in Hrun; discriminate Hrun|vm_compute in Hrun; discriminate Hrun].
  destruct (session_keeps_configuration (H := linux_x86_64) env_ok None None None 0
              (new_session None) [] script_escalation w tr eq_refl Hrun)
    as (Hcb & _ & Hroot & _).
  exists w, tr. split; [reflexivity|]. split; assumption.
Defined.

Lemma session_result_codes_not_positive_witness :
  exists res,
    run (H := linux_x86_64) script_escalation (new_session None) = Some res /\
    sd_event_exit (Some 1%positive) 0 ∈ log_of res /\
    forall event r, sd_event_exit event r ∈ log_of res -> r <= 0.
Proof.
  destruct (run (H := linux_x86_64) script_escalation (new_session None))
    as [res|] eqn:Hrun; [|vm_compute in Hrun; discriminate Hrun].
  exists res. split; [reflexivity|]. split.
  - vm_compute in Hrun. injection Hrun as <-. cbn [log_of].
    repeat first [apply list_elem_of_here|apply list_elem_of_further].
  - intros event r Hin.
    exact (proj2 (session_result_codes_not_positive (H := linux_x86_64) _ _ _ Hrun _ Hin)
             event r eq_refl).
Defined.

(** ** Construction *)

Section Construction.

Context `{Collaborators}.

(** X6.  [aci_pull_new] either returns 0 with a session that is idle (no
    job, no subprocess, no staging path) and configured as asked, the
    image root defaulting to [/var/lib/machines]; or it returns a
    negative code and no session, having only released what it had
    acquired.  It never returns a positive code: a positive result of
    [curl_glue_new] counts as success. *)
Theorem aci_pull_new_outcome (e : Env) (event : option ptr) (image_root : option string)
    (callback : option ptr) (userdata : Z) :
  let '(r, ret, tr) := aci_pull_new e event image_root callback userdata in
  (r = 0 /\ tr = [] /\
   exists w, ret = Some w /\
     jobs w = ∅ /\
     (forall s, AciPull.slot s (aci w) = None) /\
     AciPull.tar_pid (aci w) = 0 /\
     AciPull.temp_path (aci w) = None /\
     AciPull.final_path (aci w) = None /\
     AciPull.local (aci w) = None /\
     AciPull.image_root (aci w) = Some (default "/var/lib/machines" image_root) /\
     AciPull.on_finished (aci w) = callback /\
     AciPull.userdata (aci w) = userdata /\
     AciPull.event (aci w) = Some (default (sd_event_default_h e) event) /\
     AciPull.glue (aci w) = Some (curl_glue_new_h e)) \/
  (r < 0 /\ ret = None /\
   (r = - ENOMEM \/ (event = None /\ r = sd_event_default_r e) \/ r = curl_glue_new_r e) /\
   Forall (fun x => is_release x = true) tr).
Proof.
  unfold aci_pull_new.
  destruct (alloc_ok e 0); cbn [negb]; [|right; repeat split; auto].
  destruct (alloc_ok e 1); cbn [negb];
    [|right; repeat split; auto; repeat constructor].
  destruct event as [h|]; [|destruct (sd_event_default_r e <? 0) eqn:Hev];
    try (destruct (curl_glue_new_r e <? 0) eqn:Hglue);
    rewrite ?Z.ltb_lt in *;
    first
      [ left; split; [reflexivity|]; split; [reflexivity|];
        eexists; split; [reflexivity|]; cbn; repeat split; intros []; reflexivity
      | right; split; [assumption|]; split; [reflexivity|];
        split; [auto|repeat constructor] ].
Qed.

End Construction.

(** ** Start: what a failure leaves behind *)

Section StartFailures.

Context `{Collaborators}.

Lemma start_when_busy (e : Env) (name tag : string) (local : option string)
    (force_local : bool) (w : World) :
  is_Some (AciPull.simple_discovery_job (aci w)) ->
  exists r, aci_pull_start e name tag local force_local w = Ok r w [] /\
            (r = - EINVAL \/ r = - EBUSY).
Proof.
  intros Hbusy. unfold aci_pull_start. munfold.
  destruct (aci_name_is_valid name); cbn; [|eauto].
  destruct local as [l|]; [destruct (machine_name_is_valid l)|]; cbn; eauto;
    rewrite bool_decide_eq_true_2 by exact Hbusy; eauto.
Qed.

(** X7.  When [pull_job_new] fails, [aci_pull_start] returns its code
    with the session still idle and without a job, but not untouched:
    the content-id, the local name, the force flag and the name of the
    request have already been recorded.  A later [aci_pull_start] is
    accepted and, the collaborators permitting, starts the pull. *)
Theorem start_failed_job_creation_can_retry (e : Env) (name tag : string)
    (local : option string) (force_local : bool) (w : World) :
  aci_name_is_valid name = true ->
  (forall l, local = Some l -> machine_name_is_valid l = true) ->
  AciPull.simple_discovery_job (aci w) = None ->
  alloc_ok e 0 = true ->
  alloc_ok e 1 = true ->
  pull_job_new_r e < 0 ->
  exists w1,
    aci_pull_start e name tag local force_local w
    = Ok (pull_job_new_r e) w1
         [pull_job_new SIMPLE_DISCOVERY_JOB (simple_discovery_url name tag) None] /\
    jobs w1 = jobs w /\
    (forall s, AciPull.slot s (aci w1) = AciPull.slot s (aci w)) /\
    AciPull.id (aci w1) = Some ACI_ID_PLACEHOLDER /\
    AciPull.local (aci w1) = local /\
    AciPull.force_local (aci w1) = force_local /\
    AciPull.name (aci w1) = Some name /\
    forall e' name' tag' local' force_local',
      aci_name_is_valid name' = true ->
      (forall l, local' = Some l -> machine_name_is_valid l = true) ->
      alloc_ok e' 0 = true ->
      alloc_ok e' 1 = true ->
      0 <= pull_job_new_r e' ->
      exists w2 p,
        aci_pull_start e' name' tag' local' force_local' w1
        = Ok (pull_job_begin_r e') w2
             [pull_job_new SIMPLE_DISCOVERY_JOB (simple_discovery_url name' tag') (Some p);
              pull_job_begin p (pull_job_begin_r e')] /\
        AciPull.simple_discovery_job (aci w2) = Some p.
Proof.
  intros Hname Hlocal Hidle Ha0 Ha1 Hnew.
  rewrite start_passes_validation by assumption. cbv zeta.
  apply Z.ltb_lt in Hnew. rewrite Hnew.
  eexists. split; [reflexivity|]. cbn [aci jobs].
  split; [reflexivity|]. split; [intros []; reflexivity|].
  do 4 (split; [reflexivity|]).
  intros e' name' tag' local' force_local' Hname' Hlocal' Ha0' Ha1' Hnew'.
  rewrite start_passes_validation by assumption. cbv zeta.
  apply Z.ltb_ge in Hnew'. rewrite Hnew'.
  do 2 eexists. split; reflexivity.
Qed.

(** X8.  When the job is created but [pull_job_begin] fails,
    [aci_pull_start] returns that code and leaves the job in its slot,
    never begun.  The session is then busy for good: every later
    [aci_pull_start], whatever its arguments, is rejected with [-EINVAL]
    or [-EBUSY] and changes nothing. *)
Theorem start_failed_begin_leaves_session_busy (e : Env) (name tag : string)
    (local : option string) (force_local : bool) (w : World) :
  aci_name_is_valid name = true ->
  (forall l, local = Some l -> machine_name_is_valid l = true) ->
  AciPull.simple_discovery_job (aci w) = None ->
  alloc_ok e 0 = true ->
  alloc_ok e 1 = true ->
  0 <= pull_job_new_r e ->
  pull_job_begin_r e < 0 ->
  exists w1 p job,
    aci_pull_start e name tag local force_local w
    = Ok (pull_job_begin_r e) w1
         [pull_job_new SIMPLE_DISCOVERY_JOB (simple_discovery_url name tag) (Some p);
          pull_job_begin p (pull_job_begin_r e)] /\
    AciPull.simple_discovery_job (aci w1) = Some p /\
    jobs w1 !! p = Some job /\
    PullJob.state job = PULL_JOB_INIT /\
    forall e' name' tag' local' force_local',
      exists r,
        aci_pull_start e' name' tag' local' force_local' w1 = Ok r w1 [] /\
        (r = - EINVAL \/ r = - EBUSY).
Proof.
  intros Hname Hlocal Hidle Ha0 Ha1 Hnew Hbegin.
  rewrite start_passes_validation by assumption. cbv zeta.
  apply Z.ltb_ge in Hnew. apply Z.ltb_lt in Hbegin. rewrite Hnew, Hbegin.
  do 3 eexists. split; [reflexivity|]. cbn [aci jobs].
  split; [reflexivity|]. split; [apply lookup_insert_eq|]. split; [reflexivity|].
  intros e' name' tag' local' force_local'.
  apply start_when_busy. cbn. eauto.
Qed.

End StartFailures.

Lemma start_failed_job_creation_can_retry_witness :
  exists w1 w2,
    aci_pull_start (H := linux_x86_64) env_no_job "example" "v2.0.0" (Some "box") true
      (new_session None)
    = Ok (- ENOMEM) w1
         [pull_job_new SIMPLE_DISCOVERY_JOB "https://example-v2.0.0-linux-amd64.aci" None] /\
    AciPull.local (aci w1) = Some "box" /\
    aci_pull_start (H := linux_x86_64) env_ok "example" "v2.0.0" None false w1
    = Ok 0 w2
         [pull_job_new SIMPLE_DISCOVERY_JOB "https://example-v2.0.0-linux-amd64.aci"
            (Some 1%positive);
          pull_job_begin 1%positive 0].
Proof.
  destruct (start_failed_job_creation_can_retry (H := linux_x86_64) env_no_job
              "example" "v2.0.0" (Some "box") true (new_session None))
    as (w1 & Hrun & Hjobs & _ & _ & Hlocal & _ & _ & Hretry).
  - reflexivity.
  - intros l [= <-]. reflexivity.
  - reflexivity.
  - reflexivity.
  - reflexivity.
  - vm_compute. reflexivity.
  - destruct (Hretry env_ok "example" "v2.0.0" None false) as (w2 & p & Hrun2 & _).
    + reflexivity.
    + intros l Hl. discriminate Hl.
    + reflexivity.
    + reflexivity.
    + vm_compute. discriminate.
    + exists w1, w2. split; [exact Hrun|]. split; [exact Hlocal|].
      rewrite Hrun2. vm_compute in Hrun. injection Hrun as <-.
      vm_compute in Hrun2. injection Hrun2 as _ <-. reflexivity.
Defined.

Lemma start_failed_begin_leaves_session_busy_witness :
  exists w1 r,
    aci_pull_start (H := linux_x86_64) env_no_begin "example" "v2.0.0" None false
      (new_session None)
    = Ok (- ENOMEM) w1
         [pull_job_new SIMPLE_DISCOVERY_JOB "https://example-v2.0.0-linux-amd64.aci"
            (Some 1%positive);
          pull_job_begin 1%positive (- ENOMEM)] /\
    aci_pull_start (H := linux_x86_64) env_ok "other" "v1" None false w1 = Ok r w1 [] /\
    (r = - EINVAL \/ r = - EBUSY).
Proof.
  destruct (start_failed_begin_leaves_session_busy (H := linux_x86_64) env_no_begin
              "example" "v2.0.0" None false (new_session None))
    as (w1 & p & job & Hrun & _ & _ & _ & Hbusy).
  - reflexivity.
  - intros l Hl. discriminate Hl.
  - reflexivity.
  - reflexivity.
  - reflexivity.
  - vm_compute. discriminate.
  - vm_compute. reflexivity.
  - destruct (Hbusy env_ok "other" "v1" None false) as (r & Hrun2 & Hr).
    exists w1, r. split; [|split; assumption].
    rewrite Hrun. vm_compute in Hrun. injection Hrun as <- <-. reflexivity.
Defined.

(** ** The simple-discovery URL *)

Lemma append_assoc (a b c : string) : (a +:+ b) +:+ c = a +:+ (b +:+ c).
Proof.
  induction a as [|x a IH]; [reflexivity|].
  change (String x ((a +:+ b) +:+ c) = String x (a +:+ (b +:+ c))).
  rewrite IH. reflexivity.
Qed.

(** X9.  The URL does not determine the request: the name and the tag
    are joined by a bare dash, so moving a dash-separated part from the
    end of the name to the front of the tag gives the same URL. *)
Theorem simple_discovery_url_dash_ambiguous `{Collaborators} (name part tag : string) :
  simple_discovery_url (name +:+ "-" +:+ part) tag
  = simple_discovery_url name (part +:+ "-" +:+ tag).
Proof.
  unfold simple_discovery_url. cbn [strjoin].
  rewrite !append_assoc. reflexivity.
Qed.

(** ** The disk-open hook: reuse, failures, and the guard *)

Section OpenDiskEdges.

Context `{Collaborators}.

(** In a session that already has its staging path the hook only
    forks. *)
Lemma open_disk_again (e : Env) (j : ptr) (job : PullJob.t) (w : World)
    (base temp : string) :
  jobs w !! j = Some job ->
  AciPull.final_path (aci w) = Some base ->
  AciPull.temp_path (aci w) = Some temp ->
  AciPull.tar_pid (aci w) <= 0 ->
  exists r w', aci_pull_job_on_open_disk e j w = Ok r w' [import_fork_tar_x temp].
Proof.
  intros Hj Hfinal Htemp Hpid. apply Z.leb_le in Hpid.
  unfold aci_pull_job_on_open_disk. destruct w as [i js]. cbn [aci jobs] in *.
  destruct (import_fork_tar_x_r e <? 0) eqn:Hfork; mred; do 2 eexists; reflexivity.
Qed.

(** X10.  Once the session has a staging path the disk-open hook creates
    nothing more: it makes one call, forking the extraction subprocess
    into the existing staging path, and leaves both paths as they are.
    This is how the download job, after an escalation, extracts into the
    snapshot made for the simple-discovery job. *)
Theorem open_disk_reuses_staging_path (e : Env) (j : ptr) (job : PullJob.t) (w : World)
    (base temp : string) :
  jobs w !! j = Some job ->
  AciPull.final_path (aci w) = Some base ->
  AciPull.temp_path (aci w) = Some temp ->
  AciPull.tar_pid (aci w) <= 0 ->
  aci_pull_job_on_open_disk e j w
  = Ok (if import_fork_tar_x_r e <? 0 then import_fork_tar_x_r e else 0)
       (mkWorld (if import_fork_tar_x_r e <? 0 then aci w
                 else AciPull.with_tar_pid (fork_pid e) (aci w))
                (<[j := PullJob.with_disk_fd (import_fork_tar_x_r e) job]> (jobs w)))
       [import_fork_tar_x temp].
Proof.
  intros Hj Hfinal Htemp Hpid. apply Z.leb_le in Hpid.
  unfold aci_pull_job_on_open_disk. destruct w as [i js]. cbn [aci jobs] in *.
  destruct (import_fork_tar_x_r e <? 0) eqn:Hfork; mred; reflexivity.
Qed.

(** X11.  Called for a live job while no subprocess is attached, the
    disk-open hook returns 0 or a negative code.  It returns 0 only when
    the fork succeeded: the subprocess is then attached, the job holds
    the descriptor of its pipe, and the fork into the staging path was
    the last call made.  When it returns a negative code no subprocess
    has been attached. *)
Theorem open_disk_result (e : Env) (j : ptr) (job : PullJob.t) (w : World) :
  jobs w !! j = Some job ->
  AciPull.tar_pid (aci w) <= 0 ->
  exists r w' tr,
    aci_pull_job_on_open_disk e j w = Ok r w' tr /\
    r <= 0 /\
    (r = 0 ->
     0 <= import_fork_tar_x_r e /\
     AciPull.tar_pid (aci w') = fork_pid e /\
     PullJob.disk_fd <$> jobs w' !! j = Some (import_fork_tar_x_r e) /\
     exists temp, AciPull.temp_path (aci w') = Some temp /\
                  last tr = Some (import_fork_tar_x temp)) /\
    (r < 0 -> AciPull.tar_pid (aci w') = AciPull.tar_pid (aci w)).
Proof.
  intros Hj Hpid. apply Z.leb_le in Hpid.
  unfold aci_pull_job_on_open_disk.
  destruct w as [i js]. cbn [aci jobs] in *.
  destruct (AciPull.final_path i) as [final|] eqn:Hfinal;
    destruct (AciPull.temp_path i) as [temp|] eqn:Htemp;
    destruct (alloc_ok e 0) eqn:Halloc; destruct (alloc_ok e 1) eqn:Halloc1;
    destruct (btrfs_subvol_make_r e <? 0) eqn:Hmake;
    destruct (import_fork_tar_x_r e <? 0) eqn:Hfork;
    mred; do 3 eexists; (split; [reflexivity|]);
    rewrite ?Z.ltb_lt, ?Z.ltb_ge in *;
    unfold log_oom, log_error_errno, ENOMEM in *; cbn [aci jobs];
    (split; [lia|]); (split; [|intros; first [reflexivity|lia]]);
    intros Hr; try lia;
    (split; [assumption|]); (split; [reflexivity|]);
    (split; [rewrite lookup_insert_eq; reflexivity|]);
    eexists; (split; [cbn; first [reflexivity|eassumption]|reflexivity]).
Qed.

(** X12.  A snapshot that could not be created is not retried.  When
    [btrfs_subvol_make] fails the hook returns a negative code without
    forking, but the staging path stays recorded: the next run of the
    hook, whatever the collaborators then answer, creates nothing and
    forks the subprocess into that path, and teardown removes it. *)
Theorem open_disk_snapshot_failure_is_not_retried (e : Env) (j : ptr) (job : PullJob.t)
    (w : World) :
  jobs w !! j = Some job ->
  AciPull.final_path (aci w) = None ->
  AciPull.temp_path (aci w) = None ->
  alloc_ok e 0 = true ->
  alloc_ok e 1 = true ->
  AciPull.tar_pid (aci w) <= 0 ->
  btrfs_subvol_make_r e < 0 ->
  exists w1 temp,
    aci_pull_job_on_open_disk e j w
    = Ok (log_error_errno (btrfs_subvol_make_r e)) w1
         [mkdir_parents_label temp 448; btrfs_subvol_make temp] /\
    log_error_errno (btrfs_subvol_make_r e) < 0 /\
    AciPull.temp_path (aci w1) = Some temp /\
    AciPull.tar_pid (aci w1) = AciPull.tar_pid (aci w) /\
    jobs w1 = jobs w /\
    (forall e', exists r w2,
       aci_pull_job_on_open_disk e' j w1 = Ok r w2 [import_fork_tar_x temp]) /\
    btrfs_subvol_remove temp ∈ snd (aci_pull_unref (Some w1)).
Proof.
  intros Hj Hfinal Htemp Ha0 Ha1 Hpid Hmake.
  rewrite (open_disk_first e j job w) by assumption. cbv zeta.
  pose proof Hmake as Hmake'. apply Z.ltb_lt in Hmake'. rewrite Hmake'.
  do 2 eexists. split; [reflexivity|]. cbn [aci jobs].
  split; [unfold log_error_errno; lia|].
  split; [reflexivity|]. split; [reflexivity|]. split; [reflexivity|]. split.
  - intros e'.
    eapply (open_disk_again e' j job); cbn [aci jobs];
      [exact Hj|reflexivity|reflexivity|exact Hpid].
  - cbn [aci_pull_unref snd aci AciPull.temp_path AciPull.with_temp_path].
    rewrite !elem_of_app. right. right. apply list_elem_of_here.
Qed.

(** X13.  The hook never forks a second subprocess: called while one is
    attached, it either returns a negative code before reaching the fork
    or aborts on its assertion; no fork is made and the attached
    subprocess stays attached. *)
Theorem open_disk_never_forks_while_attached (e : Env) (j : ptr) (w : World) :
  0 < AciPull.tar_pid (aci w) ->
  match aci_pull_job_on_open_disk e j w with
  | Ok r w' tr =>
      r < 0 /\ AciPull.tar_pid (aci w') = AciPull.tar_pid (aci w) /\
      forallb (fun x => negb (is_fork x)) tr = true
  | Crash _ tr => forallb (fun x => negb (is_fork x)) tr = true
  end.
Proof.
  intros Hpid. apply Z.leb_gt in Hpid.
  unfold aci_pull_job_on_open_disk.
  destruct w as [i js]. cbn [aci jobs] in *.
  destruct (js !! j) as [job|] eqn:Hj; [|mred; reflexivity].
  destruct (AciPull.final_path i) as [final|] eqn:Hfinal;
    destruct (AciPull.temp_path i) as [temp|] eqn:Htemp;
    destruct (alloc_ok e 0) eqn:Halloc; destruct (alloc_ok e 1) eqn:Halloc1;
    destruct (btrfs_subvol_make_r e <? 0) eqn:Hmake;
    mred; try reflexivity;
    rewrite ?Z.ltb_lt in *; unfold log_oom, log_error_errno, ENOMEM;
    (split; [lia|]); split; reflexivity.
Qed.

End OpenDiskEdges.

Lemma open_disk_reuses_staging_path_witness :
  exists r w',
    aci_pull_job_on_open_disk (H := linux_x86_64) env_ok 1%positive world_reaped
    = Ok r w'
         [import_fork_tar_x "/var/lib/machines/.aci-68b329da9893e34099c7d8ad5cb9c940.7"].
Proof.
  destruct (jobs world_reaped !! 1%positive) as [job|] eqn:Hj;
    [|vm_compute in Hj; discriminate Hj].
  do 2 eexists.
  apply (open_disk_reuses_staging_path (H := linux_x86_64) env_ok 1%positive job
           world_reaped "/var/lib/machines/.aci-68b329da9893e34099c7d8ad5cb9c940"
           "/var/lib/machines/.aci-68b329da9893e34099c7d8ad5cb9c940.7").
  - exact Hj.
  - reflexivity.
  - reflexivity.
  - vm_compute. discriminate.
Defined.

Lemma open_disk_result_witness :
  exists w' tr,
    aci_pull_job_on_open_disk (H := linux_x86_64) env_ok 1%positive world_started
    = Ok 0 w' tr /\
    AciPull.tar_pid (aci w') = 4242.
Proof.
  destruct (jobs world_started !! 1%positive) as [job|] eqn:Hj;
    [|vm_compute in Hj; discriminate Hj].
  destruct (open_disk_result (H := linux_x86_64) env_ok 1%positive job world_started)
    as (r & w' & tr & Hrun & _ & Hzero & _).
  - exact Hj.
  - vm_compute. discriminate.
  - assert (Hr : r = 0) by (vm_compute in Hrun; injection Hrun as <- _ _; reflexivity).
    subst r. exists w', tr. split; [exact Hrun|]. apply Hzero. reflexivity.
Defined.

Lemma open_disk_snapshot_failure_is_not_retried_witness :
  exists w1 r w2,
    aci_pull_job_on_open_disk (H := linux_x86_64) env_no_snapshot 1%positive world_started
    = Ok (-5) w1
         [mkdir_parents_label
            "/var/lib/machines/.aci-68b329da9893e34099c7d8ad5cb9c940.7" 448;
          btrfs_subvol_make "/var/lib/machines/.aci-68b329da9893e34099c7d8ad5cb9c940.7"] /\
    aci_pull_job_on_open_disk (H := linux_x86_64) env_ok 1%positive w1
    = Ok r w2
         [import_fork_tar_x "/var/lib/machines/.aci-68b329da9893e34099c7d8ad5cb9c940.7"].
Proof.
  destruct (jobs world_started !! 1%positive) as [job|] eqn:Hj;
    [|vm_compute in Hj; discriminate Hj].
  destruct (open_disk_snapshot_failure_is_not_retried (H := linux_x86_64) env_no_snapshot
              1%positive job world_started)
    as (w1 & temp & Hrun & _ & _ & _ & _ & Hnext & _).
  - exact Hj.
  - reflexivity.
  - reflexivity.
  - reflexivity.
  - reflexivity.
  - vm_compute. discriminate.
  - reflexivity.
  - destruct (Hnext env_ok) as (r & w2 & Hrun2).
    exists w1, r, w2.
    assert (Htemp : temp = "/var/lib/machines/.aci-68b329da9893e34099c7d8ad5cb9c940.7").
    { pose proof Hrun as Hc. vm_compute in Hc. injection Hc as _ Hc. symmetry.
      vm_compute. exact Hc. }
    subst temp. split; [exact Hrun|exact Hrun2].
Defined.

Lemma open_disk_never_forks_while_attached_witness :
  0 < AciPull.tar_pid (aci world_opened) /\
  match aci_pull_job_on_open_disk (H := linux_x86_64) env_ok 1%positive world_opened with
  | Ok r w' tr =>
      r < 0 /\ AciPull.tar_pid (aci w') = AciPull.tar_pid (aci world_opened) /\
      forallb (fun x => negb (is_fork x)) tr = true
  | Crash _ tr => forallb (fun x => negb (is_fork x)) tr = true
  end.
Proof.
  assert (Hpid : 0 < AciPull.tar_pid (aci world_opened)) by (vm_compute; reflexivity).
  split; [exact Hpid|].
  apply (open_disk_never_forks_while_attached (H := linux_x86_64) env_ok 1%positive
           world_opened Hpid).
Defined.

(** ** The progress hook *)

(** X14.  The progress hook picks the band by the identity of the job:
    the job of the simple-discovery slot reports in 0..50, otherwise the
    job of the meta-discovery slot reports in 50..55, and every other
    job is taken for the download job: what is published is then
    55 plus the rescaled progress of whatever job is in the download
    slot, or plain 55 when that slot is empty, and not the progress of
    the job that called. *)
Theorem on_progress_band_by_identity (j : ptr) (job : PullJob.t) (w : World) (p : Z) :
  jobs w !! j = Some job ->
  PullJob.progress_percent job = p ->
  0 <= p <= 100 ->
  (AciPull.simple_discovery_job (aci w) = Some j ->
   aci_pull_job_on_progress j w
   = Ok tt w [sd_notifyf false (progress_message (0 + p * 50 / 100))]) /\
  (AciPull.simple_discovery_job (aci w) <> Some j ->
   AciPull.meta_discovery_job (aci w) = Some j ->
   aci_pull_job_on_progress j w
   = Ok tt w [sd_notifyf false (progress_message (50 + p * 5 / 100))]) /\
  (AciPull.simple_discovery_job (aci w) <> Some j ->
   AciPull.meta_discovery_job (aci w) <> Some j ->
   (forall j' job' p',
      AciPull.download_job (aci w) = Some j' ->
      jobs w !! j' = Some job' ->
      PullJob.progress_percent job' = p' ->
      0 <= p' <= 100 ->
      aci_pull_job_on_progress j w
      = Ok tt w [sd_notifyf false (progress_message (55 + p' * 40 / 100))]) /\
   (AciPull.download_job (aci w) = None ->
    aci_pull_job_on_progress j w = Ok tt w [sd_notifyf false (progress_message 55)])).
Proof.
  intros Hj Hp Hr.
  assert (Hhook :
    aci_pull_job_on_progress j w
    = aci_pull_report_progress
        (if decide (Some j = AciPull.simple_discovery_job (aci w)) then ACI_SIMPLE_DISCOVERY
         else if decide (Some j = AciPull.meta_discovery_job (aci w)) then ACI_META_DISCOVERY
         else ACI_DOWNLOADING) w).
  { unfold aci_pull_job_on_progress. munfold. rewrite Hj. cbn.
    destruct (aci_pull_report_progress _ w); reflexivity. }
  subst p. split; [|split].
  - intros Hs. rewrite Hhook, decide_True by (symmetry; exact Hs).
    unfold aci_pull_report_progress, combined_percent.
    unfold mbind at 1 2, M_bind, get_aci. rewrite Hs.
    erewrite add_job_progress_live by (eauto; lia). reflexivity.
  - intros Hns Hm. rewrite Hhook, decide_False by congruence.
    rewrite decide_True by (symmetry; exact Hm).
    unfold aci_pull_report_progress, combined_percent.
    unfold mbind at 1 2, M_bind, get_aci. rewrite Hm.
    erewrite add_job_progress_live by (eauto; lia). reflexivity.
  - intros Hns Hnm. rewrite Hhook, !decide_False by congruence. split.
    + intros j' job' p' Hd Hj' Hp' Hr'. subst p'.
      unfold aci_pull_report_progress, combined_percent.
      unfold mbind at 1 2, M_bind, get_aci. rewrite Hd.
      erewrite add_job_progress_live by (eauto; lia). reflexivity.
    + intros Hd. unfold aci_pull_report_progress, combined_percent, add_job_progress.
      munfold. rewrite Hd. reflexivity.
Qed.

Lemma on_progress_band_by_identity_witness :
  aci_pull_job_on_progress 1%positive world_simple_at_40
  = Ok tt world_simple_at_40 [sd_notifyf false "X_IMPORT_PROGRESS=20"].
Proof.
  apply (on_progress_band_by_identity 1%positive
           (PullJob.with_progress_percent 40
              (PullJob.with_state PULL_JOB_RUNNING (PullJob.fresh "https://a")))
           world_simple_at_40 40).
  - reflexivity.
  - reflexivity.
  - lia.
  - reflexivity.
Defined.

(** ** The completion handler: edges *)

Section FinishedEdges.

Context `{Collaborators}.

(** X15.  A completion reported for a live job that is in none of the
    three slots aborts the handler on the spot: nothing has been called
    and no result is delivered. *)
Theorem on_finished_foreign_job_aborts (e : Env) (j : ptr) (job : PullJob.t) (w : World) :
  jobs w !! j = Some job ->
  foreign j w ->
  aci_pull_job_on_finished e j w
  = Crash "Got finished event for unknown curl object" [].
Proof.
  intros Hj Hforeign.
  pose proof (Hforeign SIMPLE_DISCOVERY_JOB) as Hs.
  pose proof (Hforeign META_DISCOVERY_JOB) as Hm.
  pose proof (Hforeign DOWNLOAD_JOB) as Hd. cbn [AciPull.slot] in Hs, Hm, Hd.
  rewrite aci_pull_job_on_finished_eq. unfold on_finished_dispatch. munfold.
  rewrite Hj. cbn. rewrite !decide_False by assumption. reflexivity.
Qed.

Lemma on_finished_copy_wait_irrelevant (e : Env) (j : ptr) (w : World) :
  0 <= wait_for_terminate_and_warn_r e ->
  on_finished_copy e j w
  = on_finished_copy (with_wait_for_terminate_and_warn_r 0 e) j w.
Proof.
  intros Hwait. apply Z.ltb_ge in Hwait.
  unfold on_finished_copy, aci_pull_make_local_copy, aci_pull_report_progress,
         combined_percent.
  destruct w as [i js]. cbn [aci jobs].
  destruct (js !! j) as [job|] eqn:Hj; [|mred; reflexivity].
  destruct (0 <? AciPull.tar_pid i) eqn:Hpid;
    destruct (AciPull.local i) eqn:Hlocal;
    destruct (AciPull.final_path i) eqn:Hfinal;
    destruct (alloc_ok e 0) eqn:Halloc;
    destruct (pull_make_local_copy_r e <? 0) eqn:Hcopy;
    mred; reflexivity.
Qed.

(** X16.  The exit status of the extraction subprocess is ignored: a
    non-negative result of [wait_for_terminate_and_warn], such as the
    status 1 of a failed [tar], leaves no trace.  The handler makes the
    same calls, leaves the same store and delivers the same code as when
    the result is 0. *)
Theorem on_finished_ignores_exit_status (e : Env) (j : ptr) (w : World) :
  0 <= wait_for_terminate_and_warn_r e ->
  aci_pull_job_on_finished e j w
  = aci_pull_job_on_finished (with_wait_for_terminate_and_warn_r 0 e) j w.
Proof.
  intros Hwait. rewrite !aci_pull_job_on_finished_eq.
  change (on_finished_dispatch (with_wait_for_terminate_and_warn_r 0 e) j w)
    with (on_finished_dispatch e j w).
  destruct (on_finished_dispatch e j w) as [[| |r] w1 tr1|why tr1]; try reflexivity.
  rewrite (on_finished_copy_wait_irrelevant e j w1 Hwait). reflexivity.
Qed.

(** X17.  When the download job fails the handler only delivers the
    error code of the job: the store is unchanged, so the pipe of the job
    is not closed and an extraction subprocess that is attached stays
    attached and running.  It is [aci_pull_unref] that kills and reaps
    it. *)
Theorem download_failure_leaves_subprocess (e : Env) (j : ptr) (job : PullJob.t)
    (w : World) :
  jobs w !! j = Some job ->
  AciPull.simple_discovery_job (aci w) <> Some j ->
  AciPull.meta_discovery_job (aci w) <> Some j ->
  AciPull.download_job (aci w) = Some j ->
  PullJob.error job < 0 ->
  aci_pull_job_on_finished e j w = Ok tt w [notification (aci w) (PullJob.error job)] /\
  (1 < AciPull.tar_pid (aci w) ->
   exists rest,
     snd (aci_pull_unref (Some w))
     = kill_and_sigcont (AciPull.tar_pid (aci w)) SIGKILL
       :: wait_for_terminate (AciPull.tar_pid (aci w)) :: rest).
Proof.
  intros Hj Hns Hnm Hd Herr. split.
  - rewrite aci_pull_job_on_finished_eq.
    rewrite (dispatch_failed e j job w) by auto. reflexivity.
  - intros Hpid. apply Z.ltb_lt in Hpid.
    cbn [aci_pull_unref snd]. rewrite Hpid. eexists. reflexivity.
Qed.

(** X18.  When waiting for the extraction subprocess fails, the handler
    delivers that code at once: no local copy is made even if one was
    requested, the subprocess is forgotten (so teardown will not signal
    it) and the staging snapshot stays until teardown. *)
Theorem copy_wait_failure_skips_local_copy (e : Env) (j : ptr) (job : PullJob.t)
    (w : World) :
  jobs w !! j = Some job ->
  AciPull.simple_discovery_job (aci w) = Some j \/
  (AciPull.meta_discovery_job (aci w) <> Some j /\ AciPull.download_job (aci w) = Some j) ->
  0 <= PullJob.error job ->
  0 < AciPull.tar_pid (aci w) ->
  wait_for_terminate_and_warn_r e < 0 ->
  aci_pull_job_on_finished e j w
  = Ok tt
       (mkWorld (AciPull.with_tar_pid 0 (aci w))
                (<[j := PullJob.with_disk_fd (-1) job]> (jobs w)))
       [sd_notifyf false (progress_message 95);
        safe_close (PullJob.disk_fd job);
        wait_for_terminate_and_warn "tar" (AciPull.tar_pid (aci w)) true;
        notification (aci w) (wait_for_terminate_and_warn_r e)].
Proof.
  intros Hj Hs Herr Hpid Hwait. apply Z.ltb_lt in Hpid, Hwait.
  rewrite aci_pull_job_on_finished_eq.
  rewrite (dispatch_copy e j job w) by assumption.
  unfold on_finished_copy, aci_pull_report_progress, combined_percent.
  destruct w as [i js]. cbn [aci jobs] in *. mred. reflexivity.
Qed.

(** X19.  When the job has succeeded and a local name was requested, the
    local copy is made exactly once, after the subprocess has been waited
    for, from the staging path and with the image root, local name and
    force flag recorded in the session.  The code delivered is the
    result of [pull_make_local_copy] if it is negative and 0
    otherwise. *)
Theorem copy_makes_local_copy_after_wait (e : Env) (j : ptr) (job : PullJob.t)
    (w : World) (local base : string) :
  jobs w !! j = Some job ->
  AciPull.simple_discovery_job (aci w) = Some j \/
  (AciPull.meta_discovery_job (aci w) <> Some j /\ AciPull.download_job (aci w) = Some j) ->
  0 <= PullJob.error job ->
  AciPull.local (aci w) = Some local ->
  AciPull.final_path (aci w) = Some base ->
  0 < AciPull.tar_pid (aci w) ->
  0 <= wait_for_terminate_and_warn_r e ->
  aci_pull_job_on_finished e j w
  = Ok tt
       (mkWorld (AciPull.with_tar_pid 0 (aci w))
                (<[j := PullJob.with_disk_fd (-1) job]> (jobs w)))
       [sd_notifyf false (progress_message 95);
        safe_close (PullJob.disk_fd job);
        wait_for_terminate_and_warn "tar" (AciPull.tar_pid (aci w)) true;
        pull_make_local_copy (AciPull.temp_path (aci w)) (AciPull.image_root (aci w))
          (Some local) (AciPull.force_local (aci w));
        notification (aci w)
          (if pull_make_local_copy_r e <? 0 then pull_make_local_copy_r e else 0)].
Proof.
  intros Hj Hs Herr Hlocal Hfinal Hpid Hwait. apply Z.ltb_lt in Hpid. apply Z.ltb_ge in Hwait.
  rewrite aci_pull_job_on_finished_eq.
  rewrite (dispatch_copy e j job w) by assumption.
  unfold on_finished_copy, aci_pull_make_local_copy, aci_pull_report_progress,
         combined_percent.
  destruct w as [i js]. cbn [aci jobs] in *.
  destruct (pull_make_local_copy_r e <? 0) eqn:Hcopy; mred; reflexivity.
Qed.

Lemma slot_job_with_new_job (s : Slot) (job : PullJob.t) (w : World) :
  slot_job s (with_new_job s job w) = Some job.
Proof.
  unfold slot_job, with_new_job. cbn [aci jobs]. rewrite slot_with_slot.
  rewrite decide_True by reflexivity. cbn. apply lookup_insert_eq.
Qed.

(** X20.  The three jobs of a session are set up differently.  The
    simple-discovery job fetches the URL built from the request and gets
    all three hooks, but never the grow flag of the session.  The
    meta-discovery job fetches the fixed meta-discovery URL, has no
    disk-open hook and inherits the grow flag.  The download job fetches
    one fixed URL, whatever was requested and whatever meta discovery
    returned, gets all three hooks and inherits the grow flag. *)
Theorem job_setup_by_slot :
  (forall e name tag local force_local w,
     aci_name_is_valid name = true ->
     (forall l, local = Some l -> machine_name_is_valid l = true) ->
     AciPull.simple_discovery_job (aci w) = None ->
     alloc_ok e 0 = true ->
     alloc_ok e 1 = true ->
     0 <= pull_job_new_r e ->
     exists r w' tr job,
       aci_pull_start e name tag local force_local w = Ok r w' tr /\
       slot_job SIMPLE_DISCOVERY_JOB w' = Some job /\
       PullJob.url job = simple_discovery_url name tag /\
       PullJob.on_finished job = Some hook_aci_pull_job_on_finished /\
       PullJob.on_open_disk job = Some hook_aci_pull_job_on_open_disk /\
       PullJob.on_progress job = Some hook_aci_pull_job_on_progress /\
       PullJob.grow_machine_directory job = false) /\
  (forall e j job0 w,
     jobs w !! j = Some job0 ->
     AciPull.simple_discovery_job (aci w) = Some j ->
     PullJob.error job0 < 0 ->
     0 <= pull_job_new_r e ->
     exists w' tr job,
       aci_pull_job_on_finished e j w = Ok tt w' tr /\
       slot_job META_DISCOVERY_JOB w' = Some job /\
       PullJob.url job = META_DISCOVERY_URL /\
       PullJob.on_finished job = Some hook_aci_pull_job_on_finished /\
       PullJob.on_open_disk job = None /\
       PullJob.on_progress job = Some hook_aci_pull_job_on_progress /\
       PullJob.grow_machine_directory job = AciPull.grow_machine_directory (aci w)) /\
  (forall e j job0 w,
     jobs w !! j = Some job0 ->
     AciPull.simple_discovery_job (aci w) <> Some j ->
     AciPull.meta_discovery_job (aci w) = Some j ->
     0 <= PullJob.error job0 ->
     0 <= pull_job_new_r e ->
     exists w' tr job,
       aci_pull_job_on_finished e j w = Ok tt w' tr /\
       slot_job DOWNLOAD_JOB w' = Some job /\
       PullJob.url job = DOWNLOAD_URL /\
       PullJob.on_finished job = Some hook_aci_pull_job_on_finished /\
       PullJob.on_open_disk job = Some hook_aci_pull_job_on_open_disk /\
       PullJob.on_progress job = Some hook_aci_pull_job_on_progress /\
       PullJob.grow_machine_directory job = AciPull.grow_machine_directory (aci w)).
Proof.
  split; [|split].
  - intros e name tag local force_local w Hname Hlocal Hidle Ha0 Ha1 Hnew.
    rewrite start_passes_validation by assumption. cbv zeta.
    apply Z.ltb_ge in Hnew. rewrite Hnew.
    destruct (pull_job_begin_r e <? 0);
      do 4 eexists; (split; [reflexivity|]); split;
      first [ unfold slot_job;
              cbn [aci jobs AciPull.slot AciPull.simple_discovery_job
                   AciPull.with_simple_discovery_job mbind option_bind];
              apply lookup_insert_eq
            | repeat split; reflexivity ].
  - intros e j job0 w Hj Hs Herr Hnew.
    rewrite aci_pull_job_on_finished_eq.
    rewrite (dispatch_simple_failed e j job0 w) by assumption.
    apply Z.ltb_ge in Hnew. rewrite Hnew.
    destruct (pull_job_begin_r e <? 0) eqn:Hbegin;
      do 3 eexists; (split; [reflexivity|]);
      (split; [apply slot_job_with_new_job|]);
      unfold begun, reaped; rewrite Hbegin; case_match; repeat split; reflexivity.
  - intros e j job0 w Hj Hns Hm Herr Hnew.
    rewrite aci_pull_job_on_finished_eq.
    rewrite (dispatch_meta_succeeded e j job0 w) by assumption.
    apply Z.ltb_ge in Hnew. rewrite Hnew.
    destruct (pull_job_begin_r e <? 0) eqn:Hbegin;
      do 3 eexists; (split; [reflexivity|]);
      (split; [apply slot_job_with_new_job|]);
      unfold begun; rewrite Hbegin; repeat split; reflexivity.
Qed.

End FinishedEdges.

Lemma on_finished_foreign_job_aborts_witness :
  aci_pull_job_on_finished env_ok 9%positive world_foreign_job
  = Crash "Got finished event for unknown curl object" [].
Proof.
  apply (on_finished_foreign_job_aborts env_ok 9%positive
           (PullJob.fresh "https://a") world_foreign_job).
  - reflexivity.
  - intros []; cbn; discriminate.
Defined.

Lemma on_finished_ignores_exit_status_witness :
  exists w' tr,
    aci_pull_job_on_finished env_tar_fails 1%positive world_simple_done
    = Ok tt w' tr /\
    last tr = Some (sd_event_exit (Some 1%positive) 0).
Proof.
  rewrite (on_finished_ignores_exit_status env_tar_fails 1%positive
             world_simple_done);
    [|vm_compute; discriminate].
  do 2 eexists. split; [vm_compute; reflexivity|reflexivity].
Defined.

Lemma download_failure_leaves_subprocess_witness :
  aci_pull_job_on_finished env_ok 3%positive world_download_failed
  = Ok tt world_download_failed [sd_event_exit (Some 1%positive) (-5)] /\
  exists rest,
    snd (aci_pull_unref (Some world_download_failed))
    = kill_and_sigcont 4242 SIGKILL :: wait_for_terminate 4242 :: rest.
Proof.
  destruct (download_failure_leaves_subprocess env_ok 3%positive
              (PullJob.with_error (-5)
                 (PullJob.with_state PULL_JOB_FAILED
                    (download_job_of DOWNLOAD_URL (new_session None))))
              world_download_failed)
    as [Hrun Hkill].
  - reflexivity.
  - discriminate.
  - discriminate.
  - reflexivity.
  - reflexivity.
  - split; [exact Hrun|]. apply Hkill. reflexivity.
Defined.

Lemma copy_wait_failure_skips_local_copy_witness :
  exists w',
    aci_pull_job_on_finished env_no_wait 1%positive
      world_simple_done_local
    = Ok tt w'
         [sd_notifyf false "X_IMPORT_PROGRESS=95"; safe_close (-1);
          wait_for_terminate_and_warn "tar" 4242 true;
          sd_event_exit (Some 1%positive) (-10)].
Proof.
  eexists.
  apply (copy_wait_failure_skips_local_copy env_no_wait 1%positive
           (PullJob.with_progress_percent 100
              (PullJob.with_state PULL_JOB_DONE
                 (simple_discovery_job_of "https://example-v2.0.0-linux-amd64.aci")))
           world_simple_done_local).
  - reflexivity.
  - left. reflexivity.
  - vm_compute. discriminate.
  - reflexivity.
  - reflexivity.
Defined.

Lemma copy_makes_local_copy_after_wait_witness :
  exists w',
    aci_pull_job_on_finished env_ok 1%positive world_simple_done_local
    = Ok tt w'
         [sd_notifyf false "X_IMPORT_PROGRESS=95"; safe_close (-1);
          wait_for_terminate_and_warn "tar" 4242 true;
          pull_make_local_copy (Some "/var/lib/machines/.aci-x.7")
            (Some "/var/lib/machines") (Some "box") false;
          sd_event_exit (Some 1%positive) 0].
Proof.
  eexists.
  apply (copy_makes_local_copy_after_wait env_ok 1%positive
           (PullJob.with_progress_percent 100
              (PullJob.with_state PULL_JOB_DONE
                 (simple_discovery_job_of "https://example-v2.0.0-linux-amd64.aci")))
           world_simple_done_local "box" "/var/lib/machines/.aci-x").
  - reflexivity.
  - left. reflexivity.
  - vm_compute. discriminate.
  - reflexivity.
  - reflexivity.
  - reflexivity.
  - vm_compute. discriminate.
Defined.

Lemma job_setup_by_slot_witness :
  exists w' tr job,
    aci_pull_job_on_finished env_ok 2%positive world_meta_done
    = Ok tt w' tr /\
    slot_job DOWNLOAD_JOB w' = Some job /\
    PullJob.url job = DOWNLOAD_URL /\
    PullJob.grow_machine_directory job = true.
Proof.
  destruct (job_setup_by_slot (H := linux_x86_64)) as (_ & _ & Hdownload).
  destruct (Hdownload env_ok 2%positive
              (PullJob.with_progress_percent 100
                 (PullJob.with_state PULL_JOB_DONE
                    (meta_discovery_job_of (new_session None))))
              world_meta_done)
    as (w' & tr & job & Hrun & Hslot & Hurl & _ & _ & _ & Hgrow).
  - reflexivity.
  - discriminate.
  - reflexivity.
  - vm_compute. discriminate.
  - vm_compute. discriminate.
  - exists w', tr, job. repeat split; assumption.
Defined.

(** ** One job at a time, one result per session *)

Lemma Inv_one_active (w : World) (tr : list Effect) (j j' : ptr) (job job' : PullJob.t) :
  Inv w tr ->
  jobs w !! j = Some job -> PullJob.active job = true ->
  jobs w !! j' = Some job' -> PullJob.active job' = true ->
  j = j'.
Proof.
  intros HI Hj Hact Hj' Hact'.
  pose proof (inv_wf _ _ HI) as Hwf.
  destruct (wf_job_slot w Hwf j (mk_is_Some _ _ Hj)) as [s Hs].
  destruct (wf_job_slot w Hwf j' (mk_is_Some _ _ Hj')) as [s' Hs'].
  pose proof (Inv_active_seq _ _ _ _ _ HI Hs Hj Hact) as Hseq.
  pose proof (Inv_active_seq _ _ _ _ _ HI Hs' Hj' Hact') as Hseq'.
  destruct s, s'; cbn [AciPull.slot] in *;
    repeat match goal with H : _ /\ _ |- _ => destruct H end; congruence.
Qed.

Lemma Inv_job_simple (w : World) (tr : list Effect) (p : ptr) (job : PullJob.t) :
  Inv w tr -> jobs w !! p = Some job ->
  is_Some (AciPull.simple_discovery_job (aci w)).
Proof.
  intros HI Hp. pose proof (inv_wf _ _ HI) as Hwf.
  assert (Hsimple : is_Some (slot_job SIMPLE_DISCOVERY_JOB w) ->
                    is_Some (AciPull.simple_discovery_job (aci w))).
  { intros Hs. apply (slot_job_is_Some SIMPLE_DISCOVERY_JOB w Hwf) in Hs. exact Hs. }
  assert (Hmeta : is_Some (slot_job META_DISCOVERY_JOB w) ->
                  is_Some (AciPull.simple_discovery_job (aci w))).
  { intros Hm. apply Hsimple. pose proof (inv_meta _ _ HI Hm) as Hf.
    unfold slot_failed in Hf. destruct (slot_job SIMPLE_DISCOVERY_JOB w); [eauto|discriminate]. }
  destruct (wf_job_slot w Hwf p (mk_is_Some _ _ Hp)) as [s Hs].
  pose proof (slot_job_Some _ _ _ _ Hs Hp) as Hjob.
  destruct s; cbn [AciPull.slot] in Hs.
  - rewrite Hs. eauto.
  - apply Hmeta. eauto.
  - apply Hmeta. pose proof (inv_download _ _ HI (mk_is_Some _ _ Hjob)) as Hsucc.
    unfold slot_succeeded in Hsucc.
    destruct (slot_job META_DISCOVERY_JOB w); [eauto|discriminate].
Qed.

Lemma count_no_notification (tr : list Effect) :
  no_notification tr -> count is_notification tr = 0%nat.
Proof.
  unfold no_notification. induction tr as [|x tr IH]; [reflexivity|].
  cbn [forallb count]. intros [Hx Htr]%andb_prop.
  destruct (is_notification x); [discriminate|]. rewrite (IH Htr). reflexivity.
Qed.

Lemma count_notification_snoc (tr0 : list Effect) (i : AciPull.t) (r : Z) :
  no_notification tr0 -> count is_notification (tr0 ++ [notification i r]) = 1%nat.
Proof.
  intros Hno. rewrite count_app, (count_no_notification _ Hno). cbn [count].
  unfold notification. destruct (AciPull.on_finished i); reflexivity.
Qed.

Lemma quiescent_insert (w : World) (i : AciPull.t) (p : ptr) (job : PullJob.t) :
  quiescent w -> PullJob.active job = false ->
  quiescent (mkWorld i (<[p := job]> (jobs w))).
Proof.
  intros Hq Hjob q job' Hlook. cbn [jobs] in Hlook.
  apply lookup_insert_Some in Hlook as [[_ <-]|[_ Hlook]]; [exact Hjob|eauto].
Qed.

(** The completion handler, called in a session in which no job is
    active any more, delivers at most one result; when it delivers one
    the session is still quiescent. *)
Lemma on_finished_notifies_once (e : Env) (j : ptr) (job : PullJob.t) (w : World) :
  jobs w !! j = Some job ->
  (exists s, AciPull.slot s (aci w) = Some j) ->
  quiescent w ->
  exists w' tr,
    aci_pull_job_on_finished e j w = Ok tt w' tr /\
    (count is_notification tr <= 1)%nat /\
    (count is_notification tr = 1%nat -> quiescent w').
Proof.
  intros Hj [s Hs] Hq.
  assert (Hqr : quiescent (reaped w)).
  { unfold reaped. case_match; exact Hq. }
  assert (Hinit : forall job0 : PullJob.t,
            PullJob.state job0 = PULL_JOB_INIT -> PullJob.active job0 = false).
  { intros job0 Hst. unfold PullJob.active. rewrite Hst. reflexivity. }
  rewrite aci_pull_job_on_finished_eq.
  destruct (Z.lt_ge_cases (PullJob.error job) 0) as [Herr|Herr];
    destruct (decide (AciPull.simple_discovery_job (aci w) = Some j)) as [Hsimple|Hns];
    [| | |destruct (decide (AciPull.meta_discovery_job (aci w) = Some j)) as [Hmeta|Hnm]].
  - rewrite (dispatch_simple_failed e j job w) by assumption.
    destruct (pull_job_new_r e <? 0) eqn:Hnew;
      [|destruct (pull_job_begin_r e <? 0) eqn:Hbegin];
      do 2 eexists; (split; [reflexivity|]).
    + rewrite count_notification_snoc by (apply no_notification_reap_calls; reflexivity).
      split; [lia|]. intros _. exact Hqr.
    + rewrite count_notification_snoc by (apply no_notification_reap_calls; reflexivity).
      split; [lia|]. intros _. unfold with_new_job.
      apply quiescent_insert; [exact Hqr|]. unfold begun. rewrite Hbegin.
      apply Hinit. reflexivity.
    + rewrite count_no_notification by (apply no_notification_reap_calls; reflexivity).
      split; [lia|]. discriminate.
  - rewrite (dispatch_failed e j job w); try assumption.
    + do 2 eexists. split; [reflexivity|].
      rewrite (count_notification_snoc []) by reflexivity. split; [lia|]. intros _. exact Hq.
    + destruct s; cbn [AciPull.slot] in Hs; [contradiction|left|right]; exact Hs.
  - rewrite (dispatch_copy e j job w) by auto.
    destruct (on_finished_copy_spec e j job w Hj) as (r & fp & copied & -> & _ & _).
    do 2 eexists. split; [reflexivity|]. rewrite app_nil_l.
    rewrite count_notification_snoc
      by (unfold no_notification; destruct (0 <? AciPull.tar_pid (aci w)), copied; reflexivity).
    split; [lia|]. intros _. apply quiescent_insert; [exact Hq|].
    rewrite <- (Hq j job Hj). reflexivity.
  - rewrite (dispatch_meta_succeeded e j job w) by assumption.
    destruct (pull_job_new_r e <? 0) eqn:Hnew;
      [|destruct (pull_job_begin_r e <? 0) eqn:Hbegin];
      do 2 eexists; (split; [reflexivity|]).
    + rewrite (count_notification_snoc [_]) by reflexivity.
      split; [lia|]. intros _. exact Hq.
    + rewrite (count_notification_snoc [_; _]) by reflexivity.
      split; [lia|]. intros _. unfold with_new_job.
      apply quiescent_insert; [exact Hq|]. unfold begun. rewrite Hbegin.
      apply Hinit. reflexivity.
    + split; [cbn; lia|]. cbn. discriminate.
  - rewrite (dispatch_copy e j job w);
      [|assumption
       |right; split; [assumption|];
        destruct s; cbn [AciPull.slot] in Hs; [contradiction|contradiction|exact Hs]
       |assumption].
    destruct (on_finished_copy_spec e j job w Hj) as (r & fp & copied & -> & _ & _).
    do 2 eexists. split; [reflexivity|]. rewrite app_nil_l.
    rewrite count_notification_snoc
      by (unfold no_notification; destruct (0 <? AciPull.tar_pid (aci w)), copied; reflexivity).
    split; [lia|]. intros _. apply quiescent_insert; [exact Hq|].
    rewrite <- (Hq j job Hj). reflexivity.
Qed.

Section OneResult.

Context `{Collaborators}.

(** The events other than a completion deliver no result. *)
Lemma deliver_quiet (e : Env) (ev : Event) (w : World) (res : Res unit) :
  deliver e ev w = Some res ->
  (forall j ret, ev <> EvFinished j ret) ->
  no_notification (log_of res).
Proof.
  intros Hdel Hev.
  assert (Hquiet : forall P : Effect -> Prop,
            (forall x, P x -> is_notification x = false) ->
            Forall P (log_of res) -> no_notification (log_of res)).
  { intros P HP Hall. unfold no_notification. apply forallb_forall.
    intros x Hx. rewrite Forall_forall in Hall.
    rewrite (HP x (Hall x (proj2 (list_elem_of_In _ _) Hx))). reflexivity. }
  destruct ev as [name tag local force_local|j|j percent|j ret]; cbn [deliver] in Hdel.
  - injection Hdel as <-.
    apply (Hquiet (fun x => is_start_call x = true));
      [intros x; destruct x; try discriminate; reflexivity|].
    apply (respects_log session_step any).
    eapply respects_seq with (Q := any);
      [exact session_step_trans|apply start_respects
      |intros; apply respects_ret; [exact session_step_refl|exact I]].
  - destruct (jobs w !! j) as [job|]; [|discriminate].
    case_decide; [|discriminate]. injection Hdel as <-.
    apply (Hquiet (fun x => is_staging_call x = true));
      [intros x; destruct x; try discriminate; reflexivity|].
    apply (respects_log session_step any).
    eapply respects_seq with (Q := any);
      [exact session_step_trans| |intros; apply respects_modify_job; rside].
    apply respects_run_hook; [exact session_step_refl|exact session_step_trans|].
    eapply respects_impl; [| | |apply on_open_disk_respects]; unfold any; auto.
  - destruct (jobs w !! j) as [job|]; [|discriminate].
    destruct (PullJob.active job); [|discriminate]. injection Hdel as <-.
    apply (Hquiet (fun x => is_progress_call x = true));
      [intros x; destruct x; try discriminate; reflexivity|].
    apply (respects_log session_step any).
    eapply respects_seq with (Q := any);
      [exact session_step_trans|apply respects_modify_job; rside|intros].
    apply respects_run_hook; [exact session_step_refl|exact session_step_trans|].
    apply on_progress_respects.
  - exfalso. exact (Hev j ret eq_refl).
Qed.

Lemma deliver_delivered_once (e : Env) (ev : Event) (w w' : World) (tr tr' : list Effect) :
  Inv w tr ->
  delivered_once w tr ->
  deliver e ev w = Some (Ok tt w' tr') ->
  Inv w' (tr ++ tr') ->
  delivered_once w' (tr ++ tr').
Proof.
  intros HI [Hle Hone] Hdel HI'.
  assert (Hactive : forall j job,
            jobs w !! j = Some job -> PullJob.active job = true ->
            count is_notification tr = 0%nat).
  { intros j job Hj Hact. destruct (count is_notification tr) as [|[|n]]; [reflexivity| |lia].
    destruct (Hone eq_refl) as [Hq _]. rewrite (Hq j job Hj) in Hact. discriminate Hact. }
  assert (Hquiet : no_notification tr' -> count is_notification tr = 0%nat ->
                   delivered_once w' (tr ++ tr')).
  { intros Hno H0. unfold delivered_once.
    rewrite count_app, H0, (count_no_notification _ Hno). split; [lia|discriminate]. }
  destruct ev as [name tag local force_local|j|j percent|j ret].
  - destruct (count is_notification tr) as [|[|n]] eqn:Hcount; [| |lia].
    + apply Hquiet; [|reflexivity].
      apply (deliver_quiet _ _ _ _ Hdel). discriminate.
    + destruct (Hone eq_refl) as [Hq Hbusy].
      destruct (start_when_busy e name tag local force_local w Hbusy) as (r & Hstart & _).
      cbn [deliver] in Hdel. unfold mbind, M_bind in Hdel. rewrite Hstart in Hdel.
      cbn in Hdel. injection Hdel as <- <-. rewrite app_nil_r.
      split; [lia|]. intros _. split; assumption.
  - apply Hquiet; [apply (deliver_quiet _ _ _ _ Hdel); discriminate|].
    cbn [deliver] in Hdel. destruct (jobs w !! j) as [job|] eqn:Hj; [|discriminate].
    case_decide as Hst; [|discriminate].
    apply (Hactive j job Hj). unfold PullJob.active. rewrite Hst. reflexivity.
  - apply Hquiet; [apply (deliver_quiet _ _ _ _ Hdel); discriminate|].
    cbn [deliver] in Hdel. destruct (jobs w !! j) as [job|] eqn:Hj; [|discriminate].
    destruct (PullJob.active job) eqn:Hact; [|discriminate].
    exact (Hactive j job Hj Hact).
  - cbn [deliver] in Hdel. destruct (jobs w !! j) as [job|] eqn:Hj; [|discriminate].
    destruct (PullJob.active job) eqn:Hact; [|discriminate].
    pose proof (Hactive j job Hj Hact) as H0.
    pose proof (inv_wf _ _ HI) as Hwf.
    destruct (wf_job_slot w Hwf j (mk_is_Some _ _ Hj)) as [s0 Hs0].
    pose proof (slot_job_Some _ _ _ _ Hs0 Hj) as Hjob.
    destruct (inv_hook _ _ HI _ _ Hjob (active_not_init _ Hact)) as [hook Hhook].
    destruct (finished_job_facts ret job) as (Hc & _).
    assert (Hq1 : quiescent (mkWorld (aci w) (<[j := finished_job ret job]> (jobs w)))).
    { intros p job' Hp. cbn [jobs] in Hp.
      apply lookup_insert_Some in Hp as [[_ <-]|[Hne Hp]].
      - destruct (PullJob.active (finished_job ret job)) eqn:Hf; [|reflexivity].
        rewrite (active_not_completed _ Hf) in Hc. discriminate Hc.
      - destruct (PullJob.active job') eqn:Hact'; [|reflexivity].
        exfalso. apply Hne.
        exact (Inv_one_active _ _ _ _ _ _ HI Hj Hact Hp Hact'). }
    destruct (on_finished_notifies_once e j (finished_job ret job)
                (mkWorld (aci w) (<[j := finished_job ret job]> (jobs w))))
      as (w2 & tr2 & Hrun & Hle2 & Hone2);
      [apply lookup_insert_eq|exists s0; exact Hs0|exact Hq1|].
    assert (Hexpr :
      ((if decide (ret = 0)
        then modify_job j (fun x => PullJob.with_progress_percent 100
                                      (PullJob.with_state PULL_JOB_DONE x))
        else modify_job j (fun x => PullJob.with_error ret
                                      (PullJob.with_state PULL_JOB_FAILED x)));;
       run_hook (PullJob.on_finished job) (aci_pull_job_on_finished e j)) w
      = Ok tt w2 tr2).
    { unfold run_hook. rewrite Hhook. unfold finished_job in Hrun.
      case_decide; mred; rewrite Hrun; rewrite app_nil_r; reflexivity. }
    injection Hdel as Hdel. rewrite Hexpr in Hdel. injection Hdel as <- <-.
    unfold delivered_once.
    rewrite count_app, H0. cbn [Nat.add]. split; [exact Hle2|].
    intros Hc2. split; [exact (Hone2 Hc2)|].
    destruct (deliver_respects e (EvFinished j ret) w (Ok tt w2 tr2)) as [[_ Hdom] _].
    { cbn [deliver]. rewrite Hj, Hact. f_equal. exact Hexpr. }
    assert (Hlive : is_Some (jobs w2 !! j)).
    { apply elem_of_dom, Hdom, elem_of_dom. eauto. }
    destruct Hlive as [job2 Hjob2].
    exact (Inv_job_simple _ _ _ _ HI' Hjob2).
Qed.

Lemma run_delivered_once (script : list (Env * Event)) :
  forall (w : World) (tr : list Effect) (res : Res unit),
  Inv w tr ->
  delivered_once w tr ->
  script_fork_ok script ->
  run script w = Some res ->
  exists w' tr',
    res = Ok tt w' tr' /\ Inv w' (tr ++ tr') /\ delivered_once w' (tr ++ tr').
Proof.
  induction script as [|[e ev] script IH]; intros w tr res HI HD Hfork Hrun.
  - cbn in Hrun. injection Hrun as <-. exists w, []. rewrite app_nil_r. auto.
  - cbn [run] in Hrun.
    apply Forall_cons in Hfork as [Hfe Hfork]. cbn [fst] in Hfe.
    destruct (deliver e ev w) as [res1|] eqn:Hdel; [|discriminate].
    destruct (deliver_ok e ev w tr res1 HI Hfe Hdel) as (w1 & tr1 & -> & HI1 & _).
    pose proof (deliver_delivered_once _ _ _ _ _ _ HI HD Hdel HI1) as HD1.
    destruct (run script w1) as [res2|] eqn:Hrest; [|discriminate].
    destruct (IH w1 (tr ++ tr1) res2 HI1 HD1 Hfork Hrest) as (w2 & tr2 & -> & HI2 & HD2).
    injection Hrun as <-. exists w2, (tr1 ++ tr2). rewrite app_assoc. auto.
Qed.

(** X21.  The result of a pull is delivered at most once per session.
    Once it has been delivered no job of the session is active any more,
    so no further callback will arrive, and the session stays busy: every
    later [aci_pull_start] is rejected and changes nothing. *)
Theorem result_delivered_at_most_once (e0 : Env) (event : option ptr)
    (image_root : option string) (callback : option ptr) (userdata : Z)
    (w0 : World) (tr0 : list Effect) (script : list (Env * Event)) (res : Res unit) :
  aci_pull_new e0 event image_root callback userdata = (0, Some w0, tr0) ->
  script_fork_ok script ->
  run script w0 = Some res ->
  exists w tr,
    res = Ok tt w tr /\
    (count is_notification tr <= 1)%nat /\
    (count is_notification tr = 1%nat ->
     quiescent w /\
     forall e name tag local force_local,
       exists r, aci_pull_start e name tag local force_local w = Ok r w [] /\
                 (r = - EINVAL \/ r = - EBUSY)).
Proof.
  intros Hnew Hfork Hrun.
  destruct (Inv_new_session _ _ _ _ _ _ _ Hnew) as (HI & _).
  destruct (run_delivered_once script w0 [] res HI) as (w & tr & -> & _ & Hle & Hone);
    [split; [cbn; lia|discriminate]|exact Hfork|exact Hrun|].
  exists w, tr. split; [reflexivity|]. split; [exact Hle|].
  intros Hc. destruct (Hone Hc) as [Hq Hbusy]. split; [exact Hq|].
  intros. apply start_when_busy. exact Hbusy.
Qed.

(** X22.  The jobs of a session run one at a time: in every state a
    session reaches, at most one job is active. *)
Theorem jobs_run_one_at_a_time (e0 : Env) (event : option ptr)
    (image_root : option string) (callback : option ptr) (userdata : Z)
    (w0 : World) (tr0 : list Effect) (script : list (Env * Event)) (res : Res unit) :
  aci_pull_new e0 event image_root callback userdata = (0, Some w0, tr0) ->
  script_fork_ok script ->
  run script w0 = Some res ->
  exists w tr,
    res = Ok tt w tr /\
    forall j j' job job',
      jobs w !! j = Some job -> PullJob.active job = true ->
      jobs w !! j' = Some job' -> PullJob.active job' = true ->
      j = j'.
Proof.
  intros Hnew Hfork Hrun.
  destruct (Inv_new_session _ _ _ _ _ _ _ Hnew) as (HI & _).
  destruct (run_ok script w0 [] res HI Hfork Hrun) as (w & tr & -> & HI' & _).
  exists w, tr. split; [reflexivity|].
  intros j j' job job'. apply (Inv_one_active _ _ _ _ _ _ HI').
Qed.

Lemma unref_count (w : World) (p : ptr) :
  count (is_unref_of p) (snd (aci_pull_unref (Some w)))
  = (Nat.b2n (bool_decide (AciPull.simple_discovery_job (aci w) = Some p))
     + Nat.b2n (bool_decide (AciPull.meta_discovery_job (aci w) = Some p))
     + Nat.b2n (bool_decide (AciPull.download_job (aci w) = Some p)))%nat.
Proof.
  assert (Hone : forall slot : option ptr,
            is_unref_of p (pull_job_unref slot)
            = bool_decide (slot = Some p)).
  { intros [q|]; cbn; [|reflexivity].
    destruct (decide (q = p)) as [->|Hne].
    - rewrite !bool_decide_eq_true_2; reflexivity.
    - rewrite !bool_decide_eq_false_2; congruence. }
  cbn [aci_pull_unref snd]. rewrite !count_app.
  replace (count (is_unref_of p)
             (if 1 <? AciPull.tar_pid (aci w)
              then [kill_and_sigcont (AciPull.tar_pid (aci w)) SIGKILL;
                    wait_for_terminate (AciPull.tar_pid (aci w))]
              else [])) with 0%nat by (case_match; reflexivity).
  replace (count (is_unref_of p)
             match AciPull.temp_path (aci w) with
             | Some p0 => [btrfs_subvol_remove p0; rm_rf_dangerous p0 false true false]
             | None => []
             end) with 0%nat by (case_match; reflexivity).
  cbn [count]. rewrite !Hone. cbn [is_unref_of].
  repeat case_bool_decide; cbn; reflexivity.
Qed.

(** X23.  Teardown releases every job of the session exactly once, and
    releases no job that is not live: no job is leaked and none is
    released twice, in every state a session reaches. *)
Theorem teardown_releases_each_job_once (e0 : Env) (event : option ptr)
    (image_root : option string) (callback : option ptr) (userdata : Z)
    (w0 : World) (tr0 : list Effect) (script : list (Env * Event)) (res : Res unit) :
  aci_pull_new e0 event image_root callback userdata = (0, Some w0, tr0) ->
  script_fork_ok script ->
  run script w0 = Some res ->
  exists w tr,
    res = Ok tt w tr /\
    forall p,
      count (is_unref_of p) (snd (aci_pull_unref (Some w)))
      = if bool_decide (is_Some (jobs w !! p)) then 1%nat else 0%nat.
Proof.
  intros Hnew Hfork Hrun.
  destruct (Inv_new_session _ _ _ _ _ _ _ Hnew) as (HI & _).
  destruct (run_ok script w0 [] res HI Hfork Hrun) as (w & tr & -> & HI' & _).
  exists w, tr. split; [reflexivity|]. intros p.
  pose proof (inv_wf _ _ HI') as Hwf. rewrite unref_count.
  pose proof (wf_slot_inj w Hwf) as Hinj.
  pose proof (wf_slot_live w Hwf) as Hlive.
  destruct (decide (is_Some (jobs w !! p))) as [Hp|Hp];
    [rewrite (bool_decide_eq_true_2 _ Hp)|rewrite (bool_decide_eq_false_2 _ Hp)].
  - destruct (wf_job_slot w Hwf p Hp) as [s Hs].
    assert (Hother : forall s', s' <> s -> AciPull.slot s' (aci w) <> Some p).
    { intros s' Hne Hs'. apply Hne. exact (Hinj _ _ _ Hs' Hs). }
    pose proof (Hother SIMPLE_DISCOVERY_JOB) as H1.
    pose proof (Hother META_DISCOVERY_JOB) as H2.
    pose proof (Hother DOWNLOAD_JOB) as H3.
    destruct s; cbn [AciPull.slot] in *;
      try specialize (H1 ltac:(discriminate));
      try specialize (H2 ltac:(discriminate));
      try specialize (H3 ltac:(discriminate));
      rewrite (bool_decide_eq_true_2 _ Hs), !bool_decide_eq_false_2 by assumption;
      reflexivity.
  - assert (Hnone : forall s, AciPull.slot s (aci w) <> Some p).
    { intros s Hs. apply Hp. exact (Hlive _ _ Hs). }
    pose proof (Hnone SIMPLE_DISCOVERY_JOB) as H1.
    pose proof (Hnone META_DISCOVERY_JOB) as H2.
    pose proof (Hnone DOWNLOAD_JOB) as H3. cbn [AciPull.slot] in *.
    rewrite !bool_decide_eq_false_2 by assumption. reflexivity.
Qed.

End OneResult.

Lemma result_delivered_at_most_once_witness :
  exists w tr,
    run (H := linux_x86_64) script_escalation (new_session None) = Some (Ok tt w tr) /\
    count is_notification tr = 1%nat /\
    quiescent w.
Proof.
  destruct (run (H := linux_x86_64) script_escalation (new_session None))
    as [res|] eqn:Hrun; [|vm_compute in Hrun; discriminate Hrun].
  destruct (result_delivered_at_most_once (H := linux_x86_64) env_ok None None None 0
              (new_session None) [] script_escalation res
              eq_refl script_escalation_fork_ok Hrun)
    as (w & tr & -> & _ & Hone).
  exists w, tr. split; [reflexivity|].
  assert (Hc : count is_notification tr = 1%nat).
  { vm_compute in Hrun. injection Hrun as _ <-. reflexivity. }
  split; [exact Hc|]. exact (proj1 (Hone Hc)).
Defined.

Lemma jobs_run_one_at_a_time_witness :
  exists w tr,
    run (H := linux_x86_64) script_before_download_sink (new_session None)
    = Some (Ok tt w tr) /\
    forall j job, jobs w !! j = Some job -> PullJob.active job = true -> j = 3%positive.
Proof.
  destruct (run (H := linux_x86_64) script_before_download_sink (new_session None))
    as [res|] eqn:Hrun; [|vm_compute in Hrun; discriminate Hrun].
  destruct (jobs_run_one_at_a_time (H := linux_x86_64) env_ok None None None 0
              (new_session None) [] script_before_download_sink res
              eq_refl script_before_download_sink_fork_ok Hrun)
    as (w & tr & -> & Hone).
  exists w, tr. split; [reflexivity|]. intros j job Hj Hact.
  destruct (jobs w !! 3%positive) as [job3|] eqn:H3.
  - apply (Hone j 3%positive job job3 Hj Hact H3).
    vm_compute in Hrun. injection Hrun as <- _.
    vm_compute in H3. injection H3 as <-. reflexivity.
  - vm_compute in Hrun. injection Hrun as <- _. vm_compute in H3. discriminate H3.
Defined.

Lemma teardown_releases_each_job_once_witness :
  exists w tr,
    run (H := linux_x86_64) script_escalation (new_session None) = Some (Ok tt w tr) /\
    count (is_unref_of 2%positive) (snd (aci_pull_unref (Some w))) = 1%nat /\
    count (is_unref_of 4%positive) (snd (aci_pull_unref (Some w))) = 0%nat.
Proof.
  destruct (run (H := linux_x86_64) script_escalation (new_session None))
    as [res|] eqn:Hrun; [|vm_compute in Hrun; discriminate Hrun].
  destruct (teardown_releases_each_job_once (H := linux_x86_64) env_ok None None None 0
              (new_session None) [] script_escalation res
              eq_refl script_escalation_fork_ok Hrun)
    as (w & tr & -> & Hcount).
  exists w, tr. split; [reflexivity|].
  rewrite !Hcount. vm_compute in Hrun. injection Hrun as <- _.
  split; vm_compute; reflexivity.
Defined.

(** ** Published progress *)

Lemma bounded_step_refl (w : World) : bounded_step w w.
Proof. intros Hb. exact Hb. Qed.

Lemma bounded_step_trans (w1 w2 w3 : World) :
  bounded_step w1 w2 -> bounded_step w2 w3 -> bounded_step w1 w3.
Proof. unfold bounded_step. auto. Qed.

Lemma bounded_step_aci (w : World) (i : AciPull.t) : bounded_step w (mkWorld i (jobs w)).
Proof. intros Hb. exact Hb. Qed.

Lemma bounded_step_job (w : World) (i : AciPull.t) (j : ptr) (x : PullJob.t) :
  0 <= PullJob.progress_percent x <= 100 ->
  bounded_step w (mkWorld i (<[j := x]> (jobs w))).
Proof.
  intros Hx Hb p job Hp. cbn [jobs] in Hp.
  apply lookup_insert_Some in Hp as [[_ <-]|[_ Hp]]; [exact Hx|eauto].
Qed.

Lemma bounded_step_update (w : World) (j : ptr) (job x : PullJob.t) :
  jobs w !! j = Some job ->
  PullJob.progress_percent x = PullJob.progress_percent job ->
  bounded_step w (mkWorld (aci w) (<[j := x]> (jobs w))).
Proof.
  intros Hj Hx Hb. apply bounded_step_job; [|exact Hb]. rewrite Hx. exact (Hb j job Hj).
Qed.

Lemma quiet_publishes (x : Effect) :
  is_progress_call x = false -> publishes_within_bounds x.
Proof. intros Hx u msg ->. discriminate Hx. Qed.

Lemma copying_publishes : publishes_within_bounds (sd_notifyf false (progress_message 95)).
Proof. intros u msg [= <- <-]. split; [reflexivity|]. exists 95. split; [reflexivity|lia]. Qed.

Ltac rside_bounded :=
  lazymatch goal with
  | |- respects _ _ _ _ => fail
  | |- _ =>
      first
        [ exact I
        | exact bounded_step_refl
        | exact bounded_step_trans
        | solve [intros; apply bounded_step_aci]
        | solve [intros; apply bounded_step_job; cbn; lia]
        | solve [intros; eapply bounded_step_update; [eassumption|reflexivity]]
        | solve [apply quiet_publishes; reflexivity]
        | solve [unfold any; auto] ]
  end.

Ltac rauto_bounded := repeat (rstep; try rside_bounded).

Section Published.

Context `{Collaborators}.

Lemma report_copying_bounded :
  respects bounded_step any publishes_within_bounds (aci_pull_report_progress ACI_COPYING).
Proof.
  intros w. cbn. split; [exact (bounded_step_refl w)|]. split; [exact I|].
  constructor; [exact copying_publishes|constructor].
Qed.

Lemma start_bounded (e : Env) (name tag : string) (local : option string)
    (force_local : bool) :
  respects bounded_step any publishes_within_bounds
    (aci_pull_start e name tag local force_local).
Proof.
  unfold aci_pull_start, free_and_strdup, do_pull_job_new, do_pull_job_begin.
  rauto_bounded.
Qed.

Lemma on_open_disk_bounded (e : Env) (j : ptr) :
  respects bounded_step any publishes_within_bounds (aci_pull_job_on_open_disk e j).
Proof.
  unfold aci_pull_job_on_open_disk.
  rauto_bounded.
Qed.

Lemma on_finished_bounded (e : Env) (j : ptr) :
  respects bounded_step any publishes_within_bounds (aci_pull_job_on_finished e j).
Proof.
  unfold aci_pull_job_on_finished, on_finished_dispatch, on_finished_copy,
         on_finished_finish, aci_pull_make_local_copy,
         aci_pull_start_meta_discovery, aci_pull_start_download,
         do_pull_job_new, do_pull_job_begin.
  rauto_bounded; try apply report_copying_bounded.
Qed.

Lemma add_job_progress_within (w : World) (slot : option ptr) (scale floor : Z) :
  (forall p, slot = Some p ->
     exists job, jobs w !! p = Some job /\ 0 <= PullJob.progress_percent job <= 100) ->
  0 <= scale <= 100 -> 0 <= floor <= 100 ->
  exists v, add_job_progress slot scale floor w = Ok v w [] /\ floor <= v <= floor + scale.
Proof.
  intros Hslot Hs Hf. destruct slot as [p|].
  - destruct (Hslot p eq_refl) as (job & Hj & Hb).
    rewrite (add_job_progress_live w p job) by assumption.
    eexists. split; [reflexivity|].
    assert (0 <= PullJob.progress_percent job * scale / 100 <= scale); [|lia].
    split; [apply Z.div_pos; nia|apply Z.div_le_upper_bound; nia].
  - exists floor. split; [reflexivity|lia].
Qed.

Lemma report_progress_within (ph : AciProgress) (w : World) :
  wf w -> bounded w ->
  exists v,
    aci_pull_report_progress ph w = Ok tt w [sd_notifyf false (progress_message v)] /\
    0 <= v <= 95.
Proof.
  intros Hwf Hb.
  assert (Hslot : forall s p, AciPull.slot s (aci w) = Some p ->
            exists job, jobs w !! p = Some job /\ 0 <= PullJob.progress_percent job <= 100).
  { intros s p Hs. destruct (wf_slot_live w Hwf _ _ Hs) as [job Hj]. eauto. }
  unfold aci_pull_report_progress, combined_percent.
  unfold mbind at 1 2, M_bind, get_aci.
  destruct ph.
  - destruct (add_job_progress_within w (AciPull.simple_discovery_job (aci w)) 50 0)
      as (v & -> & Hv); [exact (Hslot SIMPLE_DISCOVERY_JOB)|lia|lia|].
    exists v. split; [reflexivity|lia].
  - destruct (add_job_progress_within w (AciPull.meta_discovery_job (aci w)) 5 50)
      as (v & -> & Hv); [exact (Hslot META_DISCOVERY_JOB)|lia|lia|].
    exists v. split; [reflexivity|lia].
  - destruct (add_job_progress_within w (AciPull.download_job (aci w)) 40 55)
      as (v & -> & Hv); [exact (Hslot DOWNLOAD_JOB)|lia|lia|].
    exists v. split; [reflexivity|lia].
  - exists 95. split; [reflexivity|lia].
Qed.

Lemma on_progress_within (j : ptr) (job : PullJob.t) (w : World) :
  wf w -> bounded w -> jobs w !! j = Some job ->
  exists v,
    aci_pull_job_on_progress j w = Ok tt w [sd_notifyf false (progress_message v)] /\
    0 <= v <= 95.
Proof.
  intros Hwf Hb Hj.
  destruct (report_progress_within
              (if decide (Some j = AciPull.simple_discovery_job (aci w))
               then ACI_SIMPLE_DISCOVERY
               else if decide (Some j = AciPull.meta_discovery_job (aci w))
                    then ACI_META_DISCOVERY else ACI_DOWNLOADING) w Hwf Hb)
    as (v & Hrun & Hv).
  exists v. split; [|exact Hv].
  unfold aci_pull_job_on_progress. munfold. rewrite Hj. cbn.
  rewrite Hrun. reflexivity.
Qed.

Lemma deliver_bounded (e : Env) (ev : Event) (w w' : World) (tr tr' : list Effect) :
  Inv w tr ->
  bounded w ->
  match ev with EvProgress _ percent => 0 <= percent <= 100 | _ => True end ->
  deliver e ev w = Some (Ok tt w' tr') ->
  bounded w' /\ Forall publishes_within_bounds tr'.
Proof.
  intros HI Hb Hev Hdel.
  assert (Hlogic : forall m : M unit,
            respects bounded_step any publishes_within_bounds m ->
            m w = Ok tt w' tr' ->
            bounded w' /\ Forall publishes_within_bounds tr').
  { intros m Hm Hrun. specialize (Hm w). rewrite Hrun in Hm.
    destruct Hm as (Hstep & _ & Hlog). split; [exact (Hstep Hb)|exact Hlog]. }
  destruct ev as [name tag local force_local|j|j percent|j ret]; cbn [deliver] in Hdel.
  - injection Hdel as Hdel. refine (Hlogic _ _ Hdel).
    eapply respects_seq with (Q := any);
      [exact bounded_step_trans|apply start_bounded
      |intros; apply respects_ret; [exact bounded_step_refl|exact I]].
  - destruct (jobs w !! j) as [job|]; [|discriminate].
    case_decide; [|discriminate]. injection Hdel as Hdel. refine (Hlogic _ _ Hdel).
    eapply respects_seq with (Q := any);
      [exact bounded_step_trans| |intros; apply respects_modify_job; rside_bounded].
    apply respects_run_hook;
      [exact bounded_step_refl|exact bounded_step_trans|apply on_open_disk_bounded].
  - destruct (jobs w !! j) as [job|] eqn:Hj; [|discriminate].
    destruct (PullJob.active job) eqn:Hact; [|discriminate]. injection Hdel as Hdel.
    pose proof (inv_wf _ _ HI) as Hwf.
    destruct (wf_job_slot w Hwf j (mk_is_Some _ _ Hj)) as [s0 Hs0].
    set (job' := PullJob.with_progress_percent (u32 percent) job) in *.
    set (w1 := mkWorld (aci w) (<[j := job']> (jobs w))) in *.
    assert (Hwf1 : wf w1) by (apply wf_upd; [assumption|eauto|apply same_slots_refl]).
    assert (Hb1 : bounded w1).
    { apply (bounded_step_job w (aci w) j job'); [|exact Hb].
      unfold job'. cbn. rewrite u32_small by lia. exact Hev. }
    unfold run_hook in Hdel. destruct (PullJob.on_progress job).
    + destruct (on_progress_within j job' w1 Hwf1 Hb1) as (v & Hmsg & Hv);
        [apply lookup_insert_eq|].
      revert Hdel. mred. fold job'. fold w1. rewrite Hmsg. intros [= <- <-].
      split; [exact Hb1|]. constructor; [|constructor].
      intros u msg [= <- <-]. split; [reflexivity|]. exists v. split; [reflexivity|exact Hv].
    + revert Hdel. mred. fold job'. fold w1. intros [= <- <-].
      split; [exact Hb1|constructor].
  - destruct (jobs w !! j) as [job|]; [|discriminate].
    destruct (PullJob.active job); [|discriminate]. injection Hdel as Hdel.
    refine (Hlogic _ _ Hdel).
    eapply respects_seq with (Q := any);
      [exact bounded_step_trans
      |case_decide; apply respects_modify_job; rside_bounded|intros].
    apply respects_run_hook;
      [exact bounded_step_refl|exact bounded_step_trans|apply on_finished_bounded].
Qed.

Lemma run_bounded (script : list (Env * Event)) :
  forall (w : World) (tr : list Effect) (res : Res unit),
  Inv w tr ->
  bounded w ->
  script_fork_ok script ->
  progress_in_range script ->
  run script w = Some res ->
  exists w' tr', res = Ok tt w' tr' /\ Forall publishes_within_bounds tr'.
Proof.
  induction script as [|[e ev] script IH]; intros w tr res HI Hb Hfork Hrange Hrun.
  - cbn in Hrun. injection Hrun as <-. exists w, []. split; [reflexivity|constructor].
  - cbn [run] in Hrun.
    apply Forall_cons in Hfork as [Hfe Hfork]. cbn [fst] in Hfe.
    apply Forall_cons in Hrange as [Hev Hrange]. cbn [snd] in Hev.
    destruct (deliver e ev w) as [res1|] eqn:Hdel; [|discriminate].
    destruct (deliver_ok e ev w tr res1 HI Hfe Hdel) as (w1 & tr1 & -> & HI1 & _).
    destruct (deliver_bounded _ _ _ _ _ _ HI Hb Hev Hdel) as [Hb1 Hlog1].
    destruct (run script w1) as [res2|] eqn:Hrest; [|discriminate].
    destruct (IH w1 (tr ++ tr1) res2 HI1 Hb1 Hfork Hrange Hrest) as (w2 & tr2 & -> & Hlog2).
    injection Hrun as <-. exists w2, (tr1 ++ tr2). split; [reflexivity|].
    apply Forall_app. auto.
Qed.

(** X24.  As long as the transport reports progress between 0 and 100,
    every progress message a session publishes carries a percentage
    between 0 and 95: the session never announces more than 95%, also
    not when the pull has completed. *)
Theorem published_progress_within_bounds (e0 : Env) (event : option ptr)
    (image_root : option string) (callback : option ptr) (userdata : Z)
    (w0 : World) (tr0 : list Effect) (script : list (Env * Event)) (res : Res unit) :
  aci_pull_new e0 event image_root callback userdata = (0, Some w0, tr0) ->
  script_fork_ok script ->
  progress_in_range script ->
  run script w0 = Some res ->
  exists w tr,
    res = Ok tt w tr /\
    forall u msg,
      sd_notifyf u msg ∈ tr ->
      u = false /\ exists v, msg = progress_message v /\ 0 <= v <= 95.
Proof.
  intros Hnew Hfork Hrange Hrun.
  destruct (Inv_new_session _ _ _ _ _ _ _ Hnew) as (HI & _).
  assert (Hb : bounded w0).
  { unfold aci_pull_new in Hnew.
    repeat case_match; simplify_eq; intros q job Hq; cbn in Hq;
      rewrite lookup_empty in Hq; discriminate Hq. }
  destruct (run_bounded script w0 [] res HI Hb Hfork Hrange Hrun) as (w & tr & -> & Hlog).
  exists w, tr. split; [reflexivity|]. intros u msg Hin.
  rewrite Forall_forall in Hlog. exact (Hlog _ Hin u msg eq_refl).
Qed.

End Published.

(** ** Completion and the subprocess *)

(** X25.  When a job that carries the asset has succeeded, the handler
    waits for the extraction subprocess, if one is attached, before it
    delivers the result, and leaves none attached: a teardown that
    follows sends no signal and waits for no process. *)
Theorem completion_reaps_before_delivering (e : Env) (j : ptr) (job : PullJob.t)
    (w : World) :
  jobs w !! j = Some job ->
  AciPull.simple_discovery_job (aci w) = Some j \/
  (AciPull.meta_discovery_job (aci w) <> Some j /\ AciPull.download_job (aci w) = Some j) ->
  0 <= PullJob.error job ->
  exists w' tr r,
    aci_pull_job_on_finished e j w = Ok tt w' (tr ++ [notification (aci w) r]) /\
    (0 < AciPull.tar_pid (aci w) ->
     wait_for_terminate_and_warn "tar" (AciPull.tar_pid (aci w)) true ∈ tr) /\
    AciPull.tar_pid (aci w') <= 0 /\
    forallb (fun x => negb (is_reap x)) (snd (aci_pull_unref (Some w'))) = true.
Proof.
  intros Hj Hs Herr.
  rewrite aci_pull_job_on_finished_eq.
  rewrite (dispatch_copy e j job w) by assumption.
  destruct (on_finished_copy_spec e j job w Hj) as (r & fp & copied & -> & _ & _).
  do 3 eexists. split; [rewrite app_nil_l; reflexivity|].
  cbn [aci AciPull.tar_pid AciPull.with_final_path AciPull.with_tar_pid].
  destruct (0 <? AciPull.tar_pid (aci w)) eqn:Hpid.
  - split; [intros _; do 2 apply list_elem_of_further; apply list_elem_of_here|].
    split; [lia|]. cbn. destruct (AciPull.temp_path (aci w)); reflexivity.
  - apply Z.ltb_ge in Hpid. split; [intros Hpos; lia|]. split; [exact Hpid|].
    cbn [aci_pull_unref snd aci AciPull.tar_pid AciPull.with_final_path
         AciPull.with_tar_pid].
    replace (1 <? AciPull.tar_pid (aci w)) with false by (symmetry; apply Z.ltb_ge; lia).
    cbn. destruct (AciPull.temp_path (aci w)); reflexivity.
Qed.

Lemma completion_reaps_before_delivering_witness :
  exists w' tr,
    aci_pull_job_on_finished env_ok 1%positive world_simple_done
    = Ok tt w' (tr ++ [sd_event_exit (Some 1%positive) 0]) /\
    wait_for_terminate_and_warn "tar" 4242 true ∈ tr /\
    AciPull.tar_pid (aci w') <= 0.
Proof.
  destruct (completion_reaps_before_delivering env_ok 1%positive
              (PullJob.with_progress_percent 100
                 (PullJob.with_state PULL_JOB_DONE
                    (simple_discovery_job_of "https://example-v2.0.0-linux-amd64.aci")))
              world_simple_done)
    as (w' & tr & r & Hrun & Hwait & Hpid & _).
  - reflexivity.
  - left. reflexivity.
  - vm_compute. discriminate.
  - exists w', tr. split; [|split; [apply Hwait; reflexivity|exact Hpid]].
    rewrite Hrun.
    pose proof (f_equal (fun res => last (log_of res)) Hrun) as Hlast.
    cbn [log_of] in Hlast. rewrite last_snoc in Hlast.
    vm_compute in Hlast. injection Hlast as <-. reflexivity.
Defined.

Lemma published_progress_within_bounds_witness :
  exists w tr,
    run (H := linux_x86_64) script_escalation (new_session None) = Some (Ok tt w tr) /\
    sd_notifyf false "X_IMPORT_PROGRESS=20" ∈ tr /\
    forall u msg,
      sd_notifyf u msg ∈ tr ->
      u = false /\ exists v, msg = progress_message v /\ 0 <= v <= 95.
Proof.
  destruct (run (H := linux_x86_64) script_escalation (new_session None))
    as [res|] eqn:Hrun; [|vm_compute in Hrun; discriminate Hrun].
  destruct (published_progress_within_bounds (H := linux_x86_64) env_ok None None None 0
              (new_session None) [] script_escalation res
              eq_refl script_escalation_fork_ok)
    as (w & tr & -> & Hlog).
  - repeat constructor; cbn; lia.
  - exact Hrun.
  - exists w, tr. split; [reflexivity|]. split; [|exact Hlog].
    vm_compute in Hrun. injection Hrun as _ <-.
    repeat first [apply list_elem_of_here|apply list_elem_of_further].
Defined.
